(** * CLI_agent: orchestration and decision logic

    A shallow embedding of the decision logic of the coding-agent
    repository (src/agents/code_agent.py, src/agents/reviewer_agent.py,
    src/agents/issue_processor.py, src/github/client.py) together with
    the properties stated for it.

    Conventions.
    - A Python [str] is a [string] of 8-bit characters; only the ASCII
      letters have a case.
    - A Python [dict] decoded from JSON is an association list
      [list (string * json)] read with [dict_get] (first binding wins,
      the decoder keeps one binding per key).
    - A Python [set] of label names is a [gset string].
    - Code that can raise returns a [result]; [try ... except Exception]
      is [try_except]. *)

From Stdlib Require Import ZArith List Ascii String DecimalString Bool Lia.
From Stdlib Require DecimalPos DecimalZ.
From stdpp Require Import base option list gmap strings.

Set Warnings "-register-all".
Local Open Scope string_scope.

(** ** Python strings *)
Module PyStr.

Definition is_upper (c : ascii) : bool :=
  let n := N_of_ascii c in (65 <=? n)%N && (n <=? 90)%N.

Definition is_lower (c : ascii) : bool :=
  let n := N_of_ascii c in (97 <=? n)%N && (n <=? 122)%N.

Definition is_digit (c : ascii) : bool :=
  let n := N_of_ascii c in (48 <=? n)%N && (n <=? 57)%N.

Definition lower_char (c : ascii) : ascii :=
  if is_upper c then ascii_of_N (N_of_ascii c + 32) else c.

(** [s.lower()] *)
Fixpoint lower (s : string) : string :=
  match s with
  | EmptyString => EmptyString
  | String c s' => String (lower_char c) (lower s')
  end.

(** [s.startswith(p)] *)
Fixpoint startswith (p s : string) : bool :=
  match p, s with
  | EmptyString, _ => true
  | String a p', String b s' => Ascii.eqb a b && startswith p' s'
  | String _ _, EmptyString => false
  end.

(** [needle in s] *)
Fixpoint contains (needle s : string) : bool :=
  startswith needle s ||
  match s with
  | EmptyString => false
  | String _ s' => contains needle s'
  end.

(** [s.endswith(suf)] *)
Fixpoint endswith (suf s : string) : bool :=
  String.eqb suf s ||
  match s with
  | EmptyString => false
  | String _ s' => endswith suf s'
  end.

(** [s[:n]] *)
Fixpoint take (n : nat) (s : string) : string :=
  match n, s with
  | S n', String c s' => String c (take n' s')
  | _, _ => EmptyString
  end.

(** [s[n:]] *)
Fixpoint drop (n : nat) (s : string) : string :=
  match n, s with
  | S n', String _ s' => drop n' s'
  | _, _ => s
  end.

(** [s[:-1]] *)
Fixpoint drop_last (s : string) : string :=
  match s with
  | EmptyString => EmptyString
  | String c EmptyString => EmptyString
  | String c s' => String c (drop_last s')
  end.

(** [s.lstrip(chars)], the character set given by its test *)
Fixpoint lstrip_by (f : ascii -> bool) (s : string) : string :=
  match s with
  | EmptyString => EmptyString
  | String a s' => if f a then lstrip_by f s' else s
  end.

(** [s.rstrip(chars)] *)
Fixpoint rstrip_by (f : ascii -> bool) (s : string) : string :=
  match s with
  | EmptyString => EmptyString
  | String a s' =>
      match rstrip_by f s' with
      | EmptyString => if f a then EmptyString else String a EmptyString
      | r => String a r
      end
  end.

(** [s.strip(c)] for a one-character set *)
Definition strip (c : ascii) (s : string) : string :=
  rstrip_by (fun a => Ascii.eqb a c) (lstrip_by (fun a => Ascii.eqb a c) s).

(** [c.isspace()] on the first 256 code points: tab to carriage return
    (9-13), the four separators 28-31, blank, next line (133) and the
    no-break space (160). *)
Definition is_space (c : ascii) : bool :=
  let n := N_of_ascii c in
  ((9 <=? n)%N && (n <=? 13)%N) || ((28 <=? n)%N && (n <=? 32)%N)
  || (n =? 133)%N || (n =? 160)%N.

(** [s.strip()] *)
Definition strip_ws (s : string) : string :=
  rstrip_by is_space (lstrip_by is_space s).

(** [s.replace(a, b)] for single characters *)
Fixpoint replace_char (a b : ascii) (s : string) : string :=
  match s with
  | EmptyString => EmptyString
  | String c s' => String (if Ascii.eqb c a then b else c) (replace_char a b s')
  end.

(** [any(k in s for k in keywords)] *)
Definition any_in (keywords : list string) (s : string) : bool :=
  existsb (fun k => contains k s) keywords.

(** [str(n)] for an integer *)
Definition of_Z (n : Z) : string := NilZero.string_of_int (Z.to_int n).

End PyStr.

(** ** Exceptions *)

(** Python separates [Exception] (caught by [except Exception]) from the
    other [BaseException]s such as [KeyboardInterrupt]. *)
Inductive exn : Type :=
| Exception (msg : string)
| KeyboardInterrupt.

Inductive result (A : Type) : Type :=
| Ok (a : A)
| Raise (e : exn).
Arguments Ok {A} a.
Arguments Raise {A} e.

(** [try: body except Exception as e: handler(e)] *)
Definition try_except {A} (body : result A) (handler : string -> result A) : result A :=
  match body with
  | Ok a => Ok a
  | Raise (Exception msg) => handler msg
  | Raise KeyboardInterrupt => Raise KeyboardInterrupt
  end.

Definition bind {A B} (m : result A) (k : A -> result B) : result B :=
  match m with
  | Ok a => k a
  | Raise e => Raise e
  end.

(** ** JSON values as Python objects *)
Module Json.

Inductive json : Type :=
| JNull
| JBool (b : bool)
| JInt (z : Z)
| JStr (s : string)
| JList (l : list json)
| JDict (d : list (string * json)).

Abbreviation dict := (list (string * json)).

(** Python truth value of an object. *)
Definition truthy (v : json) : bool :=
  match v with
  | JNull => false
  | JBool b => b
  | JInt z => negb (z =? 0)%Z
  | JStr s => negb (String.eqb s "")
  | JList l => match l with [] => false | _ => true end
  | JDict d => match d with [] => false | _ => true end
  end.

(** [v == "lit"] for a string literal. *)
Definition eq_str (v : json) (lit : string) : bool :=
  match v with
  | JStr s => String.eqb s lit
  | _ => false
  end.

(** [d.get(k)] *)
Fixpoint lookup (k : string) (d : dict) : option json :=
  match d with
  | [] => None
  | (k', v) :: d' => if String.eqb k k' then Some v else lookup k d'
  end.

(** [d.get(k, default)] *)
Definition dict_get (d : dict) (k : string) (default : json) : json :=
  match lookup k d with
  | Some v => v
  | None => default
  end.

(** [d[k] = v] *)
Fixpoint dict_set (d : dict) (k : string) (v : json) : dict :=
  match d with
  | [] => [(k, v)]
  | (k', v') :: d' =>
      if String.eqb k k' then (k, v) :: d' else (k', v') :: dict_set d' k v
  end.

(** [v.get(k, default)] on an arbitrary decoded value: only a dict has
    the method. *)
Definition py_get (v : json) (k : string) (default : json) : result json :=
  match v with
  | JDict d => Ok (dict_get d k default)
  | _ => Raise (Exception "AttributeError: object has no attribute 'get'")
  end.

End Json.
Import Json.

(** ** GitHub client (src/github/client.py) *)
Module Client.

(** One commit status entry, as read by [get_ci_status]. *)
Record Status : Type := {
  context : string;
  state : string;
  description : string;
  target_url : string
}.

Record Commit : Type := { statuses : list Status }.

(** The dictionary returned by [get_ci_status]. *)
Record CIStatus : Type := {
  success : bool;
  jobs : list Status;
  details : string
}.

(** The [for status in statuses] loop of [get_ci_status]. *)
Fixpoint ci_loop (sts : list Status) (results : CIStatus) : CIStatus :=
  match sts with
  | [] => results
  | st :: rest =>
      let results1 :=
        {| success := success results;
           jobs := (jobs results ++ [st])%list;
           details := details results |} in
      let results2 :=
        if negb (String.eqb (state st) "success") then
          {| success := false;
             jobs := jobs results1;
             details := details results1 +:+ context st +:+ ": " +:+ state st +:+ "
" |}
        else results1 in
      ci_loop rest results2
  end.

(** [get_ci_status], on the commits of the pull request. *)
Definition get_ci_status (commits : list Commit) : CIStatus :=
  match last commits with
  | None => {| success := false; jobs := []; details := "No commits found" |}
  | Some latest_commit =>
      ci_loop (statuses latest_commit)
              {| success := true; jobs := []; details := "" |}
  end.

Definition status_labels : gset string :=
  {[ "in-progress"; "needs-review"; "ready"; "blocked" ]}.

(** [status.lower().replace(" ", "-")] *)
Definition status_label (status : string) : string :=
  PyStr.replace_char " "%char "-"%char (PyStr.lower status).

Record Issue : Type := {
  issue_labels : gset string;
  issue_comments : list string
}.

(** [update_issue_status]: optional comment, then the label set is
    replaced by [current_labels - status_labels] plus the new label. *)
Definition update_issue_status (issue : Issue) (status comment : string) : Issue :=
  let comments :=
    if negb (String.eqb comment "") then
      (issue_comments issue ++ ["**Status Update**: " +:+ status +:+ "

" +:+ comment])%list
    else issue_comments issue in
  let current_labels := issue_labels issue in
  let new_labels := current_labels ∖ status_labels in
  let new_labels := new_labels ∪ {[ status_label status ]} in
  {| issue_labels := new_labels; issue_comments := comments |}.

End Client.

(** ** Reviewer agent (src/agents/reviewer_agent.py) *)
Module Reviewer.

(** [_determine_next_action] *)
Definition _determine_next_action (review_results : dict) (ci_status : Client.CIStatus) : string :=
  let meets_requirements := dict_get review_results "meets_requirements" (JBool false) in
  let review_status := dict_get review_results "status" (JStr "needs_work") in
  let ci_success := Client.success ci_status in
  if truthy meets_requirements && eq_str review_status "approved" && ci_success then
    "merge"
  else if negb ci_success then
    "fix_ci"
  else if negb (truthy meets_requirements) || negb (eq_str review_status "approved") then
    "request_changes"
  else
    "wait".

(** [review_results.get("meets_requirements", False)] *)
Definition meets_requirements_of (review_results : dict) : json :=
  dict_get review_results "meets_requirements" (JBool false).

(** [review_results.get("status", "needs_work") == "approved"] *)
Definition approved_of (review_results : dict) : bool :=
  eq_str (dict_get review_results "status" (JStr "needs_work")) "approved".

(** A review dictionary with a boolean flag and a status string. *)
Definition review_of (meets : bool) (status : string) : dict :=
  [("meets_requirements", JBool meets); ("status", JStr status)].

(** A CI status dictionary with the given aggregate. *)
Definition ci_of (ok : bool) : Client.CIStatus :=
  {| Client.success := ok; Client.jobs := []; Client.details := "" |}.

End Reviewer.
Import Reviewer.

(** ** Review labels (src/agents/reviewer_agent.py, [_post_review_feedback]) *)
Module ReviewLabels.

Record PullRequest : Type := {
  pr_labels : gset string;
  pr_comments : list string
}.

Definition review_labels : gset string :=
  {[ "approved"; "changes-requested"; "needs-work" ]}.

(** The label chosen by the [if/elif/else] of [_post_review_feedback]. *)
Definition outcome_label (review_results : dict) : string :=
  let status := dict_get review_results "status" (JStr "unknown") in
  if eq_str status "approved"
     && truthy (dict_get review_results "meets_requirements" (JBool false))
  then "approved"
  else if eq_str status "changes_requested" then "changes-requested"
  else "needs-work".

(** [_post_review_feedback]: [formatted] is the outcome of
    [_format_review_comment], which runs first and may raise; the label
    set is then replaced and the comment appended. *)
Definition _post_review_feedback (formatted : result string) (pr : PullRequest)
    (review_results : dict) : result PullRequest :=
  bind formatted (fun comment =>
    let current_labels := pr_labels pr in
    let new_labels := current_labels ∖ review_labels in
    let new_labels := new_labels ∪ {[ outcome_label review_results ]} in
    Ok {| pr_labels := new_labels;
          pr_comments := (pr_comments pr ++ [comment])%list |}).

End ReviewLabels.

(** ** Settings (src/utils/config.py) *)
Record Settings : Type := {
  max_iterations : Z;
  branch_prefix : string
}.

(** The defaults declared by the [Field]s. *)
Definition default_settings : Settings :=
  {| max_iterations := 5; branch_prefix := "agent/" |}.

(** ** Implementation plan (src/agents/code_agent.py) *)
Module Plan.

(** Membership in the class [a-zA-Z0-9-]. *)
Definition slug_char (c : ascii) : bool :=
  PyStr.is_lower c || PyStr.is_upper c || PyStr.is_digit c || Ascii.eqb c "-"%char.

(** [re.sub(r'[^a-zA-Z0-9-]', '-', s)] *)
Fixpoint sub_non_slug (s : string) : string :=
  match s with
  | EmptyString => EmptyString
  | String c s' => String (if slug_char c then c else "-"%char) (sub_non_slug s')
  end.

(** [re.sub(r'-+', '-', s)] *)
Fixpoint collapse_hyphens (s : string) : string :=
  match s with
  | EmptyString => EmptyString
  | String c s' =>
      if Ascii.eqb c "-"%char then
        if PyStr.startswith "-" s' then collapse_hyphens s'
        else String "-"%char (collapse_hyphens s')
      else String c (collapse_hyphens s')
  end.

(** The two assignments to [clean_title]. *)
Definition clean_title (issue_title : string) : string :=
  let clean_title := sub_non_slug (PyStr.lower issue_title) in
  PyStr.take 50 (PyStr.strip "-"%char (collapse_hyphens clean_title)).

(** The f-string and its [[:100]] slice. *)
Definition derive_branch_name (settings : Settings) (issue_number : Z)
    (issue_title : string) : string :=
  PyStr.take 100
    (branch_prefix settings +:+ "issue-" +:+ PyStr.of_Z issue_number +:+ "-"
     +:+ clean_title issue_title).

Record ImplementationPlan : Type := {
  plan_issue_number : Z;
  branch_name : string;
  files_to_modify : json;
  plan_analysis : dict
}.

(** [_create_implementation_plan] *)
Definition _create_implementation_plan (settings : Settings) (issue_number : Z)
    (issue_title : string) (analysis : dict) : result ImplementationPlan :=
  let branch_name := derive_branch_name settings issue_number issue_title in
  bind (py_get (dict_get analysis "analysis" (JDict [])) "files_to_modify" (JList []))
    (fun files =>
       Ok {| plan_issue_number := issue_number;
             branch_name := branch_name;
             files_to_modify := files;
             plan_analysis := analysis |}).

(** The collapsing step as the specification words it, in one pass: a
    character outside [a-zA-Z0-9-] counts as a hyphen, and every maximal
    run of hyphens becomes a single hyphen.  [is_separator] holds of the
    hyphen and of the characters that count as one. *)
Definition is_separator (c : ascii) : bool :=
  negb (PyStr.is_lower c || PyStr.is_upper c || PyStr.is_digit c).

Fixpoint spec_collapse_runs (s : string) : string :=
  match s with
  | EmptyString => EmptyString
  | String c s' =>
      if is_separator c then
        match s' with
        | EmptyString => "-"
        | String d _ =>
            if is_separator d then spec_collapse_runs s'
            else String "-"%char (spec_collapse_runs s')
        end
      else String c (spec_collapse_runs s')
  end.

(** The derivation steps in the order the specification lists them. *)
Definition spec_branch_name (prefix : string) (issue_number : Z) (title : string) : string :=
  let lowered := PyStr.lower title in
  let collapsed := spec_collapse_runs lowered in
  let trimmed := PyStr.strip "-"%char collapsed in
  let short := PyStr.take 50 trimmed in
  let prefixed := prefix +:+ "issue-" +:+ PyStr.of_Z issue_number +:+ "-" +:+ short in
  PyStr.take 100 prefixed.

End Plan.

(** ** File relevance resolver (src/agents/code_agent.py) *)
Module Resolver.

(** [_determine_file_patterns] *)
Definition _determine_file_patterns (requirement : string) : list string :=
  let patterns : list string := [] in
  let patterns :=
    if PyStr.any_in ["python"; ".py"; "py file"] requirement
    then (patterns ++ ["*.py"])%list else patterns in
  let patterns :=
    if PyStr.any_in ["documentation"; "readme"; ".md"; "markdown"] requirement
    then (patterns ++ ["*.md"])%list else patterns in
  let patterns :=
    if PyStr.any_in ["test"; "tests"; "testing"] requirement
    then (patterns ++ ["*test*.py"])%list else patterns in
  let patterns :=
    if PyStr.any_in ["config"; "configuration"; ".json"; ".yaml"; ".yml"] requirement
    then (patterns ++ ["*.json"; "*.yaml"; "*.yml"])%list else patterns in
  match patterns with
  | [] => ["*.py"]
  | _ => patterns
  end.

(** [_pattern_matches]; [pattern[1:]] is [drop 1] and [pattern[1:-1]]
    is [drop_last (drop 1 _)]. *)
Definition _pattern_matches (pattern file_path : string) : bool :=
  if PyStr.startswith "*" pattern then
    PyStr.endswith (PyStr.drop 1 pattern) file_path
    || (if PyStr.contains "*" (PyStr.drop_last (PyStr.drop 1 pattern))
        then PyStr.contains (PyStr.drop_last (PyStr.drop 1 pattern)) file_path
        else false)
  else String.eqb file_path pattern.

Definition excluded_fragments : list string :=
  ["__pycache__"; "node_modules/"; "venv/"; ".venv/"; "env/"; "dist/"; "build/"; ".git"].

(** The condition under which the loop appends [item.path]. *)
Definition keeps (patterns : list string) (path : string) : bool :=
  existsb (fun pattern => _pattern_matches pattern path) patterns
  && negb (existsb (fun exclude => PyStr.contains exclude path) excluded_fragments).

(** [_discover_relevant_files]; [tree] is the outcome of
    [get_repository_tree], given by the paths of its entries. *)
Definition _discover_relevant_files (tree : result (list string))
    (requirement : string) : result (list string) :=
  try_except
    (bind tree (fun tree =>
       match tree with
       | [] => Ok []
       | _ =>
           let patterns := _determine_file_patterns requirement in
           let discovered_files := List.filter (keeps patterns) tree in
           Ok (firstn 50 discovered_files)
       end))
    (fun _ => Ok []).

(** [needle] occurs in [s]. *)
Definition is_substring (needle s : string) : Prop :=
  exists pre post : string, s = pre +:+ needle +:+ post.

(** [s] ends with [suf]. *)
Definition is_suffix (suf s : string) : Prop :=
  exists pre : string, s = pre +:+ suf.

End Resolver.

(** ** Effects: state passing with exceptions *)
Module Eff.

(** A computation over a store [St]: it ends with a value or an
    exception, and with the store it has reached either way. *)
Definition M (St A : Type) : Type := St -> result A * St.

Definition ret {St A} (a : A) : M St A := fun st => (Ok a, st).

Definition raise {St A} (e : exn) : M St A := fun st => (Raise e, st).

Definition mbind {St A B} (m : M St A) (k : A -> M St B) : M St B :=
  fun st =>
    match m st with
    | (Ok a, st') => k a st'
    | (Raise e, st') => (Raise e, st')
    end.

(** [try: m except Exception as e: handler(e)] *)
Definition mtry {St A} (m : M St A) (handler : string -> M St A) : M St A :=
  fun st =>
    match m st with
    | (Raise (Exception msg), st') => handler msg st'
    | other => other
    end.

(** [for x in l: body(x)] *)
Fixpoint for_each {St A} (l : list A) (body : A -> M St unit) : M St unit :=
  match l with
  | [] => ret tt
  | x :: rest => mbind (body x) (fun _ => for_each rest body)
  end.

Definition get {St} : M St St := fun st => (Ok st, st).

Definition modify {St} (f : St -> St) : M St unit := fun st => (Ok tt, f st).

End Eff.

Declare Scope eff_scope.
Delimit Scope eff_scope with eff.
Notation "x <- m ;; k" := (Eff.mbind m (fun x => k))
  (at level 100, m at next level, right associativity) : eff_scope.
Notation "m ;;; k" := (Eff.mbind m (fun _ => k))
  (at level 100, right associativity) : eff_scope.

(** ** Code agent: review feedback (src/agents/code_agent.py) *)
Module CodeAgent.

(** What [get_pull_request] is read for: [pr.head.ref], and [pr.body]
    as the prompt's f-string renders it (the text "None" for a pull
    request without description). *)
Record PullInfo : Type := {
  head_ref : string;
  body : string
}.

(** The collaborators of the agent, over the state [W] of the hosting
    platform and of the model provider.  [get_file_content] returns
    [None] on any failure, as the client does. *)
Record Env (W : Type) : Type := {
  add_pr_comment : Z -> string -> Eff.M W unit;
  get_pull_request : Z -> Eff.M W PullInfo;
  get_changed_files : Z -> Eff.M W (list string);
  get_file_content : string -> string -> W -> option string * W;
  create_or_update_file : string -> string -> string -> string -> Eff.M W unit;
  llm_generate : string -> string -> Eff.M W string
}.
Arguments add_pr_comment {W} _ _ _.
Arguments get_pull_request {W} _ _.
Arguments get_changed_files {W} _ _.
Arguments get_file_content {W} _ _ _.
Arguments create_or_update_file {W} _ _ _ _ _.
Arguments llm_generate {W} _ _ _.

(** The agent instance ([self.iteration_count]) next to the world. *)
Record Agent (W : Type) : Type := {
  iteration_count : Z;
  world : W
}.
Arguments iteration_count {W} _.
Arguments world {W} _.

Section Feedback.
Context {W : Type}.
Variable env : Env W.
Variable settings : Settings.

Local Open Scope eff_scope.

(** A collaborator call, run on the world of the agent. *)
Definition on_world {A} (m : Eff.M W A) : Eff.M (Agent W) A :=
  fun self =>
    let (r, w) := m (world self) in
    (r, {| iteration_count := iteration_count self; world := w |}).

Definition escalation_comment : string :=
  "Maximum iteration limit reached. Manual intervention required.".

(** The f-string of the progress comment. *)
Definition progress_comment (iteration : Z) : string :=
  "Received review feedback. Making adjustments (iteration "
  +:+ PyStr.of_Z iteration +:+ "/" +:+ PyStr.of_Z (max_iterations settings) +:+ ")...".

(** The prompt of [_apply_feedback_to_file]. *)
Definition feedback_prompt (file_path current_content feedback pr_description : string)
    : string :=
  "Apply the following review feedback to the code:

File: " +:+ file_path +:+ "

Review Feedback:
" +:+ feedback +:+ "

Original PR Description:
" +:+ pr_description +:+ "

Current Code:
```python
" +:+ current_content +:+ "
Instructions:

Apply the specific changes requested in the review feedback
Maintain existing functionality unless explicitly asked to change
Keep the same code style and conventions
Return the complete modified code

Modified Code:".

(** [_apply_feedback_to_file] *)
Definition _apply_feedback_to_file (file_path current_content feedback pr_description : string)
    : Eff.M W string :=
  response <- llm_generate env
                "You are a software developer applying code review feedback."
                (feedback_prompt file_path current_content feedback pr_description) ;;
  Eff.ret (PyStr.strip_ws response).

(** The body of the [for file_path in changed_files] loop, inside its
    [try ... except Exception: continue]. *)
Definition revise_file (pr_number : Z) (pr : PullInfo) (feedback file_path : string)
    : Eff.M W unit :=
  Eff.mtry
    (current_content <- (fun w => let (c, w') := get_file_content env file_path (head_ref pr) w
                                  in (Ok c, w')) ;;
     match current_content with
     | None => Eff.ret tt
     | Some current_content =>
         if String.eqb current_content "" then Eff.ret tt
         else
           new_content <- _apply_feedback_to_file file_path current_content feedback (body pr) ;;
           if negb (String.eqb new_content current_content) then
             create_or_update_file env file_path new_content
               ("Apply review feedback for PR #" +:+ PyStr.of_Z pr_number)
               (head_ref pr)
           else Eff.ret tt
     end)
    (fun _ => Eff.ret tt).

(** The revision of one call: read the pull request and its changed
    files, then revise file by file. *)
Definition revise (pr_number : Z) (feedback : string) : Eff.M W unit :=
  pr <- get_pull_request env pr_number ;;
  changed_files <- get_changed_files env pr_number ;;
  Eff.for_each changed_files (revise_file pr_number pr feedback).

(** [handle_review_feedback] *)
Definition handle_review_feedback (pr_number : Z) (feedback : string)
    : Eff.M (Agent W) bool :=
  Eff.modify (fun self => {| iteration_count := iteration_count self + 1;
                             world := world self |}) ;;;
  self <- Eff.get ;;
  if (max_iterations settings <? iteration_count self)%Z then
    on_world (add_pr_comment env pr_number escalation_comment) ;;;
    Eff.ret false
  else
    on_world (add_pr_comment env pr_number (progress_comment (iteration_count self))) ;;;
    on_world (revise pr_number feedback) ;;;
    Eff.ret true.

(** Successive calls on one agent instance, with the outcome of each. *)
Fixpoint feedback_calls (calls : list (Z * string)) (self : Agent W)
    : list (result bool) * Agent W :=
  match calls with
  | [] => ([], self)
  | (pr_number, feedback) :: rest =>
      let (r, self') := handle_review_feedback pr_number feedback self in
      let (rs, self'') := feedback_calls rest self' in
      (r :: rs, self'')
  end.

(** The collaborators answer: posting a comment, reading a pull request
    and listing its files do not raise, and nothing raises an interrupt
    while a file is revised. *)
Definition answers : Prop :=
  (forall n c w, fst (add_pr_comment env n c w) = Ok tt)
  /\ (forall n w, exists pr, fst (get_pull_request env n w) = Ok pr)
  /\ (forall n w, exists fs, fst (get_changed_files env n w) = Ok fs)
  /\ (forall a b w, fst (llm_generate env a b w) <> Raise KeyboardInterrupt)
  /\ (forall a b c d w, fst (create_or_update_file env a b c d w) <> Raise KeyboardInterrupt).

End Feedback.

(** An agent as [__init__] leaves it. *)
Definition fresh {W} (w : W) : Agent W := {| iteration_count := 0; world := w |}.

End CodeAgent.

(** ** An in-memory platform, for running the agent on concrete data *)
Module MemPlatform.

Record MemWorld : Type := {
  mem_comments : list (Z * string);
  mem_files : list (string * string)
}.

Fixpoint file_lookup (path : string) (files : list (string * string)) : option string :=
  match files with
  | [] => None
  | (p, c) :: rest => if String.eqb p path then Some c else file_lookup path rest
  end.

(** One pull request on branch "agent/issue-1-fix" changing "src/app.py";
    the model answers every prompt with the same text. *)
Definition mem_env (answer : string) : CodeAgent.Env MemWorld :=
  {| CodeAgent.add_pr_comment := fun n c w =>
       (Ok tt, {| mem_comments := (mem_comments w ++ [(n, c)])%list;
                  mem_files := mem_files w |});
     CodeAgent.get_pull_request := fun n =>
       Eff.ret {| CodeAgent.head_ref := "agent/issue-1-fix";
                  CodeAgent.body := "Implements #1" |};
     CodeAgent.get_changed_files := fun n => Eff.ret ["src/app.py"];
     CodeAgent.get_file_content := fun path ref w => (file_lookup path (mem_files w), w);
     CodeAgent.create_or_update_file := fun path content message branch w =>
       (Ok tt, {| mem_comments := mem_comments w;
                  mem_files := (path, content) :: mem_files w |});
     CodeAgent.llm_generate := fun system prompt => Eff.ret answer |}.

Definition mem_world : MemWorld :=
  {| mem_comments := []; mem_files := [("src/app.py", "x = 1")] |}.

(** Two iterations allowed. *)
Definition two_iterations : Settings :=
  {| max_iterations := 2; branch_prefix := "agent/" |}.

(** The same platform behind a quota: once [quota] comments have been
    posted, posting another one is refused with an exception. *)
Definition limited_env (quota : nat) (answer : string) : CodeAgent.Env MemWorld :=
  {| CodeAgent.add_pr_comment := fun n c w =>
       if (List.length (mem_comments w) <? quota)%nat
       then CodeAgent.add_pr_comment (mem_env answer) n c w
       else (Raise (Exception "403: rate limit exceeded"), w);
     CodeAgent.get_pull_request := CodeAgent.get_pull_request (mem_env answer);
     CodeAgent.get_changed_files := CodeAgent.get_changed_files (mem_env answer);
     CodeAgent.get_file_content := CodeAgent.get_file_content (mem_env answer);
     CodeAgent.create_or_update_file := CodeAgent.create_or_update_file (mem_env answer);
     CodeAgent.llm_generate := CodeAgent.llm_generate (mem_env answer) |}.

(** Three calls on pull request 7. *)
Definition three_calls : list (Z * string) :=
  [(7, "rename x"); (7, "again"); (7, "once more")]%Z.

End MemPlatform.

(** ** Daemon scheduler (src/agents/issue_processor.py) *)
Module IssueProcessor.

(** An open issue as [_get_new_issues] reads it; [item_time] is the
    creation (or update) time in seconds when it is a [datetime]. *)
Record Item : Type := {
  number : Z;
  labels : gset string;
  item_time : option Z
}.

(** The dictionary built by [process_pending_issues]. *)
Record Results : Type := {
  issues_processed : Z;
  prs_reviewed : Z;
  errors : list string
}.

(** The collaborators of the scheduler over the platform state [W]:
    the two listings of the client, the two agents, and the clock. *)
Record Collab (W : Type) : Type := {
  get_open_issues : Eff.M W (list Item);
  get_open_pulls : Eff.M W (list Item);
  process_issue : Z -> Eff.M W (option Z);
  review_pull_request : Z -> Eff.M W unit;
  clock : W -> Z
}.
Arguments get_open_issues {W} _ _.
Arguments get_open_pulls {W} _ _.
Arguments process_issue {W} _ _ _.
Arguments review_pull_request {W} _ _ _.
Arguments clock {W} _ _.

(** The processor instance, the [results] dictionary of the running
    cycle, and the platform. *)
Record State (W : Type) : Type := {
  results : Results;
  processed_issues : gset Z;
  last_check_time : option Z;
  world : W
}.
Arguments results {W} _.
Arguments processed_issues {W} _.
Arguments last_check_time {W} _.
Arguments world {W} _.

(** [f"Issue #{issue.number}: {e}"] *)
Definition issue_entry (issue : Item) (msg : string) : string :=
  "Issue #" +:+ PyStr.of_Z (number issue) +:+ ": " +:+ msg.

(** [f"PR #{pr.number}: {e}"] *)
Definition pr_entry (pr : Item) (msg : string) : string :=
  "PR #" +:+ PyStr.of_Z (number pr) +:+ ": " +:+ msg.

Section Scheduler.
Context {W : Type}.
Variable c : Collab W.

Local Open Scope eff_scope.

Definition on_world {A} (m : Eff.M W A) : Eff.M (State W) A :=
  fun st =>
    let (r, w) := m (world st) in
    (r, {| results := results st; processed_issues := processed_issues st;
           last_check_time := last_check_time st; world := w |}).

Definition set_results (r : Results) (st : State W) : State W :=
  {| results := r; processed_issues := processed_issues st;
     last_check_time := last_check_time st; world := world st |}.

Definition add_processed (n : Z) (st : State W) : State W :=
  {| results := results st; processed_issues := processed_issues st ∪ {[ n ]};
     last_check_time := last_check_time st; world := world st |}.

(** [results["errors"].append(entry)] *)
Definition append_error (entry : string) (st : State W) : State W :=
  set_results {| issues_processed := issues_processed (results st);
                 prs_reviewed := prs_reviewed (results st);
                 errors := (errors (results st) ++ [entry])%list |} st.

(** [results["issues_processed"] += 1] *)
Definition count_issue (st : State W) : State W :=
  set_results {| issues_processed := issues_processed (results st) + 1;
                 prs_reviewed := prs_reviewed (results st);
                 errors := errors (results st) |} st.

(** [results["prs_reviewed"] += 1] *)
Definition count_pr (st : State W) : State W :=
  set_results {| issues_processed := issues_processed (results st);
                 prs_reviewed := prs_reviewed (results st) + 1;
                 errors := errors (results st) |} st.

(** The loop of [_get_new_issues] over the listed issues. *)
Fixpoint new_issues_loop (all_issues : list Item) (st : State W) : list Item * State W :=
  match all_issues with
  | [] => ([], st)
  | issue :: rest =>
      if decide (number issue ∈ processed_issues st) then new_issues_loop rest st
      else if existsb (fun label => bool_decide (label ∈ labels issue))
                ["in-progress"; "processed"; "agent-handled"]
      then new_issues_loop rest (add_processed (number issue) st)
      else
        match item_time issue with
        | Some created_at =>
            if (clock c (world st) - created_at <? 24 * 3600)%Z then
              let (found, st') := new_issues_loop rest st in (issue :: found, st')
            else new_issues_loop rest st
        | None => new_issues_loop rest st
        end
  end.

(** [_get_new_issues] *)
Definition _get_new_issues : Eff.M (State W) (list Item) :=
  all_issues <- on_world (get_open_issues c) ;;
  (fun st => let (found, st') := new_issues_loop all_issues st in (Ok found, st')).

(** The loop of [_get_pending_prs]. *)
Definition pending (now : Z) (pr : Item) : bool :=
  if bool_decide ("approved" ∈ labels pr) then false
  else
    match item_time pr with
    | Some updated_at => (now - updated_at <? 3600)%Z
    | None => false
    end.

(** [_get_pending_prs] *)
Definition _get_pending_prs : Eff.M (State W) (list Item) :=
  open_prs <- on_world (get_open_pulls c) ;;
  st <- Eff.get ;;
  Eff.ret (List.filter (pending (clock c (world st))) open_prs).

(** [if pr_number:] on an [Optional[int]] *)
Definition is_pr_number (pr_number : option Z) : bool :=
  match pr_number with
  | Some n => negb (n =? 0)%Z
  | None => false
  end.

(** The body of [for issue in new_issues], with its own [try]. *)
Definition issue_step (issue : Item) : Eff.M (State W) unit :=
  Eff.mtry
    (pr_number <- on_world (process_issue c (number issue)) ;;
     if is_pr_number pr_number then
       Eff.modify count_issue ;;;
       Eff.modify (add_processed (number issue))
     else Eff.ret tt)
    (fun e => Eff.modify (append_error (issue_entry issue e))).

(** The body of [for pr in pending_prs], with its own [try]. *)
Definition pr_step (pr : Item) : Eff.M (State W) unit :=
  Eff.mtry
    (on_world (review_pull_request c (number pr)) ;;;
     Eff.modify count_pr)
    (fun e => Eff.modify (append_error (pr_entry pr e))).

(** The state in which the cycle starts: an empty [results]. *)
Definition reset (st : State W) : State W :=
  set_results {| issues_processed := 0; prs_reviewed := 0; errors := [] |} st.

(** The assignment to [self.last_check_time]. *)
Definition stamp (st : State W) : State W :=
  {| results := results st; processed_issues := processed_issues st;
     last_check_time := Some (clock c (world st)); world := world st |}.

(** [process_pending_issues] *)
Definition process_pending_issues : Eff.M (State W) Results :=
  Eff.modify reset ;;;
  Eff.mtry
    (new_issues <- _get_new_issues ;;
     Eff.for_each new_issues issue_step ;;;
     pending_prs <- _get_pending_prs ;;
     Eff.for_each pending_prs pr_step ;;;
     Eff.modify stamp)
    (fun e => Eff.modify (append_error ("Processor error: " +:+ e))) ;;;
  st <- Eff.get ;;
  Eff.ret (results st).

(** No collaborator call is cut short by an interrupt. *)
Definition uninterrupted : Prop :=
  (forall w, fst (get_open_issues c w) <> Raise KeyboardInterrupt)
  /\ (forall w, fst (get_open_pulls c w) <> Raise KeyboardInterrupt)
  /\ (forall n w, fst (process_issue c n w) <> Raise KeyboardInterrupt)
  /\ (forall n w, fst (review_pull_request c n w) <> Raise KeyboardInterrupt).

(** The platform after the issues of a list have been handed, one after
    the other, to the code agent. *)
Definition issues_handled (issues : list Item) (w : W) : W :=
  fold_left (fun w issue => snd (process_issue c (number issue) w)) issues w.

(** The platform after the pull requests of a list have been handed,
    one after the other, to the reviewer. *)
Definition prs_handled (prs : list Item) (w : W) : W :=
  fold_left (fun w pr => snd (review_pull_request c (number pr) w)) prs w.

End Scheduler.

End IssueProcessor.

(** ** A scripted platform for the scheduler *)
Module MemScheduler.

(** The platform is the log of the agent calls made so far. *)
Definition Log : Type := list string.

Definition recent (n : Z) : IssueProcessor.Item :=
  {| IssueProcessor.number := n;
     IssueProcessor.labels := ∅;
     IssueProcessor.item_time := Some 0%Z |}.

(** Issues 1, 2, 3 and pull requests 11, 12, 13 are open; the code agent
    fails on issue 2 and the reviewer on pull request 12. *)
Definition scripted : IssueProcessor.Collab Log :=
  {| IssueProcessor.get_open_issues := Eff.ret [recent 1; recent 2; recent 3];
     IssueProcessor.get_open_pulls := Eff.ret [recent 11; recent 12; recent 13];
     IssueProcessor.process_issue := fun n log =>
       (if (n =? 2)%Z then Raise (Exception "boom") else Ok (Some (n + 10)%Z),
        (log ++ ["process_issue " +:+ PyStr.of_Z n])%list);
     IssueProcessor.review_pull_request := fun n log =>
       (if (n =? 12)%Z then Raise (Exception "review failed") else Ok tt,
        (log ++ ["review_pull_request " +:+ PyStr.of_Z n])%list);
     IssueProcessor.clock := fun _ => 60%Z |}.

Definition start : IssueProcessor.State Log :=
  {| IssueProcessor.results :=
       {| IssueProcessor.issues_processed := 0;
          IssueProcessor.prs_reviewed := 0;
          IssueProcessor.errors := [] |};
     IssueProcessor.processed_issues := ∅;
     IssueProcessor.last_check_time := None;
     IssueProcessor.world := [] |}.

End MemScheduler.

(** ** A JSON decoder *)

(** What a call of [json.loads] can do: return the decoded value, raise
    [json.JSONDecodeError], or raise something else ([ValueError] on an
    integer literal beyond the digit limit of [int], [RecursionError] on
    deep nesting, an interrupt).  The agents catch the second by name;
    the third is an exception like any other to them. *)
Inductive decoding : Type :=
| Decoded (v : json)
| JSONDecodeError
| DecodeRaises (e : exn).

(** [json.loads] belongs to the Python library, not to the repository:
    the interpreter below takes the decoder as an argument, and what is
    proved of it holds for every decoder.  [JsonDecode.loads] is a
    decoder for the fragment of JSON without fractions, exponents and
    [\u] escapes, used to run the interpreter on concrete responses.  It
    reads the text from left to right and stops at the first thing it
    cannot accept, as the library does. *)
Module JsonDecode.

Inductive token : Type :=
| TLBrace | TRBrace | TLBrack | TRBrack | TColon | TComma
| TString (s : string)
| TInt (z : Z)
| TLongInt
| TTrue | TFalse | TNull
| TBad.

(** The double quote. *)
Definition dquote : ascii := "034"%char.

Definition backslash : ascii := "092"%char.

Definition is_ws (c : ascii) : bool :=
  let n := N_of_ascii c in (n =? 32)%N || (n =? 9)%N || (n =? 10)%N || (n =? 13)%N.

Definition unescape (c : ascii) : option ascii :=
  if Ascii.eqb c dquote then Some dquote
  else if Ascii.eqb c backslash then Some backslash
  else if Ascii.eqb c "/"%char then Some "/"%char
  else if Ascii.eqb c "n"%char then Some "010"%char
  else if Ascii.eqb c "t"%char then Some "009"%char
  else if Ascii.eqb c "r"%char then Some "013"%char
  else if Ascii.eqb c "b"%char then Some "008"%char
  else if Ascii.eqb c "f"%char then Some "012"%char
  else None.

(** The body of a string literal, after its opening quote. *)
Fixpoint lex_string (s : string) : option (string * string) :=
  match s with
  | EmptyString => None
  | String c s' =>
      if Ascii.eqb c dquote then Some (EmptyString, s')
      else if Ascii.eqb c backslash then
        match s' with
        | String e s'' =>
            match unescape e, lex_string s'' with
            | Some ch, Some (text, rest) => Some (String ch text, rest)
            | _, _ => None
            end
        | EmptyString => None
        end
      else if (N_of_ascii c <? 32)%N then None
      else
        match lex_string s' with
        | Some (text, rest) => Some (String c text, rest)
        | None => None
        end
  end.

(** The digits at the head of the text: their value, their number and
    the text after them. *)
Fixpoint lex_digits (acc : Z) (count : nat) (s : string) : Z * nat * string :=
  match s with
  | String c s' =>
      if PyStr.is_digit c
      then lex_digits (10 * acc + Z.of_N (N_of_ascii c - 48)) (S count) s'
      else (acc, count, s)
  | EmptyString => (acc, count, EmptyString)
  end.

(** An integer literal: no leading zero before another digit. *)
Definition lex_int (s : string) : option (Z * nat * string) :=
  match s with
  | String c (String d _ as s') =>
      if Ascii.eqb c "0"%char && PyStr.is_digit d then None
      else if PyStr.is_digit c then Some (lex_digits 0 0 s) else None
  | String c EmptyString =>
      if PyStr.is_digit c then Some (lex_digits 0 0 s) else None
  | EmptyString => None
  end.

(** The most digits [int] converts ([sys.int_info.default_max_str_digits]
    of Python 3.11). *)
Definition max_str_digits : nat := 4300.

(** The token of an integer literal. *)
Definition int_token (negative : bool) (n : Z) (count : nat) : token :=
  if (max_str_digits <? count)%nat then TLongInt
  else TInt (if negative then (- n)%Z else n).

(** The tokens of the text; a character that starts no token ends the
    list with [TBad]. *)
Fixpoint lex (fuel : nat) (s : string) : list token :=
  match fuel with
  | O => [TBad]
  | S fuel' =>
      match s with
      | EmptyString => []
      | String c s' =>
          if is_ws c then lex fuel' s'
          else if Ascii.eqb c "{"%char then TLBrace :: lex fuel' s'
          else if Ascii.eqb c "}"%char then TRBrace :: lex fuel' s'
          else if Ascii.eqb c "["%char then TLBrack :: lex fuel' s'
          else if Ascii.eqb c "]"%char then TRBrack :: lex fuel' s'
          else if Ascii.eqb c ":"%char then TColon :: lex fuel' s'
          else if Ascii.eqb c ","%char then TComma :: lex fuel' s'
          else if Ascii.eqb c dquote then
            match lex_string s' with
            | Some (text, rest) => TString text :: lex fuel' rest
            | None => [TBad]
            end
          else if Ascii.eqb c "-"%char then
            match lex_int s' with
            | Some (n, count, rest) => int_token true n count :: lex fuel' rest
            | None => [TBad]
            end
          else if PyStr.is_digit c then
            match lex_int s with
            | Some (n, count, rest) => int_token false n count :: lex fuel' rest
            | None => [TBad]
            end
          else if PyStr.startswith "true" s then TTrue :: lex fuel' (PyStr.drop 4 s)
          else if PyStr.startswith "false" s then TFalse :: lex fuel' (PyStr.drop 5 s)
          else if PyStr.startswith "null" s then TNull :: lex fuel' (PyStr.drop 4 s)
          else [TBad]
      end
  end.

(** What reading one value off the tokens gives. *)
Inductive parsed : Type :=
| Parsed (v : json) (rest : list token)
| Malformed
| TooManyDigits.

Fixpoint parse_value (fuel : nat) (ts : list token) : parsed :=
  match fuel with
  | O => Malformed
  | S fuel' =>
      match ts with
      | TNull :: rest => Parsed JNull rest
      | TTrue :: rest => Parsed (JBool true) rest
      | TFalse :: rest => Parsed (JBool false) rest
      | TInt z :: rest => Parsed (JInt z) rest
      | TLongInt :: rest => TooManyDigits
      | TString s :: rest => Parsed (JStr s) rest
      | TLBrack :: TRBrack :: rest => Parsed (JList []) rest
      | TLBrack :: rest => parse_elements fuel' rest []
      | TLBrace :: TRBrace :: rest => Parsed (JDict []) rest
      | TLBrace :: rest => parse_members fuel' rest []
      | _ => Malformed
      end
  end
with parse_elements (fuel : nat) (ts : list token) (acc : list json) : parsed :=
  match fuel with
  | O => Malformed
  | S fuel' =>
      match parse_value fuel' ts with
      | Parsed v (TComma :: rest) => parse_elements fuel' rest (acc ++ [v])%list
      | Parsed v (TRBrack :: rest) => Parsed (JList (acc ++ [v])%list) rest
      | Parsed _ _ => Malformed
      | Malformed => Malformed
      | TooManyDigits => TooManyDigits
      end
  end
with parse_members (fuel : nat) (ts : list token) (acc : dict) : parsed :=
  match fuel with
  | O => Malformed
  | S fuel' =>
      match ts with
      | TString k :: TColon :: rest =>
          match parse_value fuel' rest with
          | Parsed v (TComma :: rest') => parse_members fuel' rest' (dict_set acc k v)
          | Parsed v (TRBrace :: rest') => Parsed (JDict (dict_set acc k v)) rest'
          | Parsed _ _ => Malformed
          | Malformed => Malformed
          | TooManyDigits => TooManyDigits
          end
      | _ => Malformed
      end
  end.

(** The message of the [ValueError] that [int] raises. *)
Definition digit_limit_error : string :=
  "Exceeds the limit (4300 digits) for integer string conversion".

(** The whole text must be one value. *)
Definition loads (s : string) : decoding :=
  let ts := lex (S (String.length s)) s in
  match parse_value (S (List.length ts)) ts with
  | Parsed v [] => Decoded v
  | Parsed _ _ => JSONDecodeError
  | Malformed => JSONDecodeError
  | TooManyDigits => DecodeRaises (Exception digit_limit_error)
  end.

(** A quoted JSON string literal. *)
Definition quoted (s : string) : string :=
  String dquote EmptyString +:+ s +:+ String dquote EmptyString.

End JsonDecode.

(** ** Response interpreter (reviewer_agent.py and code_agent.py) *)
Module Interpreter.

(** The text from the first opening brace on. *)
Fixpoint from_first_open (s : string) : option string :=
  match s with
  | EmptyString => None
  | String c s' => if Ascii.eqb c "{"%char then Some s else from_first_open s'
  end.

(** The longest prefix that ends in a closing brace. *)
Fixpoint upto_last_close (s : string) : option string :=
  match s with
  | EmptyString => None
  | String c s' =>
      match upto_last_close s' with
      | Some r => Some (String c r)
      | None => if Ascii.eqb c "}"%char then Some (String c EmptyString) else None
      end
  end.

(** [re.search(r'\{.*\}', response, re.DOTALL)]: leftmost opening
    brace, greedy to the last closing brace after it. *)
Definition search_braces (response : string) : option string :=
  match from_first_open response with
  | Some rest => upto_last_close rest
  | None => None
  end.

Section WithDecoder.
Variable json_loads : string -> decoding.

(** [_create_fallback_review] *)
Definition _create_fallback_review (response : string) : json :=
  let status :=
    if PyStr.contains "approved" (PyStr.lower response) then "approved"
    else if PyStr.contains "changes" (PyStr.lower response) then "changes_requested"
    else "needs_work" in
  JDict
    [("summary",
      JStr (if (500 <? String.length response)%nat
            then PyStr.take 500 response +:+ "..." else response));
     ("status", JStr status);
     ("issues_found", JList []);
     ("positive_feedback", JList []);
     ("suggestions", JList [JStr "Could not parse detailed review. Please review manually."]);
     ("overall_score", JInt 50);
     ("meets_requirements", JBool false)].

(** The dictionary returned by the [except Exception] of
    [_perform_llm_review]. *)
Definition technical_error_review : json :=
  JDict
    [("summary", JStr "Review failed due to technical error.");
     ("status", JStr "needs_work");
     ("issues_found", JList []);
     ("positive_feedback", JList []);
     ("suggestions", JList [JStr "Please check the implementation manually."]);
     ("overall_score", JInt 0);
     ("meets_requirements", JBool false)].

(** [_perform_llm_review], from the outcome of [self.llm.generate].
    The inner [except json.JSONDecodeError] falls through to the
    fallback review; anything else raised in the [try] reaches the outer
    [except Exception]. *)
Definition _perform_llm_review (generated : result string) : result json :=
  try_except
    (bind generated (fun response =>
       match search_braces response with
       | Some span =>
           match json_loads span with
           | Decoded review => Ok review
           | JSONDecodeError => Ok (_create_fallback_review response)
           | DecodeRaises e => Raise e
           end
       | None => Ok (_create_fallback_review response)
       end))
    (fun _ => Ok technical_error_review).

(** What [_analyze_issue] reads of the issue. *)
Record IssueData : Type := {
  title : string;
  issue_body : option string
}.

(** The dictionary returned at the end of [_analyze_issue]. *)
Definition fallback_analysis (issue : IssueData) : json :=
  JDict
    [("analysis",
      JDict
        [("requirement_summary", JStr (title issue));
         ("files_to_modify", JList []);
         ("expected_behavior",
          JStr (match issue_body issue with
                | Some b => if String.eqb b "" then "" else PyStr.take 200 b
                | None => ""
                end));
         ("edge_cases", JList []);
         ("complexity", JStr "medium")])].

(** [v.lower()]: only a string has the method. *)
Definition py_lower (v : json) : result string :=
  match v with
  | JStr s => Ok (PyStr.lower s)
  | _ => Raise (Exception "AttributeError: object has no attribute 'lower'")
  end.

(** [analysis['analysis']['files_to_modify'] = discovered_files] *)
Definition set_files_to_modify (analysis : json) (discovered_files : list string)
    : result json :=
  match analysis with
  | JDict d =>
      match lookup "analysis" d with
      | Some (JDict inner) =>
          Ok (JDict (dict_set d "analysis"
                       (JDict (dict_set inner "files_to_modify"
                                 (JList (List.map JStr discovered_files))))))
      | Some _ => Raise (Exception "TypeError: object does not support item assignment")
      | None => Raise (Exception "KeyError: 'analysis'")
      end
  | _ => Raise (Exception "TypeError: object is not subscriptable")
  end.

(** The [try] block of [_analyze_issue] after a successful decoding;
    only [JSONDecodeError] is caught there, so what it raises leaves the
    method. *)
Definition complete_analysis (tree : result (list string)) (analysis : json) : result json :=
  bind (py_get analysis "analysis" (JDict [])) (fun inner =>
  bind (py_get inner "requirement_summary" (JStr "")) (fun summary =>
  bind (py_lower summary) (fun requirement =>
  bind (py_get analysis "analysis" (JDict [])) (fun inner' =>
  bind (py_get inner' "files_to_modify" JNull) (fun files =>
    if negb (truthy files) then
      bind (Resolver._discover_relevant_files tree requirement) (fun discovered_files =>
        set_files_to_modify analysis discovered_files)
    else Ok analysis))))).

(** [_analyze_issue], from the outcome of [self.llm.generate] (called
    outside any [try]) and of [get_repository_tree].  The [try] around
    the decoding has the single handler [except json.JSONDecodeError]:
    whatever else the decoder raises leaves the method. *)
Definition _analyze_issue (issue : IssueData) (generated : result string)
    (tree : result (list string)) : result json :=
  bind generated (fun response =>
    match search_braces response with
    | Some span =>
        match json_loads span with
        | Decoded analysis => complete_analysis tree analysis
        | JSONDecodeError => Ok (fallback_analysis issue)
        | DecodeRaises e => Raise e
        end
    | None => Ok (fallback_analysis issue)
    end).

(** The interpreter proper: span extraction, then decoding of the span;
    [None] when the response holds no span. *)
Definition interpret (response : string) : option decoding :=
  match search_braces response with
  | Some span => Some (json_loads span)
  | None => None
  end.

End WithDecoder.

End Interpreter.

(** ** Sample responses *)
Module Samples.

(** The object [{"status": "approved", "meets_requirements": true}]. *)
Definition review_object : string :=
  "{" +:+ JsonDecode.quoted "status" +:+ ": " +:+ JsonDecode.quoted "approved" +:+ ", "
  +:+ JsonDecode.quoted "meets_requirements" +:+ ": true}".

Definition review_value : json :=
  JDict [("status", JStr "approved"); ("meets_requirements", JBool true)].

(** The object between plain prose. *)
Definition framed_response : string :=
  "Here is my review: " +:+ review_object +:+ " Thanks.".

(** The same object after prose that itself uses braces. *)
Definition braces_in_prose : string :=
  "Wrap it in {braces}: " +:+ review_object.

(** The same object before prose with a closing brace. *)
Definition brace_after : string :=
  review_object +:+ " (end of object })".

(** The object [{"a": 1}]. *)
Definition plain_object : string := "{" +:+ JsonDecode.quoted "a" +:+ ": 1}".

(** ["1" * n] *)
Fixpoint ones (n : nat) : string :=
  match n with
  | O => EmptyString
  | S n' => String "1"%char (ones n')
  end.

(** The object [{"n": 11...1}], its integer written with 4301 digits. *)
Definition long_integer_object : string :=
  "{" +:+ JsonDecode.quoted "n" +:+ ": " +:+ ones 4301 +:+ "}".

Definition sample_issue : Interpreter.IssueData :=
  {| Interpreter.title := "Add a loader"; Interpreter.issue_body := None |}.

End Samples.

(** ** Reading a decoded value as a dictionary *)

(** The reviewer passes the value returned by [_perform_llm_review] on as
    a dictionary; the records built by the reviewer itself are
    dictionaries. *)
Definition as_dict (v : json) : dict :=
  match v with
  | JDict d => d
  | _ => []
  end.

(** ** The text of a failing status entry *)

(** The line that [get_ci_status] appends to [details] for an entry
    whose state is not "success". *)
Definition failure_line (st : Client.Status) : string :=
  Client.context st +:+ ": " +:+ Client.state st +:+ "
".

(** The entries that [get_ci_status] reports as failing. *)
Definition failing (sts : list Client.Status) : list Client.Status :=
  List.filter (fun st => negb (String.eqb (Client.state st) "success")) sts.

(** ** Notions used to state the scheduler's filters *)

(** An issue carrying one of the labels that mark it as taken
    (the [any(...)] test of [_get_new_issues]). *)
Definition taken (issue : IssueProcessor.Item) : bool :=
  existsb (fun label => bool_decide (label ∈ IssueProcessor.labels issue))
    ["in-progress"; "processed"; "agent-handled"].

(** The processed set after a computation holds the one before it. *)
Definition keeps_processed {W A : Type} (m : Eff.M (IssueProcessor.State W) A) : Prop :=
  forall st, IssueProcessor.processed_issues st
             ⊆ IssueProcessor.processed_issues (snd (m st)).

(** ** Notions used to state the shape of a branch slug *)

(** Every character of [s] passes the test [f]. *)
Fixpoint all_chars (f : ascii -> bool) (s : string) : bool :=
  match s with
  | EmptyString => true
  | String c s' => f c && all_chars f s'
  end.

(** A lower-case letter, a digit or a hyphen. *)
Definition slug_ok (c : ascii) : bool :=
  PyStr.is_lower c || PyStr.is_digit c || Ascii.eqb c "-"%char.

(** The patterns that [_determine_file_patterns] can produce. *)
Definition pattern_vocabulary : list string :=
  ["*.py"; "*.md"; "*test*.py"; "*.json"; "*.yaml"; "*.yml"].

(** ** Issue references (reviewer_agent.py, [_extract_issue_number]) *)
Module IssueRef.

(** The longest run of digits at the start of [s], and what follows. *)
Fixpoint span_digits (s : string) : string * string :=
  match s with
  | EmptyString => (EmptyString, EmptyString)
  | String c s' =>
      if PyStr.is_digit c
      then let (digits, rest) := span_digits s' in (String c digits, rest)
      else (EmptyString, s)
  end.

(** [re.search(r'#(\d+)', s)], giving group 1: the digits after the
    first "#" that is followed by a digit. *)
Fixpoint search_issue_ref (s : string) : option string :=
  match s with
  | EmptyString => None
  | String c s' =>
      if Ascii.eqb c "#"%char then
        match fst (span_digits s') with
        | EmptyString => search_issue_ref s'
        | digits => Some digits
        end
      else search_issue_ref s'
  end.

(** [int(digits)] for a text of decimal digits. *)
Definition py_int (digits : string) : option Z :=
  match NilZero.uint_of_string digits with
  | Some d => Some (Z.of_uint d)
  | None => None
  end.

(** [_extract_issue_number] *)
Definition _extract_issue_number (pr_body : option string) : option Z :=
  match pr_body with
  | None => None
  | Some pr_body =>
      if String.eqb pr_body "" then None
      else
        match search_issue_ref pr_body with
        | Some digits => py_int digits
        | None => None
        end
  end.

End IssueRef.

(** ** Pull request text (code_agent.py, [_create_pull_request]) *)
Module PullText.

(** [s.split(c)] for a one-character separator. *)
Fixpoint split_on (c : ascii) (s : string) : list string :=
  match s with
  | EmptyString => [EmptyString]
  | String a s' =>
      match split_on c s' with
      | piece :: pieces =>
          if Ascii.eqb a c then EmptyString :: piece :: pieces
          else String a piece :: pieces
      | [] => [String a EmptyString]
      end
  end.

Definition newline : ascii := "010"%char.

(** ["\n".join([f"- {line}" for line in changes_summary.split("\n")])] *)
Definition formatted_changes (changes_summary : string) : string :=
  String.concat (String newline EmptyString)
    (List.map (fun line => "- " +:+ line) (split_on newline changes_summary)).

(** ['Passed' if quality_report.get(key) else 'Failed'] *)
Definition passed (quality_report : dict) (key : string) : string :=
  if truthy (dict_get quality_report key JNull) then "Passed" else "Failed".

(** The title given to the pull request. *)
Definition pr_title (issue_title : string) : string := "Implement: " +:+ issue_title.

(** The body given to the pull request. *)
Definition pr_body (issue_number : Z) (branch_name changes_summary : string)
    (quality_report : dict) : string :=
  "## Summary
Implements #" +:+ PyStr.of_Z issue_number +:+ "

## Changes Made
" +:+ formatted_changes changes_summary +:+ "

## Quality Checks
- Ruff: " +:+ passed quality_report "ruff_passed" +:+ "
- Black: " +:+ passed quality_report "black_passed" +:+ "
- MyPy: " +:+ passed quality_report "mypy_passed" +:+ "

## Notes
This PR was automatically generated by the Coding Agent system.

---

**Issue**: #" +:+ PyStr.of_Z issue_number +:+ "
**Branch**: " +:+ branch_name +:+ "
**Status**: Ready for review".

End PullText.

(** ** Review input (reviewer_agent.py, [review_pull_request]) *)
Module ReviewInput.

(** The value stored under "diff_content" in [review_data]. *)
Definition review_diff (diff_content : string) : string :=
  if (15000 <? Z.of_nat (String.length diff_content))%Z then
    PyStr.take (Z.to_nat 15000) diff_content +:+ "
...[truncated]"
  else if String.eqb diff_content "" then "No diff available"
  else diff_content.

End ReviewInput.

(** ** Test files and style references (code_agent.py) *)
Module TestFiles.

(** [os.path.basename] (POSIX): what follows the last slash. *)
Fixpoint basename (p : string) : string :=
  match p with
  | EmptyString => EmptyString
  | String c p' => if PyStr.contains "/" p then basename p' else p
  end.

Definition is_slash (c : ascii) : bool := Ascii.eqb c "/"%char.

(** [os.path.dirname] (POSIX): what precedes the last slash, without
    its trailing slashes unless it consists of slashes only. *)
Definition dirname (p : string) : string :=
  let head := PyStr.take (String.length p - String.length (basename p)) p in
  if negb (String.eqb head "") && negb (all_chars is_slash head)
  then PyStr.rstrip_by is_slash head
  else head.

(** [os.path.join(a, b)] (POSIX) *)
Definition join (a b : string) : string :=
  if PyStr.startswith "/" b then b
  else if String.eqb a "" || PyStr.endswith "/" a then a +:+ b
  else a +:+ "/" +:+ b.

(** [_should_generate_tests] *)
Definition _should_generate_tests (file_path : string) : bool :=
  PyStr.endswith ".py" file_path
  && negb (PyStr.startswith "test_" file_path)
  && negb (PyStr.contains "test" (PyStr.lower file_path)).

(** An entry of [get_directory_contents("")]. *)
Record DirItem : Type := {
  item_type : string;
  item_name : string;
  item_path : string
}.

(** The first directory whose name mentions "test". *)
Fixpoint first_test_dir (contents : list DirItem) : option DirItem :=
  match contents with
  | [] => None
  | item :: rest =>
      if String.eqb (item_type item) "dir"
         && PyStr.contains "test" (PyStr.lower (item_name item))
      then Some item
      else first_test_dir rest
  end.

(** [_get_test_file_path]; [contents] is the outcome of the directory
    listing, whose failure of any kind is swallowed by a bare [except]. *)
Definition _get_test_file_path (contents : result (list DirItem)) (file_path : string)
    : string :=
  let dir_name := dirname file_path in
  let base_name := basename file_path in
  let test_name := "test_" +:+ base_name in
  let inner := if String.eqb dir_name "" then test_name else join dir_name test_name in
  match contents with
  | Ok contents =>
      match first_test_dir contents with
      | Some item => join (item_path item) inner
      | None => join "tests" inner
      end
  | Raise _ => join "tests" inner
  end.

(** The loop of [_get_similar_files], with its [break] at three. *)
Fixpoint similar_loop (tree : list string) (file_ext file_path : string)
    (similar_files : list string) : list string :=
  match tree with
  | [] => similar_files
  | path :: rest =>
      if PyStr.endswith file_ext path && negb (String.eqb path file_path) then
        let similar_files := (similar_files ++ [path])%list in
        if (3 <=? List.length similar_files)%nat then similar_files
        else similar_loop rest file_ext file_path similar_files
      else similar_loop rest file_ext file_path similar_files
  end.

(** [_get_similar_files]; [suffix] is [Path(...).suffix] of the Python
    library and [tree] the outcome of [get_repository_tree]. *)
Definition _get_similar_files (suffix : string -> string) (tree : result (list string))
    (file_path : string) : result (list string) :=
  let file_ext := suffix file_path in
  try_except
    (bind tree (fun tree =>
       match tree with
       | [] => Ok []
       | _ => Ok (similar_loop tree file_ext file_path [])
       end))
    (fun _ => Ok []).

End TestFiles.

(** ** Path validation (src/utils/validation.py) *)
Module Validation.

Definition valid_extensions : list string :=
  [".py"; ".md"; ".txt"; ".yml"; ".yaml"; ".json"; ".ini"; ".cfg"].

(** [validate_file_path]; [suffix] is [Path(...).suffix] of the Python
    library. *)
Definition validate_file_path (suffix : string -> string) (file_path : string) : bool :=
  if PyStr.contains ".." file_path then false
  else if PyStr.startswith "/" file_path then false
  else if existsb (fun char => PyStr.contains char file_path) ["~"; "$"; "`"] then false
  else
    let file_ext := PyStr.lower (suffix file_path) in
    if negb (existsb (String.eqb file_ext) valid_extensions)
       && negb (String.eqb file_ext "")
    then false
    else true.

(** The suffix of the last component of a POSIX path, as [pathlib]
    computes it up to Python 3.13: from the last dot of the name, when
    that dot is neither its first nor its last character.  The name is
    taken after the last slash, trailing slashes apart; components "."
    are not normalised away.  It serves to run the validation on
    concrete paths; what is proved holds for every suffix function. *)
Fixpoint after_last_dot (name : string) : option string :=
  match name with
  | EmptyString => None
  | String c rest =>
      match after_last_dot rest with
      | Some ext => Some ext
      | None => if Ascii.eqb c "."%char then Some name else None
      end
  end.

Definition posix_suffix (file_path : string) : string :=
  match TestFiles.basename (PyStr.rstrip_by TestFiles.is_slash file_path) with
  | EmptyString => EmptyString
  | String c rest =>
      match after_last_dot rest with
      | Some ext => if (1 <? String.length ext)%nat then ext else EmptyString
      | None => EmptyString
      end
  end.

End Validation.

(** ** Further scenarios *)
Module Scenarios.

(** As [MemScheduler.scripted], but the user interrupts the process
    while issue 2 is handled. *)
Definition interrupted : IssueProcessor.Collab MemScheduler.Log :=
  {| IssueProcessor.get_open_issues :=
       IssueProcessor.get_open_issues MemScheduler.scripted;
     IssueProcessor.get_open_pulls :=
       IssueProcessor.get_open_pulls MemScheduler.scripted;
     IssueProcessor.process_issue := fun n log =>
       (if (n =? 2)%Z then Raise KeyboardInterrupt else Ok (Some (n + 10)%Z),
        (log ++ ["process_issue " +:+ PyStr.of_Z n])%list);
     IssueProcessor.review_pull_request :=
       IssueProcessor.review_pull_request MemScheduler.scripted;
     IssueProcessor.clock := fun _ => 60%Z |}.

(** The platform cannot list the open issues. *)
Definition unlisted : IssueProcessor.Collab MemScheduler.Log :=
  {| IssueProcessor.get_open_issues := fun log =>
       (Raise (Exception "503 Service Unavailable"), log);
     IssueProcessor.get_open_pulls :=
       IssueProcessor.get_open_pulls MemScheduler.scripted;
     IssueProcessor.process_issue :=
       IssueProcessor.process_issue MemScheduler.scripted;
     IssueProcessor.review_pull_request :=
       IssueProcessor.review_pull_request MemScheduler.scripted;
     IssueProcessor.clock := fun _ => 60%Z |}.

(** A commit with one failed check. *)
Definition red_commit : Client.Commit :=
  {| Client.statuses :=
       [{| Client.context := "ci/build"; Client.state := "success";
           Client.description := "Build passed"; Client.target_url := "" |};
        {| Client.context := "ci/test"; Client.state := "failure";
           Client.description := "2 tests failed"; Client.target_url := "" |}] |}.

End Scenarios.

(* ================================================================== *)
(** * Properties *)
(* ================================================================== *)

Section ReviewDecision.
Import Reviewer Client.

(** The three guards of [_determine_next_action], read off a review
    dictionary and a CI status. *)
Lemma next_action_unfold (rr : dict) (ci : CIStatus) :
  _determine_next_action rr ci =
    if truthy (meets_requirements_of rr) && approved_of rr && success ci
    then "merge"
    else if negb (success ci) then "fix_ci"
    else if negb (truthy (meets_requirements_of rr)) || negb (approved_of rr)
    then "request_changes"
    else "wait".
Proof. reflexivity. Qed.

Lemma next_action_cases (rr : dict) (ci : CIStatus) :
  _determine_next_action rr ci = "merge"
  \/ _determine_next_action rr ci = "fix_ci"
  \/ _determine_next_action rr ci = "request_changes".
Proof.
  rewrite next_action_unfold.
  destruct (truthy (meets_requirements_of rr)), (approved_of rr), (success ci);
    simpl; auto.
Qed.

End ReviewDecision.

(** C1. The next action follows the decision table: all three conditions
    give "merge"; a failed CI gives "fix_ci"; a successful CI with an
    unmet requirement or a status other than approved gives
    "request_changes"; whatever is left gives "wait"; and "merge" is
    decided first, so it is returned exactly when the three conditions
    hold. *)
Theorem next_action_decision_table :
  forall (rr : dict) (ci : Client.CIStatus),
    (truthy (meets_requirements_of rr) = true /\ approved_of rr = true
     /\ Client.success ci = true ->
     Reviewer._determine_next_action rr ci = "merge")
    /\ (Client.success ci = false ->
        Reviewer._determine_next_action rr ci = "fix_ci")
    /\ (Client.success ci = true ->
        truthy (meets_requirements_of rr) = false \/ approved_of rr = false ->
        Reviewer._determine_next_action rr ci = "request_changes")
    /\ (~ (truthy (meets_requirements_of rr) = true /\ approved_of rr = true
           /\ Client.success ci = true) ->
        Client.success ci <> false ->
        ~ (truthy (meets_requirements_of rr) = false \/ approved_of rr = false) ->
        Reviewer._determine_next_action rr ci = "wait")
    /\ (Reviewer._determine_next_action rr ci = "merge" <->
        truthy (meets_requirements_of rr) = true /\ approved_of rr = true
        /\ Client.success ci = true)
    /\ Reviewer._determine_next_action (review_of true "approved") (ci_of true) = "merge"
    /\ (forall m s, Reviewer._determine_next_action (review_of m s) (ci_of false) = "fix_ci")
    /\ Reviewer._determine_next_action (review_of false "approved") (ci_of true)
       = "request_changes"
    /\ Reviewer._determine_next_action (review_of true "changes_requested") (ci_of true)
       = "request_changes".
Proof.
  intros rr ci. rewrite next_action_unfold.
  generalize (truthy (meets_requirements_of rr)) as meets.
  generalize (approved_of rr) as approved.
  generalize (Client.success ci) as ci_ok.
  intros ci_ok approved meets.
  repeat split.
  - intros (-> & -> & ->). reflexivity.
  - intros ->. destruct meets, approved; reflexivity.
  - intros -> H. destruct meets, approved, H; try discriminate; reflexivity.
  - intros H1 H2 H3. destruct meets, approved, ci_ok; simpl; tauto.
  - destruct meets, approved, ci_ok; simpl; auto; discriminate.
  - destruct meets, approved, ci_ok; simpl; auto; discriminate.
  - destruct meets, approved, ci_ok; simpl; auto; discriminate.
  - intros (-> & -> & ->). reflexivity.
  - intros m s. unfold Reviewer._determine_next_action. simpl.
    rewrite andb_false_r. reflexivity.
Qed.

(** C9. Whatever the review dictionary and the CI status, the next
    action is "merge", "fix_ci" or "request_changes"; the "wait" branch
    is never taken. *)
Theorem next_action_wait_unreachable :
  forall (rr : dict) (ci : Client.CIStatus),
    (Reviewer._determine_next_action rr ci = "merge"
     \/ Reviewer._determine_next_action rr ci = "fix_ci"
     \/ Reviewer._determine_next_action rr ci = "request_changes")
    /\ Reviewer._determine_next_action rr ci <> "wait".
Proof.
  intros rr ci. split; [apply next_action_cases |].
  destruct (next_action_cases rr ci) as [-> | [-> | ->]]; discriminate.
Qed.

Section CIAggregation.
Import Client.

(** The loop only ever lowers the flag: it ends true exactly when it
    started true and every entry it visited has state "success". *)
Lemma ci_loop_success (sts : list Status) (r : CIStatus) :
  success (ci_loop sts r)
  = success r && forallb (fun st => String.eqb (state st) "success") sts.
Proof.
  revert r. induction sts as [| st rest IH]; intros r; simpl.
  - now rewrite andb_true_r.
  - rewrite IH. destruct (String.eqb (state st) "success"); simpl.
    + reflexivity.
    + now rewrite andb_false_r.
Qed.

(** Every visited entry is reported as a job, in order. *)
Lemma ci_loop_jobs (sts : list Status) (r : CIStatus) :
  jobs (ci_loop sts r) = (jobs r ++ sts)%list.
Proof.
  revert r. induction sts as [| st rest IH]; intros r; simpl.
  - now rewrite app_nil_r.
  - rewrite IH. destruct (String.eqb (state st) "success"); simpl;
      now rewrite <- app_assoc.
Qed.

Lemma forallb_state_success (sts : list Status) :
  forallb (fun st => String.eqb (state st) "success") sts = true
  <-> Forall (fun st => state st = "success") sts.
Proof.
  rewrite forallb_forall, Forall_forall. split; intros H st Hin.
  - apply String.eqb_eq, H. now apply list_elem_of_In.
  - apply String.eqb_eq, H. now apply list_elem_of_In.
Qed.

End CIAggregation.

(** C10. A pull request whose latest commit has no status entry is
    reported as CI success (and then an approved review meeting the
    requirements is decided "merge"); a pull request without commits is
    reported as failure; and with commits, success is true exactly when
    every status entry of the latest commit has state "success". *)
Theorem ci_status_aggregation :
  (forall (commits : list Client.Commit) (latest : Client.Commit),
      last commits = Some latest ->
      Client.statuses latest = [] ->
      Client.success (Client.get_ci_status commits) = true
      /\ Client.jobs (Client.get_ci_status commits) = []
      /\ Reviewer._determine_next_action (review_of true "approved")
           (Client.get_ci_status commits) = "merge")
  /\ Client.success (Client.get_ci_status []) = false
  /\ (forall (commits : list Client.Commit) (latest : Client.Commit),
        last commits = Some latest ->
        (Client.success (Client.get_ci_status commits) = true <->
         Forall (fun st => Client.state st = "success") (Client.statuses latest))).
Proof.
  split; [| split].
  - intros commits latest Hlast Hnil.
    unfold Client.get_ci_status. rewrite Hlast, Hnil. simpl. auto.
  - reflexivity.
  - intros commits latest Hlast.
    unfold Client.get_ci_status. rewrite Hlast, ci_loop_success. simpl.
    apply forallb_state_success.
Qed.

Section LabelGroups.
Import Client ReviewLabels.

(** Replacing the members of a group by one member of it: the group is
    then represented by that member alone, the rest is untouched. *)
Lemma set_replace_group (group current : gset string) (l : string) :
  l ∈ group ->
  ((current ∖ group) ∪ {[ l ]}) ∩ group = {[ l ]}
  /\ ((current ∖ group) ∪ {[ l ]}) ∖ group = current ∖ group.
Proof.
  intros Hl. split; apply set_eq; intros x.
  - rewrite elem_of_intersection, elem_of_union, elem_of_difference,
      elem_of_singleton.
    split; [intros [[[_ Hn] | ->] Hg]; [contradiction | reflexivity]
           | intros ->; auto].
  - rewrite !elem_of_difference, elem_of_union, elem_of_difference,
      elem_of_singleton.
    split; [intros [[H | ->] Hn]; [exact H | contradiction]
           | intros [Hc Hn]; auto].
Qed.

Lemma outcome_label_in_group (rr : dict) : outcome_label rr ∈ review_labels.
Proof.
  unfold outcome_label, review_labels.
  destruct (eq_str _ "approved" && _); [set_solver |].
  destruct (eq_str _ "changes_requested"); set_solver.
Qed.

Lemma status_label_call_sites :
  status_label "in-progress" ∈ status_labels
  /\ status_label "needs-review" ∈ status_labels
  /\ status_label "blocked" ∈ status_labels.
Proof.
  assert (status_label "in-progress" = "in-progress") as -> by reflexivity.
  assert (status_label "needs-review" = "needs-review") as -> by reflexivity.
  assert (status_label "blocked" = "blocked") as -> by reflexivity.
  unfold status_labels. set_solver.
Qed.

End LabelGroups.

(** C3. A status-label mutation on an issue (the requested status names
    one of the four status labels, as "in-progress", "needs-review" and
    "blocked" do) and a review-outcome mutation on a pull request leave,
    for any prior label set, exactly one label of the group on the
    entity and change no label outside the group. *)
Theorem label_set_replace_invariant :
  (forall (issue : Client.Issue) (status comment : string),
      Client.status_label status ∈ Client.status_labels ->
      Client.issue_labels (Client.update_issue_status issue status comment)
        ∩ Client.status_labels = {[ Client.status_label status ]}
      /\ size (Client.issue_labels (Client.update_issue_status issue status comment)
               ∩ Client.status_labels) = 1
      /\ Client.issue_labels (Client.update_issue_status issue status comment)
           ∖ Client.status_labels
         = Client.issue_labels issue ∖ Client.status_labels)
  /\ Forall (fun status =>
               forall (issue : Client.Issue) (comment : string),
                 size (Client.issue_labels
                         (Client.update_issue_status issue status comment)
                       ∩ Client.status_labels) = 1
                 /\ Client.issue_labels (Client.update_issue_status issue status comment)
                      ∖ Client.status_labels
                    = Client.issue_labels issue ∖ Client.status_labels)
       ["in-progress"; "needs-review"; "blocked"]
  /\ (forall (pr : ReviewLabels.PullRequest) (rr : dict) (comment : string),
        exists pr' : ReviewLabels.PullRequest,
          ReviewLabels._post_review_feedback (Ok comment) pr rr = Ok pr'
          /\ ReviewLabels.pr_labels pr' ∩ ReviewLabels.review_labels
             = {[ ReviewLabels.outcome_label rr ]}
          /\ size (ReviewLabels.pr_labels pr' ∩ ReviewLabels.review_labels) = 1
          /\ ReviewLabels.pr_labels pr' ∖ ReviewLabels.review_labels
             = ReviewLabels.pr_labels pr ∖ ReviewLabels.review_labels).
Proof.
  assert (Hissue : forall (issue : Client.Issue) (status comment : string),
             Client.status_label status ∈ Client.status_labels ->
             Client.issue_labels (Client.update_issue_status issue status comment)
               ∩ Client.status_labels = {[ Client.status_label status ]}
             /\ size (Client.issue_labels
                        (Client.update_issue_status issue status comment)
                      ∩ Client.status_labels) = 1
             /\ Client.issue_labels (Client.update_issue_status issue status comment)
                  ∖ Client.status_labels
                = Client.issue_labels issue ∖ Client.status_labels).
  { intros issue status comment Hin. simpl.
    destruct (set_replace_group Client.status_labels (Client.issue_labels issue)
                (Client.status_label status) Hin) as [H1 H2].
    rewrite H1, H2, size_singleton. auto. }
  split; [exact Hissue |]. split.
  - destruct status_label_call_sites as (H1 & H2 & H3).
    apply Forall_cons_2; [| apply Forall_cons_2; [| apply Forall_cons_2;
      [| apply Forall_nil_2]]]; intros issue comment.
    + apply (Hissue issue _ comment H1).
    + apply (Hissue issue _ comment H2).
    + apply (Hissue issue _ comment H3).
  - intros pr rr comment. eexists. split; [reflexivity |]. simpl.
    destruct (set_replace_group ReviewLabels.review_labels (ReviewLabels.pr_labels pr)
                _ (outcome_label_in_group rr)) as [H1 H2].
    rewrite H1, H2, size_singleton. auto.
Qed.

(** The invariant at a prior label set that already holds three status
    labels, for the status requested when a pull request is opened. *)
Lemma label_set_replace_invariant_witness :
  Client.status_label "needs-review" ∈ Client.status_labels
  /\ size (Client.issue_labels
             (Client.update_issue_status
                {| Client.issue_labels := {[ "bug"; "in-progress"; "blocked"; "ready" ]};
                   Client.issue_comments := [] |}
                "needs-review" "Pull Request #7 created and ready for review.")
           ∩ Client.status_labels) = 1.
Proof.
  split.
  - exact (proj1 (proj2 status_label_call_sites)).
  - exact (proj1 (proj2 (proj1 label_set_replace_invariant
             {| Client.issue_labels := {[ "bug"; "in-progress"; "blocked"; "ready" ]};
                Client.issue_comments := [] |}
             "needs-review" "Pull Request #7 created and ready for review."
             (proj1 (proj2 status_label_call_sites))))).
Defined.

Section BranchName.
Import PyStr Plan.

Lemma take_length (n : nat) (s : string) : String.length (take n s) <= n.
Proof.
  revert s. induction n as [| n IH]; intros [| c s]; simpl; try lia.
  specialize (IH s). lia.
Qed.

(** After the first substitution a character is a hyphen exactly when
    the original was not a letter or a digit. *)
Lemma sub_char_is_hyphen (c : ascii) :
  Ascii.eqb (if slug_char c then c else "-"%char) "-"%char = is_separator c.
Proof. destruct c as [[] [] [] [] [] [] [] []]; reflexivity. Qed.

Lemma sub_char_keeps_alnum (c : ascii) :
  is_separator c = false -> (if slug_char c then c else "-"%char) = c.
Proof. destruct c as [[] [] [] [] [] [] [] []]; intros H; try reflexivity; discriminate H. Qed.

Lemma startswith_hyphen_sub (s : string) :
  startswith "-" (sub_non_slug s)
  = match s with
    | EmptyString => false
    | String d _ => is_separator d
    end.
Proof.
  destruct s as [| d s]; [reflexivity |].
  cbn [sub_non_slug startswith].
  rewrite andb_true_r, Ascii.eqb_sym. apply sub_char_is_hyphen.
Qed.

(** The two regular-expression substitutions together collapse every
    run of separators into one hyphen. *)
Lemma collapse_sub_is_run_collapse (s : string) :
  collapse_hyphens (sub_non_slug s) = spec_collapse_runs s.
Proof.
  induction s as [| c s IH]; [reflexivity |].
  cbn [sub_non_slug collapse_hyphens spec_collapse_runs].
  rewrite sub_char_is_hyphen, startswith_hyphen_sub.
  destruct (is_separator c) eqn:Hc.
  - destruct s as [| d s]; [reflexivity |].
    destruct (is_separator d); rewrite IH; reflexivity.
  - rewrite IH, (sub_char_keeps_alnum c Hc). reflexivity.
Qed.

Lemma plan_branch_name (settings : Settings) (I : Z) (T : string) (analysis : dict)
    (p : ImplementationPlan) :
  _create_implementation_plan settings I T analysis = Ok p ->
  branch_name p = derive_branch_name settings I T.
Proof.
  unfold _create_implementation_plan.
  destruct (py_get _ _ _); simpl; [| discriminate].
  intros [= <-]. reflexivity.
Qed.

End BranchName.

(** C4. The branch name is a function of the title and the issue number
    alone (whatever the analysis, a plan carries the same name); it is
    obtained by lower-casing the title, collapsing the separator runs
    into single hyphens, trimming the edge hyphens, cutting to 50
    characters, prefixing the configured namespace and cutting the whole
    to 100 characters; and it is never longer than 100 characters. *)
Theorem branch_name_derivation :
  forall (settings : Settings) (T : string) (I : Z),
    (forall (a1 a2 : dict) (p1 p2 : Plan.ImplementationPlan),
        Plan._create_implementation_plan settings I T a1 = Ok p1 ->
        Plan._create_implementation_plan settings I T a2 = Ok p2 ->
        Plan.branch_name p1 = Plan.branch_name p2
        /\ Plan.branch_name p1 = Plan.derive_branch_name settings I T)
    /\ Plan.derive_branch_name settings I T
       = Plan.spec_branch_name (branch_prefix settings) I T
    /\ String.length (Plan.clean_title T) <= 50
    /\ String.length (Plan.derive_branch_name settings I T) <= 100.
Proof.
  intros settings T I. repeat split.
  - rewrite (plan_branch_name _ _ _ _ _ H), (plan_branch_name _ _ _ _ _ H0).
    reflexivity.
  - apply (plan_branch_name _ _ _ _ _ H).
  - unfold Plan.derive_branch_name, Plan.spec_branch_name, Plan.clean_title.
    rewrite collapse_sub_is_run_collapse. reflexivity.
  - apply take_length.
  - apply take_length.
Qed.

(** The derivation at the default settings, for issue 42 and a title
    with capitals, blanks, punctuation and doubled hyphens. *)
Lemma branch_name_derivation_witness :
  exists p : Plan.ImplementationPlan,
    Plan._create_implementation_plan default_settings 42 "Fix: Login  BUG -- now!"
      [("analysis", JDict [])] = Ok p
    /\ Plan.branch_name p = "agent/issue-42-fix-login-bug-now".
Proof.
  eexists. split; [reflexivity |].
  exact (proj2 (proj1 (branch_name_derivation default_settings
                         "Fix: Login  BUG -- now!" 42)
                  [("analysis", JDict [])] [("analysis", JDict [])] _ _
                  eq_refl eq_refl)).
Defined.

Section StringFacts.
Import PyStr Resolver.

Lemma append_cons (c : ascii) (s t : string) :
  String c s +:+ t = String c (s +:+ t).
Proof. reflexivity. Qed.

Lemma append_nil_l (s : string) : "" +:+ s = s.
Proof. reflexivity. Qed.

Lemma append_nil_r (s : string) : s +:+ "" = s.
Proof.
  induction s as [| c s IH]; [reflexivity |].
  now rewrite append_cons, IH.
Qed.

Lemma append_assoc (a b c : string) : (a +:+ b) +:+ c = a +:+ (b +:+ c).
Proof.
  induction a as [| x a IH]; [reflexivity |].
  now rewrite !append_cons, IH.
Qed.

Lemma append_eq_nil (a b : string) : a +:+ b = "" -> a = "" /\ b = "".
Proof. destruct a; [auto | rewrite append_cons; discriminate]. Qed.

Lemma startswith_spec (p s : string) :
  startswith p s = true <-> exists post, s = p +:+ post.
Proof.
  revert s. induction p as [| a p IH]; intros s.
  - split; [intros _; exists s; reflexivity | reflexivity].
  - destruct s as [| b s]; cbn [startswith].
    + split; [discriminate | intros [post H]; discriminate H].
    + rewrite andb_true_iff, IH. split.
      * intros [Hab [post ->]]. apply Ascii.eqb_eq in Hab as ->.
        exists post. reflexivity.
      * intros [post H]. rewrite append_cons in H.
        injection H as -> ->. split; [apply Ascii.eqb_refl | eauto].
Qed.

Lemma contains_spec (needle s : string) :
  contains needle s = true <-> is_substring needle s.
Proof.
  unfold is_substring. induction s as [| c s IH]; cbn [contains].
  - rewrite orb_false_r, startswith_spec. split.
    + intros [post H]. exists "", post. exact H.
    + intros (pre & post & H). symmetry in H.
      apply append_eq_nil in H as [-> H].
      exists post. now rewrite H.
  - rewrite orb_true_iff, IH, startswith_spec. split.
    + intros [[post H] | (pre & post & ->)].
      * exists "", post. exact H.
      * exists (String c pre), post. reflexivity.
    + intros ([| c' pre] & post & H).
      * left. eauto.
      * right. rewrite append_cons in H. injection H as -> ->. eauto.
Qed.

Lemma endswith_spec (suf s : string) :
  endswith suf s = true <-> is_suffix suf s.
Proof.
  unfold is_suffix. induction s as [| c s IH]; cbn [endswith].
  - rewrite orb_false_r, String.eqb_eq. split.
    + intros ->. exists "". reflexivity.
    + intros [pre H]. symmetry in H. now apply append_eq_nil in H.
  - rewrite orb_true_iff, IH, String.eqb_eq. split.
    + intros [-> | [pre ->]].
      * exists "". reflexivity.
      * exists (String c pre). reflexivity.
    + intros ([| c' pre] & H).
      * left. now symmetry.
      * right. rewrite append_cons in H. injection H as -> ->. eauto.
Qed.

Lemma is_substring_trans (a b c : string) :
  is_substring a b -> is_substring b c -> is_substring a c.
Proof.
  intros (p1 & q1 & ->) (p2 & q2 & ->).
  exists (p2 +:+ p1), (q1 +:+ q2). now rewrite !append_assoc.
Qed.

Lemma contains_false_spec (needle s : string) :
  contains needle s = false <-> ~ is_substring needle s.
Proof. rewrite <- contains_spec. destruct (contains needle s); split; congruence. Qed.

End StringFacts.

Section ResolverFacts.
Import PyStr Resolver.

(** A pattern made of a star and a star-free extension is a suffix test. *)
Lemma config_patterns_match (path : string) :
  existsb (fun pattern => _pattern_matches pattern path) ["*.json"; "*.yaml"; "*.yml"]
  = endswith ".json" path || endswith ".yaml" path || endswith ".yml" path.
Proof.
  unfold existsb, _pattern_matches.
  change (startswith "*" "*.json") with true.
  change (startswith "*" "*.yaml") with true.
  change (startswith "*" "*.yml") with true.
  change (contains "*" (drop_last (drop 1 "*.json"))) with false.
  change (contains "*" (drop_last (drop 1 "*.yaml"))) with false.
  change (contains "*" (drop_last (drop 1 "*.yml"))) with false.
  change (drop 1 "*.json") with ".json".
  change (drop 1 "*.yaml") with ".yaml".
  change (drop 1 "*.yml") with ".yml".
  cbv iota. rewrite !orb_false_r, orb_assoc. reflexivity.
Qed.

(** The test pattern of the resolver holds a star in the middle; the
    matcher compares it literally, star included. *)
Lemma test_pattern_match (path : string) :
  _pattern_matches "*test*.py" path
  = endswith "test*.py" path || contains "test*.p" path.
Proof. reflexivity. Qed.

Lemma filter_sublist {A} (f : A -> bool) (l : list A) : sublist (List.filter f l) l.
Proof.
  induction l as [| x l IH]; simpl; [constructor |].
  destruct (f x); now constructor.
Qed.

Lemma discover_ok (tree : list string) (requirement : string) :
  _discover_relevant_files (Ok tree) requirement
  = Ok (firstn 50 (List.filter (keeps (_determine_file_patterns requirement)) tree)).
Proof. destruct tree; reflexivity. Qed.

Lemma any_in_substring (keywords : list string) (a b : string) :
  is_substring a b -> any_in keywords a = true -> any_in keywords b = true.
Proof.
  unfold any_in. rewrite !existsb_exists. intros Hab (k & Hk & Hc).
  exists k. split; [exact Hk |].
  apply contains_spec. apply contains_spec in Hc.
  eapply is_substring_trans; eauto.
Qed.

End ResolverFacts.

Section ResolverScenario.
Import PyStr Resolver.

Lemma config_requirement_patterns (requirement : string) :
  is_substring "add a configuration loader in yaml" requirement ->
  any_in ["python"; ".py"; "py file"] requirement = false ->
  any_in ["documentation"; "readme"; ".md"; "markdown"] requirement = false ->
  any_in ["test"; "tests"; "testing"] requirement = false ->
  _determine_file_patterns requirement = ["*.json"; "*.yaml"; "*.yml"].
Proof.
  intros Hphrase Hpy Hdoc Htest.
  unfold _determine_file_patterns. rewrite Hpy, Hdoc, Htest.
  rewrite (any_in_substring _ _ _ Hphrase); reflexivity.
Qed.

Lemma keeps_config_sound (path : string) :
  keeps ["*.json"; "*.yaml"; "*.yml"] path = true ->
  (is_suffix ".json" path \/ is_suffix ".yaml" path \/ is_suffix ".yml" path)
  /\ ~ is_substring "node_modules/" path
  /\ ~ is_substring ".git" path.
Proof.
  unfold keeps. rewrite andb_true_iff, config_patterns_match, negb_true_iff.
  intros [Hmatch Hexcl]. split; [| split].
  - rewrite !orb_true_iff, !endswith_spec in Hmatch. tauto.
  - apply contains_false_spec.
    cbn [existsb excluded_fragments] in Hexcl.
    rewrite !orb_false_iff in Hexcl. tauto.
  - apply contains_false_spec.
    cbn [existsb excluded_fragments] in Hexcl.
    rewrite !orb_false_iff in Hexcl. tauto.
Qed.

End ResolverScenario.

(** C6. For a requirement mentioning "add a configuration loader in
    yaml" and no keyword of the other pattern groups, and for every
    repository tree, the resolver returns paths of the tree, in tree
    order, at most 50 of them, each ending in ".json", ".yaml" or ".yml",
    none containing "node_modules/" or ".git". *)
Theorem config_requirement_resolution :
  forall (requirement : string) (tree : list string),
    Resolver.is_substring "add a configuration loader in yaml" requirement ->
    PyStr.any_in ["python"; ".py"; "py file"] requirement = false ->
    PyStr.any_in ["documentation"; "readme"; ".md"; "markdown"] requirement = false ->
    PyStr.any_in ["test"; "tests"; "testing"] requirement = false ->
    exists found : list string,
      Resolver._discover_relevant_files (Ok tree) requirement = Ok found
      /\ sublist found tree
      /\ length found <= 50
      /\ Forall (fun path =>
                   In path tree
                   /\ (Resolver.is_suffix ".json" path
                       \/ Resolver.is_suffix ".yaml" path
                       \/ Resolver.is_suffix ".yml" path)
                   /\ ~ Resolver.is_substring "node_modules/" path
                   /\ ~ Resolver.is_substring ".git" path) found.
Proof.
  intros requirement tree Hphrase Hpy Hdoc Htest.
  rewrite discover_ok, (config_requirement_patterns _ Hphrase Hpy Hdoc Htest).
  eexists. split; [reflexivity |].
  assert (Hsub : sublist (firstn 50 (List.filter
                   (Resolver.keeps ["*.json"; "*.yaml"; "*.yml"]) tree))
                   (List.filter (Resolver.keeps ["*.json"; "*.yaml"; "*.yml"]) tree))
    by apply sublist_take.
  split; [| split].
  - etransitivity; [exact Hsub | apply filter_sublist].
  - apply firstn_le_length.
  - apply Forall_forall. intros path Hin.
    apply (elem_of_sublist _ _ _ Hin) in Hsub.
    apply list_elem_of_In, filter_In in Hsub as [Hin' Hkeep].
    split; [exact Hin' | now apply keeps_config_sound].
Qed.

(** The scenario on a small tree: the YAML and JSON files are found, a
    file under [node_modules/] and one under [.github] are not. *)
Lemma config_requirement_resolution_witness :
  Resolver.is_substring "add a configuration loader in yaml"
    "add a configuration loader in yaml"
  /\ exists found : list string,
       Resolver._discover_relevant_files
         (Ok ["config/app.yaml"; "node_modules/x/package.json"; "src/main.py";
              ".github/workflows/ci.yml"; "settings.json"])
         "add a configuration loader in yaml" = Ok found
       /\ sublist found
            ["config/app.yaml"; "node_modules/x/package.json"; "src/main.py";
             ".github/workflows/ci.yml"; "settings.json"]
       /\ length found <= 50
       /\ Forall (fun path =>
                    In path ["config/app.yaml"; "node_modules/x/package.json";
                             "src/main.py"; ".github/workflows/ci.yml"; "settings.json"]
                    /\ (Resolver.is_suffix ".json" path
                        \/ Resolver.is_suffix ".yaml" path
                        \/ Resolver.is_suffix ".yml" path)
                    /\ ~ Resolver.is_substring "node_modules/" path
                    /\ ~ Resolver.is_substring ".git" path) found.
Proof.
  split.
  - exists "", "". reflexivity.
  - apply config_requirement_resolution.
    + exists "", "". reflexivity.
    + reflexivity.
    + reflexivity.
    + reflexivity.
Defined.

Section TestPattern.
Import PyStr Resolver.

(** The keyword does produce the test pattern. *)
Lemma test_keyword_gives_test_pattern (requirement : string) :
  contains "test" requirement = true ->
  In "*test*.py" (_determine_file_patterns requirement).
Proof.
  intros Htest. unfold _determine_file_patterns.
  assert (Hany : any_in ["test"; "tests"; "testing"] requirement = true)
    by (unfold any_in; cbn [existsb]; now rewrite Htest).
  rewrite Hany.
  destruct (any_in ["python"; ".py"; "py file"] requirement),
           (any_in ["documentation"; "readme"; ".md"; "markdown"] requirement),
           (any_in ["config"; "configuration"; ".json"; ".yaml"; ".yml"] requirement);
    cbn; tauto.
Qed.

(** A path matching the test pattern holds the text "test*.p", star
    included. *)
Lemma test_pattern_needs_literal_star (path : string) :
  _pattern_matches "*test*.py" path = true -> is_substring "test*.p" path.
Proof.
  rewrite test_pattern_match, orb_true_iff, endswith_spec, contains_spec.
  intros [[pre ->] | H]; [| exact H].
  exists pre, "y". reflexivity.
Qed.

End TestPattern.

(** C7 (what the code does). The requirement "add tests" contains the
    keyword "test" and obtains the single pattern "*test*.py"; the path
    "tests/test_app.py" contains "test", ends in ".py" and lies in no
    excluded directory, yet the matcher rejects it and the resolver
    returns nothing for a tree holding it. *)
Theorem test_pattern_misses_test_files :
  PyStr.contains "test" "add tests" = true
  /\ Resolver._determine_file_patterns "add tests" = ["*test*.py"]
  /\ PyStr.contains "test" "tests/test_app.py" = true
  /\ PyStr.endswith ".py" "tests/test_app.py" = true
  /\ existsb (fun exclude => PyStr.contains exclude "tests/test_app.py")
       Resolver.excluded_fragments = false
  /\ Resolver._pattern_matches "*test*.py" "tests/test_app.py" = false
  /\ Resolver._discover_relevant_files (Ok ["tests/test_app.py"]) "add tests" = Ok [].
Proof. repeat split. Qed.

Lemma run_ok {St A : Type} (m : Eff.M St A) (st : St) (a : A) :
  fst (m st) = Ok a -> m st = (Ok a, snd (m st)).
Proof. destruct (m st) as [r st']. simpl. now intros ->. Qed.

Section IterationCap.
Import CodeAgent.
Context {W : Type}.
Variable env : Env W.
Variable settings : Settings.
Hypothesis Hanswers : answers env.

Lemma revise_file_returns (pr_number : Z) (pr : PullInfo) (feedback file_path : string)
    (w : W) :
  fst (revise_file env pr_number pr feedback file_path w) = Ok tt.
Proof.
  destruct Hanswers as (_ & _ & _ & Hllm & Hwrite).
  unfold revise_file, Eff.mtry, Eff.mbind, _apply_feedback_to_file, Eff.mbind, Eff.ret.
  destruct (get_file_content env file_path (head_ref pr) w) as [[content |] w1];
    [| reflexivity].
  destruct (String.eqb content ""); [reflexivity |].
  specialize (Hllm "You are a software developer applying code review feedback."
                   (feedback_prompt file_path content feedback (body pr)) w1).
  destruct (llm_generate env _ _ w1) as [[response | [msg |]] w2]; simpl in *;
    [| reflexivity | congruence].
  destruct (negb _); [| reflexivity].
  specialize (Hwrite file_path (PyStr.strip_ws response)
                ("Apply review feedback for PR #" +:+ PyStr.of_Z pr_number)
                (head_ref pr) w2).
  destruct (create_or_update_file env _ _ _ _ w2) as [[[] | [msg |]] w3]; simpl in *;
    [reflexivity | reflexivity | congruence].
Qed.

Lemma revise_loop_returns (pr_number : Z) (pr : PullInfo) (feedback : string)
    (files : list string) (w : W) :
  fst (Eff.for_each files (revise_file env pr_number pr feedback) w) = Ok tt.
Proof.
  revert w. induction files as [| f files IH]; intros w; [reflexivity |].
  cbn [Eff.for_each]. unfold Eff.mbind.
  pose proof (revise_file_returns pr_number pr feedback f w) as Hf.
  destruct (revise_file env pr_number pr feedback f w) as [[[] | e] w1]; simpl in Hf;
    [apply IH | discriminate].
Qed.

Lemma revise_returns (pr_number : Z) (feedback : string) (w : W) :
  fst (revise env pr_number feedback w) = Ok tt.
Proof.
  destruct Hanswers as (_ & Hpr & Hfiles & _).
  unfold revise, Eff.mbind.
  destruct (Hpr pr_number w) as [pr Hp].
  destruct (get_pull_request env pr_number w) as [r1 w1]; simpl in Hp; subst r1.
  destruct (Hfiles pr_number w1) as [fs Hf].
  destruct (get_changed_files env pr_number w1) as [r2 w2]; simpl in Hf; subst r2.
  apply revise_loop_returns.
Qed.

(** What revising one file does to the platform, with the outcome of
    every step spelled out. *)
Lemma revise_file_world (pr_number : Z) (pr : PullInfo) (feedback file_path : string)
    (w : W) :
  snd (revise_file env pr_number pr feedback file_path w)
  = match get_file_content env file_path (head_ref pr) w with
    | (None, w1) => w1
    | (Some current_content, w1) =>
        if String.eqb current_content "" then w1
        else
          match llm_generate env
                  "You are a software developer applying code review feedback."
                  (feedback_prompt file_path current_content feedback (body pr)) w1 with
          | (Ok response, w2) =>
              if String.eqb (PyStr.strip_ws response) current_content then w2
              else snd (create_or_update_file env file_path (PyStr.strip_ws response)
                          ("Apply review feedback for PR #" +:+ PyStr.of_Z pr_number)
                          (head_ref pr) w2)
          | (Raise _, w2) => w2
          end
    end.
Proof.
  unfold revise_file, Eff.mtry, Eff.mbind, _apply_feedback_to_file, Eff.mbind, Eff.ret.
  destruct (get_file_content env file_path (head_ref pr) w) as [[content |] w1];
    [| reflexivity].
  destruct (String.eqb content ""); [reflexivity |].
  destruct (llm_generate env _ _ w1) as [[response | [msg |]] w2]; [| reflexivity ..].
  destruct (String.eqb (PyStr.strip_ws response) content); cbn [negb]; [reflexivity |].
  destruct (create_or_update_file env _ _ _ _ w2) as [[[] | [msg |]] w3]; reflexivity.
Qed.

(** A loop whose body always returns runs through the whole list. *)
Lemma for_each_world {A : Type} (l : list A) (step : A -> Eff.M W unit) (w : W) :
  (forall x w', fst (step x w') = Ok tt) ->
  snd (Eff.for_each l step w) = fold_left (fun w' x => snd (step x w')) l w.
Proof.
  intros Hstep. revert w. induction l as [| x l IH]; intros w; [reflexivity |].
  cbn [Eff.for_each fold_left]. unfold Eff.mbind.
  specialize (Hstep x w).
  destruct (step x w) as [[[] | e] w1]; simpl in Hstep |- *; [apply IH | discriminate].
Qed.

(** The revision of one call: every changed file of the pull request is
    revised, in the order of the listing. *)
Lemma revise_world (pr_number : Z) (feedback : string) (w w1 w2 : W) (pr : PullInfo)
    (files : list string) :
  get_pull_request env pr_number w = (Ok pr, w1) ->
  get_changed_files env pr_number w1 = (Ok files, w2) ->
  snd (revise env pr_number feedback w)
  = fold_left (fun w' file_path => snd (revise_file env pr_number pr feedback file_path w'))
      files w2.
Proof.
  intros Hpr Hfiles. unfold revise, Eff.mbind. rewrite Hpr, Hfiles.
  apply for_each_world. intros f w'. apply revise_file_returns.
Qed.

(** A call within the budget: progress comment, revision, [True]. *)
Lemma handle_within_budget (pr_number : Z) (feedback : string) (self : Agent W) :
  (iteration_count self + 1 <= max_iterations settings)%Z ->
  handle_review_feedback env settings pr_number feedback self
  = (Ok true,
     {| iteration_count := iteration_count self + 1;
        world := snd (revise env pr_number feedback
                        (snd (add_pr_comment env pr_number
                                (progress_comment settings (iteration_count self + 1))
                                (world self)))) |}).
Proof.
  intros Hle. destruct Hanswers as (Hcomment & _).
  unfold handle_review_feedback, Eff.mbind, Eff.modify, Eff.get, on_world, Eff.ret.
  cbn [iteration_count world].
  destruct (Z.ltb_spec (max_iterations settings) (iteration_count self + 1)); [lia |].
  rewrite (run_ok _ _ _ (Hcomment pr_number _ (world self))).
  cbn [iteration_count world].
  rewrite (run_ok _ _ _ (revise_returns pr_number feedback _)).
  reflexivity.
Qed.

(** A call beyond the budget: escalation comment only, [False]. *)
Lemma handle_beyond_budget (pr_number : Z) (feedback : string) (self : Agent W) :
  (max_iterations settings < iteration_count self + 1)%Z ->
  handle_review_feedback env settings pr_number feedback self
  = (Ok false,
     {| iteration_count := iteration_count self + 1;
        world := snd (add_pr_comment env pr_number escalation_comment (world self)) |}).
Proof.
  intros Hlt. destruct Hanswers as (Hcomment & _).
  unfold handle_review_feedback, Eff.mbind, Eff.modify, Eff.get, on_world, Eff.ret.
  cbn [iteration_count world].
  destruct (Z.ltb_spec (max_iterations settings) (iteration_count self + 1)); [| lia].
  rewrite (run_ok _ _ _ (Hcomment pr_number _ (world self))).
  reflexivity.
Qed.

Lemma handle_outcome (pr_number : Z) (feedback : string) (self : Agent W) :
  fst (handle_review_feedback env settings pr_number feedback self)
  = Ok (iteration_count self + 1 <=? max_iterations settings)%Z
  /\ iteration_count (snd (handle_review_feedback env settings pr_number feedback self))
     = (iteration_count self + 1)%Z.
Proof.
  destruct (Z.leb_spec (iteration_count self + 1) (max_iterations settings)).
  - rewrite handle_within_budget by lia. auto.
  - rewrite handle_beyond_budget by lia. auto.
Qed.

(** The k-th of any series of calls succeeds exactly while the counter
    it reaches stays within the budget. *)
Lemma feedback_calls_outcomes (calls : list (Z * string)) (self : Agent W) :
  fst (feedback_calls env settings calls self)
  = map (fun k => Ok (iteration_count self + Z.of_nat k <=? max_iterations settings)%Z)
      (seq 1 (length calls)).
Proof.
  revert self. induction calls as [| [pr_number feedback] rest IH]; intros self;
    [reflexivity |].
  cbn [feedback_calls length seq map].
  destruct (handle_outcome pr_number feedback self) as [Hres Hcount].
  destruct (handle_review_feedback env settings pr_number feedback self) as [r self'].
  simpl in Hres, Hcount. specialize (IH self').
  destruct (feedback_calls env settings rest self') as [rs self''].
  simpl in IH |- *. subst r rs. f_equal.
  rewrite <- (seq_shift (length rest) 1), map_map. apply map_ext. intros k.
  rewrite Hcount. do 2 f_equal. lia.
Qed.

End IterationCap.

Section IterationCount.
Import CodeAgent.
Context {W : Type}.
Variable env : Env W.
Variable settings : Settings.
Hypothesis Hanswers : answers env.

(** Every call counts, refused or not. *)
Lemma feedback_calls_count (calls : list (Z * string)) (self : Agent W) :
  iteration_count (snd (feedback_calls env settings calls self))
  = (iteration_count self + Z.of_nat (length calls))%Z.
Proof.
  revert self. induction calls as [| [pr_number feedback] rest IH]; intros self.
  - simpl. lia.
  - cbn [feedback_calls length].
    destruct (handle_outcome env settings Hanswers pr_number feedback self) as [_ Hcount].
    destruct (handle_review_feedback env settings pr_number feedback self) as [r self'].
    simpl in Hcount. specialize (IH self').
    destruct (feedback_calls env settings rest self') as [rs self''].
    simpl in IH |- *. lia.
Qed.

End IterationCount.

Lemma mem_env_answers (answer : string) : CodeAgent.answers (MemPlatform.mem_env answer).
Proof.
  unfold CodeAgent.answers. simpl. repeat split; eauto; discriminate.
Qed.




(** The same run, seen from the platform: the comments posted and the
    file written. *)
Example feedback_run_on_memory_platform :
  let final := snd (CodeAgent.feedback_calls (MemPlatform.mem_env "x = 2
")
                      MemPlatform.two_iterations
                      [(7, "rename x"); (7, "again"); (7, "once more")]%Z
                      (CodeAgent.fresh MemPlatform.mem_world)) in
  CodeAgent.iteration_count final = 3%Z
  /\ MemPlatform.mem_comments (CodeAgent.world final)
     = [(7%Z, "Received review feedback. Making adjustments (iteration 1/2)...");
        (7%Z, "Received review feedback. Making adjustments (iteration 2/2)...");
        (7%Z, "Maximum iteration limit reached. Manual intervention required.")]
  /\ MemPlatform.mem_files (CodeAgent.world final)
     = [("src/app.py", "x = 2"); ("src/app.py", "x = 1")].
Proof. repeat split. Qed.

Section SchedulerLoops.
Import IssueProcessor.
Context {W : Type}.
Variable c : Collab W.
Hypothesis Hquiet : uninterrupted c.

(** One issue: the step returns, the code agent has run on the platform,
    and a failure leaves exactly its entry. *)
Lemma issue_step_spec (issue : Item) (st : State W) :
  fst (issue_step c issue st) = Ok tt
  /\ world (snd (issue_step c issue st))
     = snd (process_issue c (number issue) (world st))
  /\ errors (results (snd (issue_step c issue st)))
     = (errors (results st)
        ++ match fst (process_issue c (number issue) (world st)) with
           | Raise (Exception msg) => [issue_entry issue msg]
           | _ => []
           end)%list.
Proof.
  destruct Hquiet as (_ & _ & Hproc & _).
  specialize (Hproc (number issue) (world st)).
  unfold issue_step, Eff.mtry, Eff.mbind, on_world, Eff.modify, Eff.ret.
  destruct (process_issue c (number issue) (world st)) as [[pr_number | [msg |]] w1];
    cbn [fst snd] in *.
  - destruct (is_pr_number pr_number); cbn; now rewrite app_nil_r.
  - cbn. auto.
  - congruence.
Qed.

Lemma pr_step_spec (pr : Item) (st : State W) :
  fst (pr_step c pr st) = Ok tt
  /\ world (snd (pr_step c pr st))
     = snd (review_pull_request c (number pr) (world st))
  /\ errors (results (snd (pr_step c pr st)))
     = (errors (results st)
        ++ match fst (review_pull_request c (number pr) (world st)) with
           | Raise (Exception msg) => [pr_entry pr msg]
           | _ => []
           end)%list.
Proof.
  destruct Hquiet as (_ & _ & _ & Hrev).
  specialize (Hrev (number pr) (world st)).
  unfold pr_step, Eff.mtry, Eff.mbind, on_world, Eff.modify, Eff.ret.
  destruct (review_pull_request c (number pr) (world st)) as [[[] | [msg |]] w1];
    cbn [fst snd] in *.
  - cbn. now rewrite app_nil_r.
  - cbn. auto.
  - congruence.
Qed.

(** A loop of steps that return, run on the platform and only append to
    the error list: it returns, has run every step in order, and holds
    the entry of every step that left one. *)
Lemma loop_spec (step : Item -> Eff.M (State W) unit)
    (run : Z -> W -> W) (entry : Item -> W -> list string) :
  (forall item st,
      fst (step item st) = Ok tt
      /\ world (snd (step item st)) = run (number item) (world st)
      /\ errors (results (snd (step item st)))
         = (errors (results st) ++ entry item (world st))%list) ->
  forall (items : list Item) (st : State W),
    fst (Eff.for_each items step st) = Ok tt
    /\ world (snd (Eff.for_each items step st))
       = fold_left (fun w item => run (number item) w) items (world st)
    /\ (exists more, errors (results (snd (Eff.for_each items step st)))
                     = (errors (results st) ++ more)%list)
    /\ (forall pre item post e,
           items = (pre ++ item :: post)%list ->
           In e (entry item (fold_left (fun w item => run (number item) w) pre (world st))) ->
           In e (errors (results (snd (Eff.for_each items step st))))).
Proof.
  intros Hstep items. induction items as [| x items IH]; intros st.
  - cbn. repeat split; auto.
    + exists []. now rewrite app_nil_r.
    + intros [| ? ?] ? ? ? Heq; discriminate Heq.
  - destruct (Hstep x st) as (Hok & Hworld & Herr).
    cbn [Eff.for_each]. unfold Eff.mbind.
    rewrite (run_ok _ _ _ Hok).
    destruct (IH (snd (step x st))) as (IHok & IHworld & [more IHerr] & IHin).
    split; [exact IHok |]. split; [| split].
    + rewrite IHworld, Hworld. reflexivity.
    + exists (entry x (world st) ++ more)%list.
      rewrite IHerr, Herr, app_assoc. reflexivity.
    + intros [| y pre] item post e Heq Hin; cbn in Heq; injection Heq as -> ->.
      * cbn in Hin. rewrite IHerr, Herr. apply in_or_app. left.
        apply in_or_app. now right.
      * apply (IHin pre item post e eq_refl). rewrite Hworld. exact Hin.
Qed.

End SchedulerLoops.

Section SchedulerCycle.
Import IssueProcessor.
Context {W : Type}.
Variable c : Collab W.
Hypothesis Hquiet : uninterrupted c.

Lemma issue_loop_spec (items : list Item) (st : State W) :
  fst (Eff.for_each items (issue_step c) st) = Ok tt
  /\ world (snd (Eff.for_each items (issue_step c) st))
     = issues_handled c items (world st)
  /\ (exists more, errors (results (snd (Eff.for_each items (issue_step c) st)))
                   = (errors (results st) ++ more)%list)
  /\ (forall pre item post msg,
         items = (pre ++ item :: post)%list ->
         fst (process_issue c (number item) (issues_handled c pre (world st)))
         = Raise (Exception msg) ->
         In (issue_entry item msg)
            (errors (results (snd (Eff.for_each items (issue_step c) st))))).
Proof.
  pose proof (loop_spec (issue_step c)
                (fun n w => snd (process_issue c n w))
                (fun item w => match fst (process_issue c (number item) w) with
                               | Raise (Exception msg) => [issue_entry item msg]
                               | _ => []
                               end)
                (issue_step_spec c Hquiet) items st) as (Hok & Hworld & Hmore & Hin).
  repeat split; auto.
  intros pre item post msg Heq Hraise.
  apply (Hin pre item post _ Heq).
  unfold issues_handled in Hraise. rewrite Hraise. now left.
Qed.

Lemma pr_loop_spec (items : list Item) (st : State W) :
  fst (Eff.for_each items (pr_step c) st) = Ok tt
  /\ world (snd (Eff.for_each items (pr_step c) st))
     = prs_handled c items (world st)
  /\ (exists more, errors (results (snd (Eff.for_each items (pr_step c) st)))
                   = (errors (results st) ++ more)%list)
  /\ (forall pre item post msg,
         items = (pre ++ item :: post)%list ->
         fst (review_pull_request c (number item) (prs_handled c pre (world st)))
         = Raise (Exception msg) ->
         In (pr_entry item msg)
            (errors (results (snd (Eff.for_each items (pr_step c) st))))).
Proof.
  pose proof (loop_spec (pr_step c)
                (fun n w => snd (review_pull_request c n w))
                (fun item w => match fst (review_pull_request c (number item) w) with
                               | Raise (Exception msg) => [pr_entry item msg]
                               | _ => []
                               end)
                (pr_step_spec c Hquiet) items st) as (Hok & Hworld & Hmore & Hin).
  repeat split; auto.
  intros pre item post msg Heq Hraise.
  apply (Hin pre item post _ Heq).
  unfold prs_handled in Hraise. rewrite Hraise. now left.
Qed.

Lemma new_issues_loop_keeps (items : list Item) (st : State W) :
  results (snd (new_issues_loop c items st)) = results st
  /\ world (snd (new_issues_loop c items st)) = world st.
Proof.
  revert st. induction items as [| x items IH]; intros st; [auto |].
  cbn [new_issues_loop].
  destruct (decide _); [apply IH |].
  destruct (existsb _ _); [apply (IH (add_processed (number x) st)) |].
  destruct (item_time x) as [t |]; [| apply IH].
  destruct (_ <? _)%Z; [| apply IH].
  specialize (IH st). destruct (new_issues_loop c items st). exact IH.
Qed.

(** Listing the new issues neither is interrupted nor touches [results]. *)
Lemma get_new_issues_spec (st : State W) :
  fst (_get_new_issues c st) <> Raise KeyboardInterrupt
  /\ results (snd (_get_new_issues c st)) = results st.
Proof.
  destruct Hquiet as (Hlist & _). specialize (Hlist (world st)).
  unfold _get_new_issues, Eff.mbind, on_world.
  destruct (get_open_issues c (world st)) as [[all | e] w1]; cbn [fst snd] in *.
  - pose proof (new_issues_loop_keeps all
                  {| results := results st; processed_issues := processed_issues st;
                     last_check_time := last_check_time st; world := w1 |}) as [Hr _].
    destruct (new_issues_loop c all _) as [found st']. cbn in *.
    split; [discriminate | exact Hr].
  - auto.
Qed.

Lemma get_pending_prs_spec (st : State W) :
  fst (_get_pending_prs c st) <> Raise KeyboardInterrupt
  /\ results (snd (_get_pending_prs c st)) = results st.
Proof.
  destruct Hquiet as (_ & Hlist & _). specialize (Hlist (world st)).
  unfold _get_pending_prs, Eff.mbind, on_world, Eff.get, Eff.ret.
  destruct (get_open_pulls c (world st)) as [[all | e] w1]; cbn [fst snd] in *.
  - split; [discriminate | reflexivity].
  - auto.
Qed.

(** The cycle when the issue listing fails. *)
Lemma cycle_listing_fails (st st1 : State W) (e : string) :
  _get_new_issues c (reset st) = (Raise (Exception e), st1) ->
  process_pending_issues c st
  = (Ok (results (append_error ("Processor error: " +:+ e) st1)),
     append_error ("Processor error: " +:+ e) st1).
Proof.
  intros H1.
  unfold process_pending_issues, Eff.mtry, Eff.mbind, Eff.modify, Eff.get, Eff.ret.
  rewrite H1. reflexivity.
Qed.

(** The cycle when the issues are listed but the pull requests are not. *)
Lemma cycle_pr_listing_fails (st st1 st3 : State W) (new_issues : list Item) (e : string) :
  _get_new_issues c (reset st) = (Ok new_issues, st1) ->
  _get_pending_prs c (snd (Eff.for_each new_issues (issue_step c) st1))
  = (Raise (Exception e), st3) ->
  process_pending_issues c st
  = (Ok (results (append_error ("Processor error: " +:+ e) st3)),
     append_error ("Processor error: " +:+ e) st3).
Proof.
  intros H1 H3.
  unfold process_pending_issues, Eff.mtry, Eff.mbind, Eff.modify, Eff.get, Eff.ret.
  rewrite H1.
  rewrite (run_ok _ _ _ (proj1 (issue_loop_spec new_issues st1))).
  rewrite H3. reflexivity.
Qed.

(** The cycle when both listings succeed. *)
Lemma cycle_runs_through (st st1 st3 : State W) (new_issues pending_prs : list Item) :
  _get_new_issues c (reset st) = (Ok new_issues, st1) ->
  _get_pending_prs c (snd (Eff.for_each new_issues (issue_step c) st1))
  = (Ok pending_prs, st3) ->
  process_pending_issues c st
  = (Ok (results (snd (Eff.for_each pending_prs (pr_step c) st3))),
     stamp c (snd (Eff.for_each pending_prs (pr_step c) st3))).
Proof.
  intros H1 H3.
  unfold process_pending_issues, Eff.mtry, Eff.mbind, Eff.modify, Eff.get, Eff.ret.
  rewrite H1.
  rewrite (run_ok _ _ _ (proj1 (issue_loop_spec new_issues st1))).
  rewrite H3.
  rewrite (run_ok _ _ _ (proj1 (pr_loop_spec pending_prs st3))).
  reflexivity.
Qed.

End SchedulerCycle.

Lemma scripted_uninterrupted : IssueProcessor.uninterrupted MemScheduler.scripted.
Proof.
  unfold IssueProcessor.uninterrupted. simpl. repeat split; try discriminate.
  - intros n w. destruct (n =? 2)%Z; discriminate.
  - intros n w. destruct (n =? 12)%Z; discriminate.
Qed.

(** C8. In a poll cycle whose collaborators are not interrupted, the
    cycle returns its results as a value; when the new issues are
    listed, every one of them is handed to the code agent, in order,
    whether earlier ones failed or not, and an issue whose processing
    raised has its entry among the errors of the returned results; the
    same holds for the pending pull requests and the reviewer. *)
Theorem poll_cycle_isolates_failures :
  forall (W : Type) (c : IssueProcessor.Collab W) (st : IssueProcessor.State W),
    IssueProcessor.uninterrupted c ->
    fst (IssueProcessor.process_pending_issues c st)
    = Ok (IssueProcessor.results (snd (IssueProcessor.process_pending_issues c st)))
    /\ (forall (new_issues : list IssueProcessor.Item) (st1 : IssueProcessor.State W),
          IssueProcessor._get_new_issues c (IssueProcessor.reset st) = (Ok new_issues, st1) ->
          IssueProcessor.world
            (snd (Eff.for_each new_issues (IssueProcessor.issue_step c) st1))
          = IssueProcessor.issues_handled c new_issues (IssueProcessor.world st1)
          /\ (forall pre issue post msg,
                 new_issues = (pre ++ issue :: post)%list ->
                 fst (IssueProcessor.process_issue c (IssueProcessor.number issue)
                        (IssueProcessor.issues_handled c pre (IssueProcessor.world st1)))
                 = Raise (Exception msg) ->
                 In (IssueProcessor.issue_entry issue msg)
                    (IssueProcessor.errors
                       (IssueProcessor.results
                          (snd (IssueProcessor.process_pending_issues c st)))))
          /\ (forall (pending_prs : list IssueProcessor.Item) (st3 : IssueProcessor.State W),
                 IssueProcessor._get_pending_prs c
                   (snd (Eff.for_each new_issues (IssueProcessor.issue_step c) st1))
                 = (Ok pending_prs, st3) ->
                 IssueProcessor.world (snd (IssueProcessor.process_pending_issues c st))
                 = IssueProcessor.prs_handled c pending_prs (IssueProcessor.world st3)
                 /\ (forall pre pr post msg,
                        pending_prs = (pre ++ pr :: post)%list ->
                        fst (IssueProcessor.review_pull_request c (IssueProcessor.number pr)
                               (IssueProcessor.prs_handled c pre (IssueProcessor.world st3)))
                        = Raise (Exception msg) ->
                        In (IssueProcessor.pr_entry pr msg)
                           (IssueProcessor.errors
                              (IssueProcessor.results
                                 (snd (IssueProcessor.process_pending_issues c st))))))).
Proof.
  intros W c st Hquiet. split.
  - destruct (IssueProcessor._get_new_issues c (IssueProcessor.reset st))
      as [[new_issues | [e |]] st1] eqn:H1.
    + destruct (IssueProcessor._get_pending_prs c
                  (snd (Eff.for_each new_issues (IssueProcessor.issue_step c) st1)))
        as [[pending_prs | [e |]] st3] eqn:H3.
      * rewrite (cycle_runs_through c Hquiet _ _ _ _ _ H1 H3). reflexivity.
      * rewrite (cycle_pr_listing_fails c Hquiet _ _ _ _ _ H1 H3). reflexivity.
      * destruct (get_pending_prs_spec c Hquiet
                    (snd (Eff.for_each new_issues (IssueProcessor.issue_step c) st1)))
          as [Hno _].
        rewrite H3 in Hno. now contradiction Hno.
    + rewrite (cycle_listing_fails c _ _ _ H1). reflexivity.
    + destruct (get_new_issues_spec c Hquiet (IssueProcessor.reset st)) as [Hno _].
      rewrite H1 in Hno. now contradiction Hno.
  - intros new_issues st1 H1.
    destruct (issue_loop_spec c Hquiet new_issues st1) as (_ & Hworld & _ & Hin).
    split; [exact Hworld |]. split.
    + intros pre issue post msg Heq Hraise.
      specialize (Hin pre issue post msg Heq Hraise).
      destruct (get_pending_prs_spec c Hquiet
                  (snd (Eff.for_each new_issues (IssueProcessor.issue_step c) st1)))
        as [Hno Hkeep].
      destruct (IssueProcessor._get_pending_prs c
                  (snd (Eff.for_each new_issues (IssueProcessor.issue_step c) st1)))
        as [[pending_prs | [e |]] st3] eqn:H3; cbn [fst snd] in Hno, Hkeep.
      * rewrite (cycle_runs_through c Hquiet _ _ _ _ _ H1 H3). cbn [snd].
        destruct (pr_loop_spec c Hquiet pending_prs st3) as (_ & _ & [more Hmore] & _).
        change (IssueProcessor.results (IssueProcessor.stamp c ?s))
          with (IssueProcessor.results s).
        rewrite Hmore, Hkeep. apply in_or_app. now left.
      * rewrite (cycle_pr_listing_fails c Hquiet _ _ _ _ _ H1 H3). cbn.
        rewrite Hkeep. apply in_or_app. now left.
      * now contradiction Hno.
    + intros pending_prs st3 H3.
      rewrite (cycle_runs_through c Hquiet _ _ _ _ _ H1 H3). cbn [snd].
      destruct (pr_loop_spec c Hquiet pending_prs st3) as (_ & Hw & _ & Hin3).
      split; [exact Hw |].
      intros pre pr post msg Heq Hraise.
      exact (Hin3 pre pr post msg Heq Hraise).
Qed.

(** One cycle on the scripted platform: issue 2 and pull request 12
    fail, the cycle returns, and both failures are reported. *)
Lemma poll_cycle_isolates_failures_witness :
  IssueProcessor.uninterrupted MemScheduler.scripted
  /\ fst (IssueProcessor.process_pending_issues MemScheduler.scripted MemScheduler.start)
     = Ok {| IssueProcessor.issues_processed := 2;
             IssueProcessor.prs_reviewed := 2;
             IssueProcessor.errors := ["Issue #2: boom"; "PR #12: review failed"] |}.
Proof.
  split.
  - apply scripted_uninterrupted.
  - exact (proj1 (poll_cycle_isolates_failures MemScheduler.Log MemScheduler.scripted
                    MemScheduler.start scripted_uninterrupted)).
Defined.

(** The calls the scripted platform has seen during that cycle: all
    three issues, then all three pull requests. *)
Example poll_cycle_on_scripted_platform :
  IssueProcessor.world
    (snd (IssueProcessor.process_pending_issues MemScheduler.scripted MemScheduler.start))
  = ["process_issue 1"; "process_issue 2"; "process_issue 3";
     "review_pull_request 11"; "review_pull_request 12"; "review_pull_request 13"].
Proof. vm_compute. reflexivity. Qed.

Section SpanExtraction.
Import PyStr Interpreter.

Lemma contains_char_cons (c a : ascii) (s : string) :
  contains (String c "") (String a s) = Ascii.eqb c a || contains (String c "") s.
Proof. cbn [contains startswith]. now rewrite andb_true_r. Qed.

Lemma from_first_open_skips (pre rest : string) :
  contains "{" pre = false ->
  from_first_open (pre +:+ String "{" rest) = Some (String "{"%char rest).
Proof.
  induction pre as [| a pre IH]; intros Hpre; [reflexivity |].
  change "{" with (String "{"%char "") in Hpre.
  rewrite contains_char_cons in Hpre. apply orb_false_iff in Hpre as [Ha Hpre].
  rewrite append_cons. cbn [from_first_open].
  rewrite Ascii.eqb_sym, Ha. now apply IH.
Qed.

Lemma upto_last_close_none (post : string) :
  contains "}" post = false -> upto_last_close post = None.
Proof.
  induction post as [| a post IH]; intros Hpost; [reflexivity |].
  change "}" with (String "}"%char "") in Hpost.
  rewrite contains_char_cons in Hpost. apply orb_false_iff in Hpost as [Ha Hpost].
  cbn [upto_last_close]. rewrite (IH Hpost), Ascii.eqb_sym, Ha. reflexivity.
Qed.

Lemma upto_last_close_reaches (s post : string) :
  contains "}" post = false ->
  upto_last_close (s +:+ String "}" post) = Some (s +:+ "}").
Proof.
  intros Hpost. induction s as [| a s IH].
  - rewrite !append_nil_l. cbn [upto_last_close].
    now rewrite (upto_last_close_none post Hpost).
  - rewrite !append_cons. cbn [upto_last_close]. now rewrite IH.
Qed.

(** An object framed by text without an opening brace before it and
    without a closing brace after it is the span that is found. *)
Lemma search_braces_framed (pre mid post : string) :
  contains "{" pre = false ->
  contains "}" post = false ->
  search_braces (pre +:+ ("{" +:+ mid +:+ "}") +:+ post) = Some ("{" +:+ mid +:+ "}").
Proof.
  intros Hpre Hpost. unfold search_braces.
  change ("{" +:+ mid +:+ "}") with (String "{"%char (mid +:+ "}")).
  rewrite append_cons, (from_first_open_skips pre _ Hpre).
  change (String "{"%char ((mid +:+ "}") +:+ post))
    with (String "{"%char "" +:+ ((mid +:+ "}") +:+ post)).
  rewrite append_assoc.
  change ("}" +:+ post) with (String "}"%char post).
  rewrite <- append_assoc.
  rewrite (upto_last_close_reaches _ post Hpost).
  now rewrite append_assoc.
Qed.

Lemma from_first_open_sound (s rest : string) :
  from_first_open s = Some rest ->
  exists pre tail, s = pre +:+ rest /\ contains "{" pre = false
                   /\ rest = String "{"%char tail.
Proof.
  induction s as [| a s IH]; [discriminate |].
  cbn [from_first_open]. destruct (Ascii.eqb a "{") eqn:Ha.
  - intros [= <-]. apply Ascii.eqb_eq in Ha as ->. exists "", s. auto.
  - intros H. destruct (IH H) as (pre & tail & -> & Hpre & ->).
    exists (String a pre), tail. repeat split.
    change "{" with (String "{"%char ""). rewrite contains_char_cons.
    now rewrite Ascii.eqb_sym, Ha.
Qed.

Lemma upto_last_close_none_inv (s : string) :
  upto_last_close s = None -> contains "}" s = false.
Proof.
  induction s as [| a s IH]; [reflexivity |].
  cbn [upto_last_close]. destruct (upto_last_close s); [discriminate |].
  destruct (Ascii.eqb a "}") eqn:Ha; [discriminate |]. intros _.
  change "}" with (String "}"%char ""). rewrite contains_char_cons.
  now rewrite Ascii.eqb_sym, Ha, IH.
Qed.

Lemma upto_last_close_sound (s span : string) :
  upto_last_close s = Some span ->
  exists post, s = span +:+ post /\ contains "}" post = false
               /\ endswith "}" span = true.
Proof.
  revert span. induction s as [| a s IH]; intros span; [discriminate |].
  cbn [upto_last_close]. destruct (upto_last_close s) as [r |] eqn:Hr.
  - intros [= <-]. destruct (IH r eq_refl) as (post & -> & Hpost & Hend).
    exists post. repeat split; [exact Hpost |].
    cbn [endswith]. rewrite Hend. apply orb_true_r.
  - destruct (Ascii.eqb a "}") eqn:Ha; [| discriminate].
    intros [= <-]. apply Ascii.eqb_eq in Ha as ->.
    exists s. repeat split. now apply upto_last_close_none_inv.
Qed.

(** The span that is found always runs from the first opening brace of
    the response to its last closing brace. *)
Lemma search_braces_sound (response span : string) :
  search_braces response = Some span ->
  exists pre post,
    response = pre +:+ span +:+ post
    /\ contains "{" pre = false
    /\ contains "}" post = false
    /\ startswith "{" span = true
    /\ endswith "}" span = true.
Proof.
  unfold search_braces.
  destruct (from_first_open response) as [rest |] eqn:Hopen; [| discriminate].
  intros Hclose.
  destruct (from_first_open_sound _ _ Hopen) as (pre & tail & -> & Hpre & ->).
  destruct (upto_last_close_sound _ _ Hclose) as (post & Heq & Hpost & Hend).
  exists pre, post. rewrite <- Heq. repeat split; auto.
  destruct span as [| x span]; [discriminate Hend |].
  rewrite append_cons in Heq. injection Heq as <- _. reflexivity.
Qed.

End SpanExtraction.

Section FallbackPaths.
Import Interpreter.
Variable json_loads : string -> decoding.

(** Without a span, or with a span that is not JSON, both consumers
    answer with their fallback record. *)
Lemma fallback_when_uninterpreted (text : string) :
  interpret json_loads text = None \/ interpret json_loads text = Some JSONDecodeError ->
  _perform_llm_review json_loads (Ok text) = Ok (_create_fallback_review text)
  /\ forall (issue : IssueData) (tree : result (list string)),
       _analyze_issue json_loads issue (Ok text) tree = Ok (fallback_analysis issue).
Proof.
  unfold interpret, _perform_llm_review, _analyze_issue. cbn [bind try_except].
  destruct (search_braces text) as [span |]; [| auto].
  intros [H | [= ->]]; [discriminate | auto].
Qed.

Lemma review_when_interpreted (text : string) (v : json) :
  interpret json_loads text = Some (Decoded v) ->
  _perform_llm_review json_loads (Ok text) = Ok v.
Proof.
  unfold interpret, _perform_llm_review. cbn [bind try_except].
  destruct (search_braces text) as [span |]; [| discriminate].
  now intros [= ->].
Qed.

Lemma analysis_when_interpreted (text : string) (v : json) (issue : IssueData)
    (tree : result (list string)) :
  interpret json_loads text = Some (Decoded v) ->
  _analyze_issue json_loads issue (Ok text) tree = complete_analysis tree v.
Proof.
  unfold interpret, _analyze_issue. cbn [bind].
  destruct (search_braces text) as [span |]; [| discriminate].
  now intros [= ->].
Qed.

(** A decoder that raises something else than [JSONDecodeError]: the
    reviewer's outer handler answers, the issue analysis has none. *)
Lemma decoder_exception_paths (text : string) (msg : string) :
  interpret json_loads text = Some (DecodeRaises (Exception msg)) ->
  _perform_llm_review json_loads (Ok text) = Ok technical_error_review
  /\ forall (issue : IssueData) (tree : result (list string)),
       _analyze_issue json_loads issue (Ok text) tree = Raise (Exception msg).
Proof.
  unfold interpret, _perform_llm_review, _analyze_issue. cbn [bind try_except].
  destruct (search_braces text) as [span |]; [| discriminate].
  intros [= ->]. auto.
Qed.

Lemma interpret_span (text span : string) :
  search_braces text = Some span ->
  interpret json_loads text = Some (json_loads span).
Proof. unfold interpret. now intros ->. Qed.

Lemma interpret_no_span (text : string) :
  search_braces text = None -> interpret json_loads text = None.
Proof. unfold interpret. now intros ->. Qed.

(** The reviewer returns a record unless it is interrupted. *)
Lemma review_returns_or_interrupted (generated : result string) :
  _perform_llm_review json_loads generated = Raise KeyboardInterrupt
  \/ exists review : json, _perform_llm_review json_loads generated = Ok review.
Proof.
  unfold _perform_llm_review.
  destruct generated as [response | [msg |]]; cbn [bind try_except]; eauto.
  destruct (search_braces response) as [span |]; [| eauto].
  destruct (json_loads span) as [v | | [msg |]]; cbn [try_except]; eauto.
Qed.

End FallbackPaths.

(** C2 (as the code has it). For every decoder: when the object,
    running from an opening to a closing brace, is preceded by text with
    no opening brace and followed by text with no closing brace, the
    span that is extracted is the object, so interpretation equals
    decoding the object directly, the reviewer returns the decoded
    structure and the issue analysis works on it; any span that is found
    runs from the first opening brace of the text to its last closing
    brace; when no span is found or the decoder raises [JSONDecodeError],
    the reviewer and the issue analysis return their fallback records as
    values, as the reviewer does with its technical-error record when
    the model call fails; when the decoder raises another exception, the
    reviewer returns its technical-error record and the issue analysis
    raises that exception; the reviewer returns a record whenever it is
    not interrupted. *)
Theorem interpreter_round_trip_when_framed :
  forall (json_loads : string -> decoding),
    (forall (pre mid post : string),
        PyStr.contains "{" pre = false ->
        PyStr.contains "}" post = false ->
        Interpreter.interpret json_loads (pre +:+ ("{" +:+ mid +:+ "}") +:+ post)
        = Some (json_loads ("{" +:+ mid +:+ "}"))
        /\ forall v : json,
             json_loads ("{" +:+ mid +:+ "}") = Decoded v ->
             Interpreter._perform_llm_review json_loads
               (Ok (pre +:+ ("{" +:+ mid +:+ "}") +:+ post)) = Ok v
             /\ forall (issue : Interpreter.IssueData) (tree : result (list string)),
                  Interpreter._analyze_issue json_loads issue
                    (Ok (pre +:+ ("{" +:+ mid +:+ "}") +:+ post)) tree
                  = Interpreter.complete_analysis tree v)
    /\ (forall (text span : string),
          Interpreter.search_braces text = Some span ->
          exists pre post,
            text = pre +:+ span +:+ post
            /\ PyStr.contains "{" pre = false
            /\ PyStr.contains "}" post = false
            /\ PyStr.startswith "{" span = true
            /\ PyStr.endswith "}" span = true)
    /\ (forall text : string,
          Interpreter.search_braces text = None
          \/ (exists span, Interpreter.search_braces text = Some span
                           /\ json_loads span = JSONDecodeError) ->
          Interpreter._perform_llm_review json_loads (Ok text)
          = Ok (Interpreter._create_fallback_review text)
          /\ forall (issue : Interpreter.IssueData) (tree : result (list string)),
               Interpreter._analyze_issue json_loads issue (Ok text) tree
               = Ok (Interpreter.fallback_analysis issue))
    /\ (forall msg : string,
          Interpreter._perform_llm_review json_loads (Raise (Exception msg))
          = Ok Interpreter.technical_error_review)
    /\ (forall (text span msg : string),
          Interpreter.search_braces text = Some span ->
          json_loads span = DecodeRaises (Exception msg) ->
          Interpreter._perform_llm_review json_loads (Ok text)
          = Ok Interpreter.technical_error_review
          /\ forall (issue : Interpreter.IssueData) (tree : result (list string)),
               Interpreter._analyze_issue json_loads issue (Ok text) tree
               = Raise (Exception msg))
    /\ (forall generated : result string,
          Interpreter._perform_llm_review json_loads generated = Raise KeyboardInterrupt
          \/ exists review : json,
               Interpreter._perform_llm_review json_loads generated = Ok review).
Proof.
  intros json_loads. split; [| split; [| split; [| split; [| split]]]].
  - intros pre mid post Hpre Hpost.
    pose proof (interpret_span json_loads _ _ (search_braces_framed pre mid post Hpre Hpost))
      as Hint.
    split; [exact Hint |].
    intros v Hv. rewrite Hv in Hint. split.
    + now apply review_when_interpreted.
    + intros issue tree. now apply analysis_when_interpreted.
  - apply search_braces_sound.
  - intros text H. apply fallback_when_uninterpreted.
    destruct H as [H | (span & Hspan & Hdec)].
    + left. now apply interpret_no_span.
    + right. rewrite (interpret_span json_loads _ _ Hspan). now rewrite Hdec.
  - reflexivity.
  - intros text span msg Hspan Hdec. apply decoder_exception_paths.
    rewrite (interpret_span json_loads _ _ Hspan). now rewrite Hdec.
  - apply review_returns_or_interrupted.
Qed.

(** The review object between two sentences without braces is decoded
    and returned. *)
Lemma interpreter_round_trip_when_framed_witness :
  PyStr.contains "{" "Here is my review: " = false
  /\ PyStr.contains "}" " Thanks." = false
  /\ JsonDecode.loads Samples.review_object = Decoded Samples.review_value
  /\ Interpreter._perform_llm_review JsonDecode.loads (Ok Samples.framed_response)
     = Ok Samples.review_value.
Proof.
  split; [reflexivity |]. split; [reflexivity |]. split; [reflexivity |].
  exact (proj1 (proj2 (proj1 (interpreter_round_trip_when_framed JsonDecode.loads)
                         "Here is my review: "
                         (JsonDecode.quoted "status" +:+ ": "
                          +:+ JsonDecode.quoted "approved" +:+ ", "
                          +:+ JsonDecode.quoted "meets_requirements" +:+ ": true")
                         " Thanks." eq_refl eq_refl)
                  Samples.review_value eq_refl)).
Defined.

(** C2 (counterexample). The response holds one well-formed object, and
    the prose before it uses braces: the span starts at the first brace
    of the prose, its decoding fails, and the reviewer returns the
    fallback record instead of the decoded object.  The same happens
    when a closing brace follows the object.  And a response that is one
    object whose integer has 4301 digits makes the decoder raise
    [ValueError]: the issue analysis raises it instead of returning its
    fallback record, and the reviewer answers with its technical-error
    record. *)
Lemma interpreter_round_trip_counterexample :
  JsonDecode.loads Samples.review_object = Decoded Samples.review_value
  /\ Samples.braces_in_prose = "Wrap it in {braces}: " +:+ Samples.review_object
  /\ JsonDecode.loads "{braces}" = JSONDecodeError
  /\ Interpreter.search_braces Samples.braces_in_prose
     = Some ("{braces}: " +:+ Samples.review_object)
  /\ Interpreter.interpret JsonDecode.loads Samples.braces_in_prose
     <> Some (JsonDecode.loads Samples.review_object)
  /\ Interpreter._perform_llm_review JsonDecode.loads (Ok Samples.braces_in_prose)
     = Ok (Interpreter._create_fallback_review Samples.braces_in_prose)
  /\ Interpreter._perform_llm_review JsonDecode.loads (Ok Samples.braces_in_prose)
     <> Ok Samples.review_value
  /\ Interpreter._perform_llm_review JsonDecode.loads (Ok Samples.brace_after)
     <> Ok Samples.review_value
  /\ Interpreter.search_braces Samples.long_integer_object
     = Some Samples.long_integer_object
  /\ JsonDecode.loads Samples.long_integer_object
     = DecodeRaises (Exception JsonDecode.digit_limit_error)
  /\ Interpreter._analyze_issue JsonDecode.loads Samples.sample_issue
       (Ok Samples.long_integer_object) (Ok ["src/app.py"])
     = Raise (Exception JsonDecode.digit_limit_error)
  /\ Interpreter._perform_llm_review JsonDecode.loads (Ok Samples.long_integer_object)
     = Ok Interpreter.technical_error_review.
Proof.
  repeat split; try discriminate; vm_compute; reflexivity.
Qed.

(** A well-formed object without the key "analysis" makes
    [_analyze_issue] leave by [KeyError]: after a successful decoding
    only [JSONDecodeError] is caught. *)
Example analyze_issue_raises_on_plain_object :
  JsonDecode.loads Samples.plain_object = Decoded (JDict [("a", JInt 1)])
  /\ Interpreter._analyze_issue JsonDecode.loads Samples.sample_issue
       (Ok Samples.plain_object) (Ok ["src/app.py"])
     = Raise (Exception "KeyError: 'analysis'").
Proof. split; reflexivity. Qed.

(* ------------------------------------------------------------------ *)
(** ** Further properties of the reviewer *)

Section ReviewerSafety.
Import Reviewer ReviewLabels Interpreter.

Lemma approved_of_any_default (rr : dict) (default : string) :
  default <> "approved" ->
  eq_str (dict_get rr "status" (JStr default)) "approved" = approved_of rr.
Proof.
  intros Hd. unfold approved_of, dict_get.
  destruct (lookup "status" rr); [reflexivity |].
  cbn [eq_str]. apply String.eqb_neq in Hd. now rewrite Hd.
Qed.

Lemma outcome_label_approved (rr : dict) :
  outcome_label rr = "approved"
  <-> approved_of rr = true /\ truthy (meets_requirements_of rr) = true.
Proof.
  unfold outcome_label.
  rewrite (approved_of_any_default rr "unknown") by discriminate.
  fold (meets_requirements_of rr).
  destruct (approved_of rr), (truthy (meets_requirements_of rr)); cbn [andb];
    try (destruct (eq_str _ "changes_requested"));
    split; try tauto; try discriminate; intros [? ?]; discriminate.
Qed.

End ReviewerSafety.

(** X1. Whatever the review dictionary and the CI status, the decision is
    "merge" exactly when the label that [_post_review_feedback] puts on
    the pull request is "approved" and the CI succeeded: nothing is
    merged under another label. *)
Theorem merge_iff_approved_label_and_ci :
  forall (rr : dict) (ci : Client.CIStatus),
    Reviewer._determine_next_action rr ci = "merge"
    <-> ReviewLabels.outcome_label rr = "approved" /\ Client.success ci = true.
Proof.
  intros rr ci. rewrite outcome_label_approved, next_action_unfold.
  destruct (truthy (meets_requirements_of rr)), (approved_of rr), (Client.success ci);
    cbn; split; try tauto; try discriminate;
    intros [[? ?] ?]; discriminate.
Qed.

(** X2. A review that could not be read from the model (fallback record
    of any response text, or the record of a failed model call or of a
    decoder that raises) is never decided "merge" and never labelled
    "approved": the decision is "request_changes" when the CI succeeded
    and "fix_ci" otherwise, and the label is "changes-requested" or
    "needs-work". *)
Theorem unread_review_never_merges :
  forall (json_loads : string -> decoding) (text : string) (ci : Client.CIStatus),
    (Reviewer._determine_next_action
       (as_dict (Interpreter._create_fallback_review text)) ci
     = if Client.success ci then "request_changes" else "fix_ci")
    /\ (ReviewLabels.outcome_label (as_dict (Interpreter._create_fallback_review text))
        = "changes-requested"
        \/ ReviewLabels.outcome_label (as_dict (Interpreter._create_fallback_review text))
           = "needs-work")
    /\ (Reviewer._determine_next_action (as_dict Interpreter.technical_error_review) ci
        = if Client.success ci then "request_changes" else "fix_ci")
    /\ ReviewLabels.outcome_label (as_dict Interpreter.technical_error_review) = "needs-work"
    /\ (forall generated : result string,
          generated <> Raise KeyboardInterrupt ->
          (forall (response : string) (v : json),
              generated = Ok response ->
              Interpreter.interpret json_loads response <> Some (Decoded v)) ->
          (forall response : string,
              generated = Ok response ->
              Interpreter.interpret json_loads response
              <> Some (DecodeRaises KeyboardInterrupt)) ->
          exists review : json,
            Interpreter._perform_llm_review json_loads generated = Ok review
            /\ Reviewer._determine_next_action (as_dict review) ci <> "merge"
            /\ ReviewLabels.outcome_label (as_dict review) <> "approved").
Proof.
  intros json_loads text ci.
  assert (Hfb : forall t,
             Reviewer._determine_next_action
               (as_dict (Interpreter._create_fallback_review t)) ci
             = (if Client.success ci then "request_changes" else "fix_ci")
             /\ (ReviewLabels.outcome_label (as_dict (Interpreter._create_fallback_review t))
                 = "changes-requested"
                 \/ ReviewLabels.outcome_label
                      (as_dict (Interpreter._create_fallback_review t))
                    = "needs-work")).
  { intros t. unfold Interpreter._create_fallback_review.
    destruct (PyStr.contains "approved" (PyStr.lower t));
      [| destruct (PyStr.contains "changes" (PyStr.lower t))];
      (split; [destruct ci as [[] ? ?]; reflexivity | cbn; auto]). }
  assert (Hte : Reviewer._determine_next_action
                  (as_dict Interpreter.technical_error_review) ci
                = (if Client.success ci then "request_changes" else "fix_ci")).
  { destruct ci as [[] ? ?]; reflexivity. }
  split; [apply Hfb |]. split; [apply Hfb |]. split; [exact Hte |].
  split; [reflexivity |].
  assert (Htech : exists review : json,
             Ok Interpreter.technical_error_review = Ok review
             /\ Reviewer._determine_next_action (as_dict review) ci <> "merge"
             /\ ReviewLabels.outcome_label (as_dict review) <> "approved").
  { exists Interpreter.technical_error_review. split; [reflexivity |]. split.
    - rewrite Hte. destruct (Client.success ci); discriminate.
    - discriminate. }
  assert (Hfall : forall response, exists review : json,
             Ok (Interpreter._create_fallback_review response) = Ok review
             /\ Reviewer._determine_next_action (as_dict review) ci <> "merge"
             /\ ReviewLabels.outcome_label (as_dict review) <> "approved").
  { intros response. exists (Interpreter._create_fallback_review response).
    split; [reflexivity |]. destruct (Hfb response) as [Ha Hl]. split.
    - rewrite Ha. destruct (Client.success ci); discriminate.
    - destruct Hl as [-> | ->]; discriminate. }
  intros generated Hno Hun Hint.
  destruct generated as [response | [msg |]].
  - specialize (Hun response). specialize (Hint response eq_refl).
    destruct (Interpreter.interpret json_loads response) as [[v | | [msg |]] |] eqn:Hi.
    + now contradiction (Hun v eq_refl).
    + destruct (fallback_when_uninterpreted json_loads response (or_intror Hi))
        as [-> _].
      apply Hfall.
    + destruct (decoder_exception_paths json_loads response msg Hi) as [-> _].
      exact Htech.
    + now contradiction Hint.
    + destruct (fallback_when_uninterpreted json_loads response (or_introl Hi))
        as [-> _].
      apply Hfall.
  - exact Htech.
  - now contradiction Hno.
Qed.

(** A response that praises the change in prose only: the fallback
    record is built and the pull request is not merged. *)
Lemma unread_review_never_merges_witness :
  exists review : json,
    Interpreter._perform_llm_review JsonDecode.loads (Ok "Looks good, approved!")
    = Ok review
    /\ Reviewer._determine_next_action (as_dict review) (ci_of true) <> "merge"
    /\ ReviewLabels.outcome_label (as_dict review) <> "approved".
Proof.
  apply (proj2 (proj2 (proj2 (proj2
           (unread_review_never_merges JsonDecode.loads "" (ci_of true)))))).
  - discriminate.
  - intros response v [= <-]. discriminate.
  - intros response [= <-]. discriminate.
Defined.

(* ------------------------------------------------------------------ *)
(** ** Further properties of the client *)

Section CIDetails.
Import Client.

Lemma last_snoc_commit (earlier : list Commit) (latest : Commit) :
  last (earlier ++ [latest]) = Some latest.
Proof. apply last_snoc. Qed.

Lemma ci_loop_details (sts : list Status) (r : CIStatus) :
  details (ci_loop sts r)
  = details r +:+ String.concat "" (map failure_line (failing sts)).
Proof.
  revert r. induction sts as [| st rest IH]; intros r.
  - cbn. now rewrite append_nil_r.
  - cbn [ci_loop failing List.filter]. rewrite IH.
    destruct (String.eqb (state st) "success"); cbn [negb details].
    + reflexivity.
    + fold (failing rest).
      change (map failure_line (st :: failing rest))
        with (failure_line st :: map failure_line (failing rest)).
      assert (Hc : forall l : list string, String.concat "" (failure_line st :: l)
                              = failure_line st +:+ String.concat "" l).
      { intros [| x l]; cbn [String.concat]; [now rewrite append_nil_r | reflexivity]. }
      rewrite Hc. unfold failure_line. now rewrite !append_assoc.
Qed.

Lemma failure_line_not_empty (st : Status) : failure_line st <> "".
Proof.
  unfold failure_line. intros H.
  apply append_eq_nil in H as [_ H]. discriminate H.
Qed.

Lemma failing_nil_iff (sts : list Status) :
  failing sts = [] <-> forallb (fun st => String.eqb (state st) "success") sts = true.
Proof.
  induction sts as [| st rest IH]; [cbn; tauto |].
  cbn [failing List.filter forallb]. fold (failing rest).
  destruct (String.eqb (state st) "success"); cbn [negb andb].
  - exact IH.
  - split; discriminate.
Qed.

End CIDetails.

(** X3. Only the latest commit of a pull request counts: the CI status
    of a list of commits is the CI status of its last commit alone, and
    its jobs are the status entries of that commit, all of them, in
    their order. *)
Theorem ci_status_reads_latest_commit :
  forall (earlier : list Client.Commit) (latest : Client.Commit),
    Client.get_ci_status (earlier ++ [latest]) = Client.get_ci_status [latest]
    /\ Client.jobs (Client.get_ci_status (earlier ++ [latest])) = Client.statuses latest.
Proof.
  intros earlier latest. unfold Client.get_ci_status.
  rewrite last_snoc_commit. cbn [last]. split; [reflexivity |].
  now rewrite ci_loop_jobs.
Qed.

(** X4. For a pull request with commits, [details] is the concatenation
    of one line "context: state" per failing entry of the latest commit,
    in order; it is empty exactly when [success] is true. *)
Theorem ci_details_empty_iff_success :
  forall (earlier : list Client.Commit) (latest : Client.Commit),
    Client.details (Client.get_ci_status (earlier ++ [latest]))
    = String.concat "" (map failure_line (failing (Client.statuses latest)))
    /\ (Client.details (Client.get_ci_status (earlier ++ [latest])) = ""
        <-> Client.success (Client.get_ci_status (earlier ++ [latest])) = true).
Proof.
  intros earlier latest. unfold Client.get_ci_status.
  rewrite last_snoc_commit, ci_loop_details, ci_loop_success. cbn [Client.details Client.success andb].
  rewrite append_nil_l. split; [reflexivity |].
  rewrite <- failing_nil_iff.
  destruct (failing (Client.statuses latest)) as [| st l] eqn:Hf.
  - cbn. tauto.
  - split; [| discriminate]. intros H. exfalso.
    destruct l as [| x l]; cbn [map String.concat] in H.
    + now apply failure_line_not_empty in H.
    + rewrite append_nil_l in H. apply append_eq_nil in H as [H _].
      now apply failure_line_not_empty in H.
Qed.

Section LabelHistory.
Import Client ReviewLabels.

Lemma replace_twice (group current : gset string) (a b : string) :
  a ∈ group ->
  (((current ∖ group) ∪ {[ a ]}) ∖ group) ∪ {[ b ]} = (current ∖ group) ∪ {[ b ]}.
Proof.
  intros Ha. destruct (set_replace_group group current a Ha) as [_ H].
  now rewrite H.
Qed.

End LabelHistory.

(** X5. Status updates do not pile up: after a status update that names
    one of the four status labels, a second update leaves the labels the
    second update alone would have left (the last status wins), while
    the comments of both updates are kept in order. *)
Theorem status_update_last_wins :
  forall (issue : Client.Issue) (s1 c1 s2 c2 : string),
    Client.status_label s1 ∈ Client.status_labels ->
    Client.issue_labels
      (Client.update_issue_status (Client.update_issue_status issue s1 c1) s2 c2)
    = Client.issue_labels (Client.update_issue_status issue s2 c2)
    /\ (c1 <> "" -> c2 <> "" ->
        Client.issue_comments
          (Client.update_issue_status (Client.update_issue_status issue s1 c1) s2 c2)
        = (Client.issue_comments issue
           ++ ["**Status Update**: " +:+ s1 +:+ "

" +:+ c1;
               "**Status Update**: " +:+ s2 +:+ "

" +:+ c2])%list).
Proof.
  intros issue s1 c1 s2 c2 Hin. split.
  - cbn [Client.update_issue_status Client.issue_labels].
    now apply replace_twice.
  - intros H1 H2. cbn [Client.update_issue_status Client.issue_comments].
    apply String.eqb_neq in H1, H2. rewrite H1, H2. cbn [negb].
    now rewrite <- app_assoc.
Qed.

(** The run of [process_issue]: "in-progress" when the analysis starts,
    "needs-review" when the pull request is open. *)
Lemma status_update_last_wins_witness :
  Client.status_label "in-progress" ∈ Client.status_labels
  /\ Client.issue_labels
       (Client.update_issue_status
          (Client.update_issue_status
             {| Client.issue_labels := {[ "bug" ]}; Client.issue_comments := [] |}
             "in-progress" "Analyzing requirements...")
          "needs-review" "Pull Request #7 created and ready for review.")
     = Client.issue_labels
         (Client.update_issue_status
            {| Client.issue_labels := {[ "bug" ]}; Client.issue_comments := [] |}
            "needs-review" "Pull Request #7 created and ready for review.").
Proof.
  split.
  - exact (proj1 status_label_call_sites).
  - exact (proj1 (status_update_last_wins
                    {| Client.issue_labels := {[ "bug" ]}; Client.issue_comments := [] |}
                    "in-progress" "Analyzing requirements..."
                    "needs-review" "Pull Request #7 created and ready for review."
                    (proj1 status_label_call_sites))).
Defined.

(** X6. Review outcomes do not pile up either: after any review has been
    posted on a pull request, posting a second one leaves the labels the
    second alone would have left, whatever the two reviews say. *)
Theorem review_label_last_wins :
  forall (pr : ReviewLabels.PullRequest) (rr1 rr2 : dict) (c1 c2 : string),
    exists pr1 pr2 pr2' : ReviewLabels.PullRequest,
      ReviewLabels._post_review_feedback (Ok c1) pr rr1 = Ok pr1
      /\ ReviewLabels._post_review_feedback (Ok c2) pr1 rr2 = Ok pr2
      /\ ReviewLabels._post_review_feedback (Ok c2) pr rr2 = Ok pr2'
      /\ ReviewLabels.pr_labels pr2 = ReviewLabels.pr_labels pr2'
      /\ ReviewLabels.pr_comments pr2 = (ReviewLabels.pr_comments pr ++ [c1; c2])%list.
Proof.
  intros pr rr1 rr2 c1 c2. do 3 eexists.
  split; [reflexivity |]. split; [reflexivity |]. split; [reflexivity |].
  cbn [ReviewLabels.pr_labels ReviewLabels.pr_comments]. split.
  - apply replace_twice, outcome_label_in_group.
  - now rewrite <- app_assoc.
Qed.

(* ------------------------------------------------------------------ *)
(** ** Further properties of the scheduler *)

Section NewIssues.
Import IssueProcessor.
Context {W : Type}.
Variable c : Collab W.

Lemma new_issues_loop_grows (items : list Item) (st : State W) :
  processed_issues st ⊆ processed_issues (snd (new_issues_loop c items st)).
Proof.
  revert st. induction items as [| x items IH]; intros st; [reflexivity |].
  cbn [new_issues_loop].
  destruct (decide _); [apply IH |].
  destruct (existsb _ _).
  - etransitivity; [| apply IH]. cbn. apply union_subseteq_l.
  - destruct (item_time x) as [t |]; [| apply IH].
    destruct (_ <? _)%Z; [| apply IH].
    specialize (IH st). destruct (new_issues_loop c items st). exact IH.
Qed.

Lemma new_issues_loop_sound (items : list Item) (st : State W) :
  sublist (fst (new_issues_loop c items st)) items
  /\ Forall (fun issue =>
               (number issue ∉ processed_issues st)
               /\ taken issue = false
               /\ (exists created_at,
                      item_time issue = Some created_at
                      /\ (clock c (world st) - created_at < 24 * 3600)%Z))
       (fst (new_issues_loop c items st)).
Proof.
  revert st. induction items as [| x items IH]; intros st.
  - cbn. split; constructor.
  - cbn [new_issues_loop].
    destruct (decide (number x ∈ processed_issues st)) as [Hin | Hnotin].
    { destruct (IH st) as [Hs Hf]. split; [now constructor | exact Hf]. }
    destruct (existsb _ _) eqn:Htaken.
    { destruct (IH (add_processed (number x) st)) as [Hs Hf].
      split; [now constructor |].
      eapply Forall_impl; [exact Hf |].
      cbn. intros y (Hy & Hrest). split; [| exact Hrest].
      intros Hy'. apply Hy. apply elem_of_union. now left. }
    destruct (item_time x) as [t |] eqn:Ht;
      [| destruct (IH st) as [Hs Hf]; split; [now constructor | exact Hf]].
    destruct (Z.ltb_spec (clock c (world st) - t) (24 * 3600)) as [Hlt | Hge];
      [| destruct (IH st) as [Hs Hf]; split; [now constructor | exact Hf]].
    destruct (IH st) as [Hs Hf].
    destruct (new_issues_loop c items st) as [found st']. cbn [fst] in *.
    split; [now constructor |].
    apply Forall_cons_2; [| exact Hf].
    split; [exact Hnotin |]. split; [exact Htaken |]. eauto.
Qed.

End NewIssues.

(** Soundness of the listing of new issues. *)
Lemma get_new_issues_sound :
  forall (W : Type) (c : IssueProcessor.Collab W) (st st' : IssueProcessor.State W)
         (new_issues : list IssueProcessor.Item),
    IssueProcessor._get_new_issues c st = (Ok new_issues, st') ->
    exists all_issues : list IssueProcessor.Item,
      fst (IssueProcessor.get_open_issues c (IssueProcessor.world st)) = Ok all_issues
      /\ sublist new_issues all_issues
      /\ Forall (fun issue =>
                   (IssueProcessor.number issue ∉ IssueProcessor.processed_issues st)
                   /\ taken issue = false
                   /\ (exists created_at,
                          IssueProcessor.item_time issue = Some created_at
                          /\ (IssueProcessor.clock c (IssueProcessor.world st')
                              - created_at < 24 * 3600)%Z))
           new_issues
      /\ IssueProcessor.processed_issues st ⊆ IssueProcessor.processed_issues st'
      /\ IssueProcessor.results st' = IssueProcessor.results st.
Proof.
  intros W c st st' new_issues.
  unfold IssueProcessor._get_new_issues, Eff.mbind, IssueProcessor.on_world.
  destruct (IssueProcessor.get_open_issues c (IssueProcessor.world st))
    as [[all_issues | e] w1]; [| discriminate].
  set (st1 := {| IssueProcessor.results := IssueProcessor.results st;
                 IssueProcessor.processed_issues := IssueProcessor.processed_issues st;
                 IssueProcessor.last_check_time := IssueProcessor.last_check_time st;
                 IssueProcessor.world := w1 |}).
  pose proof (new_issues_loop_sound c all_issues st1) as [Hsub Hall].
  pose proof (new_issues_loop_grows c all_issues st1) as Hgrow.
  pose proof (new_issues_loop_keeps c all_issues st1) as [Hres Hworld].
  destruct (IssueProcessor.new_issues_loop c all_issues st1) as [found st2].
  cbn [fst snd] in *. intros [= <- <-].
  exists all_issues. split; [reflexivity |]. split; [exact Hsub |].
  split; [| split; [exact Hgrow | exact Hres]].
  rewrite Hworld. exact Hall.
Qed.

(** X7. The issues that [_get_new_issues] returns are issues of the
    listing, in its order; none of them is in the processed set, none
    carries "in-progress", "processed" or "agent-handled", and each has
    a creation time less than 24 hours before the clock; the listing
    leaves the results of the cycle untouched and never shrinks the
    processed set. *)
Theorem new_issues_are_fresh :
  forall (W : Type) (c : IssueProcessor.Collab W) (st st' : IssueProcessor.State W)
         (new_issues : list IssueProcessor.Item),
    IssueProcessor._get_new_issues c st = (Ok new_issues, st') ->
    exists all_issues : list IssueProcessor.Item,
      fst (IssueProcessor.get_open_issues c (IssueProcessor.world st)) = Ok all_issues
      /\ sublist new_issues all_issues
      /\ Forall (fun issue =>
                   (IssueProcessor.number issue ∉ IssueProcessor.processed_issues st)
                   /\ taken issue = false
                   /\ (exists created_at,
                          IssueProcessor.item_time issue = Some created_at
                          /\ (IssueProcessor.clock c (IssueProcessor.world st')
                              - created_at < 24 * 3600)%Z))
           new_issues
      /\ IssueProcessor.processed_issues st ⊆ IssueProcessor.processed_issues st'
      /\ IssueProcessor.results st' = IssueProcessor.results st.
Proof. exact get_new_issues_sound. Qed.

(** The scripted platform lists three recent issues without labels. *)
Lemma new_issues_are_fresh_witness :
  exists all_issues : list IssueProcessor.Item,
    fst (IssueProcessor.get_open_issues MemScheduler.scripted
           (IssueProcessor.world MemScheduler.start)) = Ok all_issues
    /\ sublist [MemScheduler.recent 1; MemScheduler.recent 2; MemScheduler.recent 3]
         all_issues.
Proof.
  destruct (new_issues_are_fresh MemScheduler.Log MemScheduler.scripted
              MemScheduler.start MemScheduler.start
              [MemScheduler.recent 1; MemScheduler.recent 2; MemScheduler.recent 3]
              eq_refl) as (all_issues & H1 & H2 & _).
  exists all_issues. split; [exact H1 | exact H2].
Defined.

(** X8. The pull requests that [_get_pending_prs] returns are open pull
    requests of the listing, in its order; none of them carries the
    label "approved", and each was updated less than one hour before
    the clock. *)
Theorem pending_prs_are_unapproved_and_recent :
  forall (W : Type) (c : IssueProcessor.Collab W) (st st' : IssueProcessor.State W)
         (pending_prs : list IssueProcessor.Item),
    IssueProcessor._get_pending_prs c st = (Ok pending_prs, st') ->
    exists open_prs : list IssueProcessor.Item,
      fst (IssueProcessor.get_open_pulls c (IssueProcessor.world st)) = Ok open_prs
      /\ sublist pending_prs open_prs
      /\ Forall (fun pr =>
                   ("approved" ∉ IssueProcessor.labels pr)
                   /\ (exists updated_at,
                          IssueProcessor.item_time pr = Some updated_at
                          /\ (IssueProcessor.clock c (IssueProcessor.world st')
                              - updated_at < 3600)%Z))
           pending_prs
      /\ IssueProcessor.processed_issues st' = IssueProcessor.processed_issues st
      /\ IssueProcessor.results st' = IssueProcessor.results st.
Proof.
  intros W c st st' pending_prs.
  unfold IssueProcessor._get_pending_prs, Eff.mbind, IssueProcessor.on_world,
    Eff.get, Eff.ret.
  destruct (IssueProcessor.get_open_pulls c (IssueProcessor.world st))
    as [[open_prs | e] w1]; [| discriminate].
  cbn [IssueProcessor.world]. intros [= <- <-].
  exists open_prs. split; [reflexivity |]. split; [apply filter_sublist |].
  split; [| split; reflexivity].
  apply Forall_forall. intros pr Hin.
  apply list_elem_of_In, filter_In in Hin as [_ Hp].
  cbn [IssueProcessor.world]. unfold IssueProcessor.pending in Hp.
  destruct (bool_decide ("approved" ∈ IssueProcessor.labels pr)) eqn:Hl;
    [discriminate |].
  apply bool_decide_eq_false in Hl. split; [exact Hl |].
  destruct (IssueProcessor.item_time pr) as [t |]; [| discriminate].
  exists t. split; [reflexivity |]. now apply Z.ltb_lt.
Qed.

Lemma pending_prs_are_unapproved_and_recent_witness :
  exists open_prs : list IssueProcessor.Item,
    fst (IssueProcessor.get_open_pulls MemScheduler.scripted
           (IssueProcessor.world MemScheduler.start)) = Ok open_prs
    /\ sublist [MemScheduler.recent 11; MemScheduler.recent 12; MemScheduler.recent 13]
         open_prs.
Proof.
  destruct (pending_prs_are_unapproved_and_recent MemScheduler.Log MemScheduler.scripted
              MemScheduler.start MemScheduler.start
              [MemScheduler.recent 11; MemScheduler.recent 12; MemScheduler.recent 13]
              eq_refl) as (open_prs & H1 & H2 & _).
  exists open_prs. split; [exact H1 | exact H2].
Defined.

Section ProcessedSet.
Import IssueProcessor.
Context {W : Type}.
Variable c : Collab W.

Lemma keeps_bind {A B} (m : Eff.M (State W) A) (k : A -> Eff.M (State W) B) :
  keeps_processed m -> (forall a, keeps_processed (k a)) ->
  keeps_processed (Eff.mbind m k).
Proof.
  intros Hm Hk st. unfold Eff.mbind. specialize (Hm st).
  destruct (m st) as [[a | e] st1]; cbn [snd] in *; [| exact Hm].
  etransitivity; [exact Hm | apply Hk].
Qed.

Lemma keeps_try {A} (m : Eff.M (State W) A) (h : string -> Eff.M (State W) A) :
  keeps_processed m -> (forall e, keeps_processed (h e)) ->
  keeps_processed (Eff.mtry m h).
Proof.
  intros Hm Hh st. unfold Eff.mtry. specialize (Hm st).
  destruct (m st) as [[a | [e |]] st1]; cbn [snd] in *; try exact Hm.
  etransitivity; [exact Hm | apply Hh].
Qed.

Lemma keeps_for_each {A} (l : list A) (body : A -> Eff.M (State W) unit) :
  (forall a, keeps_processed (body a)) -> keeps_processed (Eff.for_each l body).
Proof.
  intros Hb. induction l as [| x l IH]; [intros st; reflexivity |].
  cbn [Eff.for_each]. apply keeps_bind; [apply Hb | intros _; exact IH].
Qed.

Lemma keeps_on_world {A} (m : Eff.M W A) : keeps_processed (on_world m).
Proof. intros st. unfold on_world. destruct (m (world st)). reflexivity. Qed.

Lemma keeps_modify (f : State W -> State W) :
  (forall st, processed_issues st ⊆ processed_issues (f st)) ->
  keeps_processed (Eff.modify f).
Proof. intros Hf st. apply Hf. Qed.

Lemma keeps_ret {A} (a : A) : keeps_processed (Eff.ret a : Eff.M (State W) A).
Proof. intros st. reflexivity. Qed.

Lemma keeps_issue_step (issue : Item) : keeps_processed (issue_step c issue).
Proof.
  unfold issue_step. apply keeps_try.
  - apply keeps_bind; [apply keeps_on_world |]. intros pr_number.
    destruct (is_pr_number pr_number); [| apply keeps_ret].
    apply keeps_bind; [apply keeps_modify; reflexivity |]. intros _.
    apply keeps_modify. intros st. cbn. apply union_subseteq_l.
  - intros e. apply keeps_modify. reflexivity.
Qed.

Lemma keeps_pr_step (pr : Item) : keeps_processed (pr_step c pr).
Proof.
  unfold pr_step. apply keeps_try.
  - apply keeps_bind; [apply keeps_on_world |]. intros _.
    apply keeps_modify. reflexivity.
  - intros e. apply keeps_modify. reflexivity.
Qed.

Lemma keeps_get_new_issues : keeps_processed (_get_new_issues c).
Proof.
  unfold _get_new_issues. apply keeps_bind; [apply keeps_on_world |].
  intros all st. pose proof (new_issues_loop_grows c all st) as H.
  destruct (new_issues_loop c all st). exact H.
Qed.

Lemma keeps_get_pending_prs : keeps_processed (_get_pending_prs c).
Proof.
  unfold _get_pending_prs. apply keeps_bind; [apply keeps_on_world |].
  intros open_prs st. reflexivity.
Qed.

Lemma keeps_cycle : keeps_processed (process_pending_issues c).
Proof.
  unfold process_pending_issues.
  apply keeps_bind; [apply keeps_modify; reflexivity |]. intros _.
  apply keeps_bind.
  - apply keeps_try.
    + apply keeps_bind; [apply keeps_get_new_issues |]. intros new_issues.
      apply keeps_bind; [apply keeps_for_each, keeps_issue_step |]. intros _.
      apply keeps_bind; [apply keeps_get_pending_prs |]. intros pending_prs.
      apply keeps_bind; [apply keeps_for_each, keeps_pr_step |]. intros _.
      apply keeps_modify. reflexivity.
    + intros e. apply keeps_modify. reflexivity.
  - intros _ st. reflexivity.
Qed.

End ProcessedSet.

(** X9. An issue for which the code agent opened a pull request is never
    handed to it again: its number enters the processed set, a poll
    cycle never removes a number from that set, whatever its
    collaborators do, and [_get_new_issues] returns no issue whose
    number is in the set. *)
Theorem processed_issue_not_listed_again :
  forall (W : Type) (c : IssueProcessor.Collab W) (issue : IssueProcessor.Item)
         (st later : IssueProcessor.State W) (w : W) (pr_number : Z),
    IssueProcessor.process_issue c (IssueProcessor.number issue) (IssueProcessor.world st)
    = (Ok (Some pr_number), w) ->
    pr_number <> 0%Z ->
    IssueProcessor.processed_issues (snd (IssueProcessor.issue_step c issue st))
      ⊆ IssueProcessor.processed_issues later ->
    IssueProcessor.number issue
      ∈ IssueProcessor.processed_issues (snd (IssueProcessor.issue_step c issue st))
    /\ IssueProcessor.processed_issues later
         ⊆ IssueProcessor.processed_issues
             (snd (IssueProcessor.process_pending_issues c later))
    /\ (forall (new_issues : list IssueProcessor.Item) (st' : IssueProcessor.State W),
           IssueProcessor._get_new_issues c later = (Ok new_issues, st') ->
           Forall (fun other => IssueProcessor.number other <> IssueProcessor.number issue)
             new_issues).
Proof.
  intros W c issue st later w pr_number Hproc Hnz Hlater.
  assert (Hin : IssueProcessor.number issue
                  ∈ IssueProcessor.processed_issues
                      (snd (IssueProcessor.issue_step c issue st))).
  { unfold IssueProcessor.issue_step, Eff.mtry, Eff.mbind, IssueProcessor.on_world,
      Eff.modify.
    rewrite Hproc. cbn [IssueProcessor.is_pr_number].
    apply Z.eqb_neq in Hnz. rewrite Hnz. cbn.
    apply elem_of_union. right. now apply elem_of_singleton. }
  split; [exact Hin |]. split; [apply keeps_cycle |].
  intros new_issues st' Hnew.
  destruct (get_new_issues_sound W c later st' new_issues Hnew)
    as (all_issues & _ & _ & Hall & _).
  eapply Forall_impl; [exact Hall |].
  cbn. intros other (Hnotin & _) Heq. apply Hnotin. rewrite Heq. now apply Hlater.
Qed.

(** On the scripted platform the code agent opens pull request 11 for
    issue 1. *)
Lemma processed_issue_not_listed_again_witness :
  IssueProcessor.number (MemScheduler.recent 1)
    ∈ IssueProcessor.processed_issues
        (snd (IssueProcessor.issue_step MemScheduler.scripted (MemScheduler.recent 1)
                MemScheduler.start)).
Proof.
  refine (proj1 (processed_issue_not_listed_again MemScheduler.Log MemScheduler.scripted
                   (MemScheduler.recent 1) MemScheduler.start
                   (snd (IssueProcessor.issue_step MemScheduler.scripted
                           (MemScheduler.recent 1) MemScheduler.start))
                   ["process_issue 1"] 11%Z eq_refl _ _)).
  - discriminate.
  - reflexivity.
Defined.

Section Accounting.
Import IssueProcessor.
Context {W : Type}.
Variable c : Collab W.
Hypothesis Hquiet : uninterrupted c.

Lemma pr_step_counts (pr : Item) (st : State W) :
  (prs_reviewed (results (snd (pr_step c pr st)))
   + Z.of_nat (length (errors (results (snd (pr_step c pr st)))))
   = prs_reviewed (results st) + Z.of_nat (length (errors (results st))) + 1)%Z
  /\ (prs_reviewed (results st) <= prs_reviewed (results (snd (pr_step c pr st))))%Z
  /\ issues_processed (results (snd (pr_step c pr st))) = issues_processed (results st).
Proof.
  destruct Hquiet as (_ & _ & _ & Hrev).
  specialize (Hrev (number pr) (world st)).
  unfold pr_step, Eff.mtry, Eff.mbind, on_world, Eff.modify, Eff.ret.
  destruct (review_pull_request c (number pr) (world st)) as [[[] | [msg |]] w1];
    cbn [fst snd] in *.
  - cbn. lia.
  - cbn. rewrite length_app. cbn. lia.
  - congruence.
Qed.

Lemma issue_step_counts (issue : Item) (st : State W) :
  (issues_processed (results (snd (issue_step c issue st)))
   + Z.of_nat (length (errors (results (snd (issue_step c issue st)))))
   <= issues_processed (results st) + Z.of_nat (length (errors (results st))) + 1)%Z
  /\ (issues_processed (results st)
      <= issues_processed (results (snd (issue_step c issue st))))%Z
  /\ prs_reviewed (results (snd (issue_step c issue st))) = prs_reviewed (results st).
Proof.
  destruct Hquiet as (_ & _ & Hproc & _).
  specialize (Hproc (number issue) (world st)).
  unfold issue_step, Eff.mtry, Eff.mbind, on_world, Eff.modify, Eff.ret.
  destruct (process_issue c (number issue) (world st)) as [[pr_number | [msg |]] w1];
    cbn [fst snd] in *.
  - destruct (is_pr_number pr_number); cbn; lia.
  - cbn. rewrite length_app. cbn. lia.
  - congruence.
Qed.

Lemma pr_loop_counts (prs : list Item) (st : State W) :
  (prs_reviewed (results (snd (Eff.for_each prs (pr_step c) st)))
   + Z.of_nat (length (errors (results (snd (Eff.for_each prs (pr_step c) st)))))
   = prs_reviewed (results st) + Z.of_nat (length (errors (results st)))
     + Z.of_nat (length prs))%Z
  /\ (prs_reviewed (results st)
      <= prs_reviewed (results (snd (Eff.for_each prs (pr_step c) st))))%Z
  /\ issues_processed (results (snd (Eff.for_each prs (pr_step c) st)))
     = issues_processed (results st).
Proof.
  revert st. induction prs as [| pr prs IH]; intros st.
  - cbn. lia.
  - cbn [Eff.for_each]. unfold Eff.mbind.
    rewrite (run_ok _ _ _ (proj1 (pr_step_spec c Hquiet pr st))).
    destruct (pr_step_counts pr st) as (H1 & H2 & H3).
    destruct (IH (snd (pr_step c pr st))) as (I1 & I2 & I3).
    cbn [length]. rewrite I3, H3. lia.
Qed.

Lemma issue_loop_counts (issues : list Item) (st : State W) :
  (issues_processed (results (snd (Eff.for_each issues (issue_step c) st)))
   + Z.of_nat (length (errors (results (snd (Eff.for_each issues (issue_step c) st)))))
   <= issues_processed (results st) + Z.of_nat (length (errors (results st)))
      + Z.of_nat (length issues))%Z
  /\ (issues_processed (results st)
      <= issues_processed (results (snd (Eff.for_each issues (issue_step c) st))))%Z
  /\ prs_reviewed (results (snd (Eff.for_each issues (issue_step c) st)))
     = prs_reviewed (results st).
Proof.
  revert st. induction issues as [| issue issues IH]; intros st.
  - cbn. lia.
  - cbn [Eff.for_each]. unfold Eff.mbind.
    rewrite (run_ok _ _ _ (proj1 (issue_step_spec c Hquiet issue st))).
    destruct (issue_step_counts issue st) as (H1 & H2 & H3).
    destruct (IH (snd (issue_step c issue st))) as (I1 & I2 & I3).
    cbn [length]. rewrite I3, H3. lia.
Qed.

End Accounting.

(** X10. In a poll cycle whose two listings succeed and whose
    collaborators are not interrupted, every pending pull request is
    accounted for once, as reviewed or as an error entry, and every new
    issue at most once: the counters are not negative,
    [issues_processed] is at most the number of new issues, and
    [prs_reviewed] plus the number of error entries lies between the
    number of pending pull requests and that number plus the new issues
    that were not counted as processed.  Exactly: [prs_reviewed] and the
    error entries added after the issue loop number the pending pull
    requests, and [issues_processed] and the error entries of the issue
    loop number at most the new issues. *)
Theorem poll_cycle_accounts_for_every_item :
  forall (W : Type) (c : IssueProcessor.Collab W) (st st1 st3 : IssueProcessor.State W)
         (new_issues pending_prs : list IssueProcessor.Item),
    IssueProcessor.uninterrupted c ->
    IssueProcessor._get_new_issues c (IssueProcessor.reset st) = (Ok new_issues, st1) ->
    IssueProcessor._get_pending_prs c
      (snd (Eff.for_each new_issues (IssueProcessor.issue_step c) st1))
    = (Ok pending_prs, st3) ->
    exists r : IssueProcessor.Results,
      fst (IssueProcessor.process_pending_issues c st) = Ok r
      /\ (0 <= IssueProcessor.issues_processed r <= Z.of_nat (length new_issues))%Z
      /\ (0 <= IssueProcessor.prs_reviewed r <= Z.of_nat (length pending_prs))%Z
      /\ (Z.of_nat (length pending_prs)
          <= IssueProcessor.prs_reviewed r
             + Z.of_nat (length (IssueProcessor.errors r)))%Z
      /\ (IssueProcessor.issues_processed r + IssueProcessor.prs_reviewed r
          + Z.of_nat (length (IssueProcessor.errors r))
          <= Z.of_nat (length new_issues) + Z.of_nat (length pending_prs))%Z
      /\ (IssueProcessor.prs_reviewed r + Z.of_nat (length (IssueProcessor.errors r))
          = Z.of_nat (length pending_prs)
            + Z.of_nat (length (IssueProcessor.errors
                                  (IssueProcessor.results
                                     (snd (Eff.for_each new_issues
                                             (IssueProcessor.issue_step c) st1))))))%Z
      /\ (IssueProcessor.issues_processed r
          + Z.of_nat (length (IssueProcessor.errors
                                (IssueProcessor.results
                                   (snd (Eff.for_each new_issues
                                           (IssueProcessor.issue_step c) st1)))))
          <= Z.of_nat (length new_issues))%Z.
Proof.
  intros W c st st1 st3 new_issues pending_prs Hquiet H1 H3.
  rewrite (cycle_runs_through c Hquiet _ _ _ _ _ H1 H3). cbn [fst].
  eexists. split; [reflexivity |].
  destruct (get_new_issues_spec c Hquiet (IssueProcessor.reset st)) as [_ Hr1].
  rewrite H1 in Hr1. cbn [snd] in Hr1.
  destruct (issue_loop_counts c Hquiet new_issues st1) as (A1 & A2 & A3).
  destruct (get_pending_prs_spec c Hquiet
              (snd (Eff.for_each new_issues (IssueProcessor.issue_step c) st1)))
    as [_ Hr3].
  rewrite H3 in Hr3. cbn [snd] in Hr3.
  destruct (pr_loop_counts c Hquiet pending_prs st3) as (B1 & B2 & B3).
  destruct (pr_loop_spec c Hquiet pending_prs st3) as (_ & _ & [more Hmore] & _).
  apply (f_equal (@length string)) in Hmore. rewrite length_app in Hmore.
  rewrite Hr3 in B1, B2, B3, Hmore. rewrite Hr1 in A1, A2, A3.
  cbn [IssueProcessor.reset IssueProcessor.set_results IssueProcessor.results
       IssueProcessor.issues_processed IssueProcessor.prs_reviewed
       IssueProcessor.errors length] in A1, A2, A3.
  lia.
Qed.

(** The cycle on the scripted platform: three issues, three pull
    requests, two of each handled and one error entry for each kind. *)
Lemma poll_cycle_accounts_for_every_item_witness :
  IssueProcessor.uninterrupted MemScheduler.scripted
  /\ exists r : IssueProcessor.Results,
       fst (IssueProcessor.process_pending_issues MemScheduler.scripted MemScheduler.start)
       = Ok r
       /\ (0 <= IssueProcessor.issues_processed r <= 3)%Z
       /\ (0 <= IssueProcessor.prs_reviewed r <= 3)%Z
       /\ (3 <= IssueProcessor.prs_reviewed r
                + Z.of_nat (length (IssueProcessor.errors r)))%Z
       /\ (IssueProcessor.issues_processed r + IssueProcessor.prs_reviewed r
           + Z.of_nat (length (IssueProcessor.errors r)) <= 3 + 3)%Z
       /\ (IssueProcessor.prs_reviewed r + Z.of_nat (length (IssueProcessor.errors r))
           = 3 + 1)%Z
       /\ (IssueProcessor.issues_processed r + 1 <= 3)%Z.
Proof.
  split; [apply scripted_uninterrupted |].
  exact (poll_cycle_accounts_for_every_item MemScheduler.Log MemScheduler.scripted
           MemScheduler.start
           MemScheduler.start _
           [MemScheduler.recent 1; MemScheduler.recent 2; MemScheduler.recent 3]
           [MemScheduler.recent 11; MemScheduler.recent 12; MemScheduler.recent 13]
           scripted_uninterrupted eq_refl eq_refl).
Defined.

(* ------------------------------------------------------------------ *)
(** ** Further properties of the file relevance resolver *)

Section ResolverGeneral.
Import PyStr Resolver.

Lemma patterns_in_vocabulary (requirement : string) :
  _determine_file_patterns requirement <> []
  /\ incl (_determine_file_patterns requirement) pattern_vocabulary.
Proof.
  unfold _determine_file_patterns, pattern_vocabulary.
  destruct (any_in ["python"; ".py"; "py file"] requirement),
           (any_in ["documentation"; "readme"; ".md"; "markdown"] requirement),
           (any_in ["test"; "tests"; "testing"] requirement),
           (any_in ["config"; "configuration"; ".json"; ".yaml"; ".yml"] requirement);
    cbn [app]; (split; [discriminate |]);
    intros x Hx; cbn in Hx |- *; tauto.
Qed.

Lemma vocabulary_match (pattern path : string) :
  In pattern pattern_vocabulary ->
  _pattern_matches pattern path = true ->
  is_suffix ".py" path \/ is_suffix ".md" path \/ is_suffix ".json" path
  \/ is_suffix ".yaml" path \/ is_suffix ".yml" path
  \/ is_substring "test*.p" path.
Proof.
  unfold pattern_vocabulary. cbn [In].
  intros [<- | [<- | [<- | [<- | [<- | [<- | []]]]]]] Hm.
  - change (_pattern_matches "*.py" path) with (endswith ".py" path || false) in Hm.
    rewrite orb_false_r, endswith_spec in Hm. tauto.
  - change (_pattern_matches "*.md" path) with (endswith ".md" path || false) in Hm.
    rewrite orb_false_r, endswith_spec in Hm. tauto.
  - apply test_pattern_needs_literal_star in Hm. tauto.
  - change (_pattern_matches "*.json" path) with (endswith ".json" path || false) in Hm.
    rewrite orb_false_r, endswith_spec in Hm. tauto.
  - change (_pattern_matches "*.yaml" path) with (endswith ".yaml" path || false) in Hm.
    rewrite orb_false_r, endswith_spec in Hm. tauto.
  - change (_pattern_matches "*.yml" path) with (endswith ".yml" path || false) in Hm.
    rewrite orb_false_r, endswith_spec in Hm. tauto.
Qed.

Lemma keeps_sound (patterns : list string) (path : string) :
  keeps patterns path = true ->
  (exists pattern, In pattern patterns /\ _pattern_matches pattern path = true)
  /\ Forall (fun fragment => ~ is_substring fragment path) excluded_fragments.
Proof.
  unfold keeps. rewrite andb_true_iff, negb_true_iff. intros [Hm Hx]. split.
  - apply existsb_exists in Hm. exact Hm.
  - apply Forall_forall. intros fragment Hin.
    apply contains_false_spec.
    destruct (contains fragment path) eqn:Hc; [| reflexivity].
    rewrite <- Hx. symmetry. apply existsb_exists.
    exists fragment. split; [now apply list_elem_of_In | exact Hc].
Qed.

End ResolverGeneral.

(** X11. For every requirement text and every repository tree the
    resolver returns paths of the tree, in tree order, at most 50 of
    them; none contains one of the eight excluded fragments; and each
    ends in ".py", ".md", ".json", ".yaml" or ".yml", or holds the text
    "test*.p" with its star.  When reading the tree fails, the resolver
    returns the empty list. *)
Theorem resolver_result_shape :
  forall (requirement : string) (tree : list string),
    (exists found : list string,
        Resolver._discover_relevant_files (Ok tree) requirement = Ok found
        /\ sublist found tree
        /\ length found <= 50
        /\ Forall (fun path =>
                     Forall (fun fragment => ~ Resolver.is_substring fragment path)
                       Resolver.excluded_fragments
                     /\ (Resolver.is_suffix ".py" path \/ Resolver.is_suffix ".md" path
                         \/ Resolver.is_suffix ".json" path
                         \/ Resolver.is_suffix ".yaml" path
                         \/ Resolver.is_suffix ".yml" path
                         \/ Resolver.is_substring "test*.p" path)) found)
    /\ (forall msg : string,
          Resolver._discover_relevant_files (Raise (Exception msg)) requirement = Ok []).
Proof.
  intros requirement tree. split; [| reflexivity].
  rewrite discover_ok. eexists. split; [reflexivity |].
  set (patterns := Resolver._determine_file_patterns requirement).
  assert (Hsub : sublist (firstn 50 (List.filter (Resolver.keeps patterns) tree))
                   (List.filter (Resolver.keeps patterns) tree)) by apply sublist_take.
  split; [| split].
  - etransitivity; [exact Hsub | apply filter_sublist].
  - apply firstn_le_length.
  - apply Forall_forall. intros path Hin.
    apply (elem_of_sublist _ _ _ Hin) in Hsub.
    apply list_elem_of_In, filter_In in Hsub as [_ Hkeep].
    apply keeps_sound in Hkeep as [(pattern & Hp & Hm) Hx].
    split; [exact Hx |].
    apply (vocabulary_match pattern path); [| exact Hm].
    now apply (proj2 (patterns_in_vocabulary requirement)).
Qed.

(** X12. The pattern list derived from a requirement is never empty and
    holds only patterns of the fixed vocabulary; a requirement with none
    of the keywords gets the single pattern "*.py". *)
Theorem file_patterns_vocabulary :
  forall requirement : string,
    Resolver._determine_file_patterns requirement <> []
    /\ incl (Resolver._determine_file_patterns requirement) pattern_vocabulary
    /\ (PyStr.any_in ["python"; ".py"; "py file"] requirement = false ->
        PyStr.any_in ["documentation"; "readme"; ".md"; "markdown"] requirement = false ->
        PyStr.any_in ["test"; "tests"; "testing"] requirement = false ->
        PyStr.any_in ["config"; "configuration"; ".json"; ".yaml"; ".yml"] requirement
        = false ->
        Resolver._determine_file_patterns requirement = ["*.py"]).
Proof.
  intros requirement. destruct (patterns_in_vocabulary requirement) as [H1 H2].
  split; [exact H1 |]. split; [exact H2 |].
  intros Hpy Hdoc Htest Hcfg. unfold Resolver._determine_file_patterns.
  now rewrite Hpy, Hdoc, Htest, Hcfg.
Qed.

Lemma file_patterns_vocabulary_witness :
  Resolver._determine_file_patterns "fix the login bug" = ["*.py"].
Proof.
  exact (proj2 (proj2 (file_patterns_vocabulary "fix the login bug"))
           eq_refl eq_refl eq_refl eq_refl).
Defined.

(* ------------------------------------------------------------------ *)
(** ** Further properties of the branch name *)

Section Slug.
Import PyStr Plan.

Lemma lowered_sub_char_ok (c : ascii) :
  slug_ok (if slug_char (lower_char c) then lower_char c else "-"%char) = true.
Proof. destruct c as [[] [] [] [] [] [] [] []]; reflexivity. Qed.

Lemma sub_lower_all_ok (s : string) :
  all_chars slug_ok (sub_non_slug (lower s)) = true.
Proof.
  induction s as [| c s IH]; [reflexivity |].
  cbn [lower sub_non_slug all_chars]. now rewrite lowered_sub_char_ok, IH.
Qed.

Lemma collapse_all_ok (f : ascii -> bool) (s : string) :
  all_chars f s = true -> all_chars f (collapse_hyphens s) = true.
Proof.
  induction s as [| c s IH]; [reflexivity |].
  cbn [all_chars collapse_hyphens]. rewrite andb_true_iff. intros [Hc Hs].
  destruct (Ascii.eqb c "-") eqn:Hd.
  - apply Ascii.eqb_eq in Hd as ->.
    destruct (startswith "-" s); [now apply IH |].
    cbn [all_chars]. now rewrite Hc, IH.
  - cbn [all_chars]. now rewrite Hc, IH.
Qed.

Lemma startswith_hyphen_cons (c : ascii) (s : string) :
  startswith "-" (String c s) = Ascii.eqb "-" c.
Proof. cbn [startswith]. apply andb_true_r. Qed.

Lemma collapse_head (s : string) :
  startswith "-" (collapse_hyphens s) = startswith "-" s.
Proof.
  induction s as [| c s IH]; [reflexivity |].
  cbn [collapse_hyphens]. destruct (Ascii.eqb c "-") eqn:Hd.
  - apply Ascii.eqb_eq in Hd as ->.
    destruct (startswith "-" s) eqn:Hs; [now rewrite IH |].
    reflexivity.
  - rewrite !startswith_hyphen_cons. reflexivity.
Qed.

Lemma contains_double_cons (c : ascii) (s : string) :
  contains "--" (String c s)
  = (Ascii.eqb "-" c && startswith "-" s) || contains "--" s.
Proof. reflexivity. Qed.

Lemma collapse_no_double (s : string) :
  contains "--" (collapse_hyphens s) = false.
Proof.
  induction s as [| c s IH]; [reflexivity |].
  cbn [collapse_hyphens]. destruct (Ascii.eqb c "-") eqn:Hd.
  - destruct (startswith "-" s) eqn:Hs; [exact IH |].
    rewrite contains_double_cons, collapse_head, Hs, IH.
    now rewrite andb_false_r.
  - rewrite contains_double_cons, IH, Ascii.eqb_sym, Hd. reflexivity.
Qed.

(** What [lstrip] leaves is the end of the text, what [rstrip] and a
    slice leave is its start. *)
Lemma lstrip_is_tail (f : ascii -> bool) (s : string) :
  exists pre, s = pre +:+ lstrip_by f s.
Proof.
  induction s as [| c s [pre IH]]; [exists ""; reflexivity |].
  cbn [lstrip_by]. destruct (f c); [| exists ""; reflexivity].
  exists (String c pre). now rewrite append_cons, <- IH.
Qed.

Lemma rstrip_is_head (f : ascii -> bool) (s : string) :
  exists post, s = rstrip_by f s +:+ post.
Proof.
  induction s as [| c s [post IH]]; [exists ""; reflexivity |].
  cbn [rstrip_by]. destruct (rstrip_by f s) as [| d r] eqn:Hr.
  - destruct (f c).
    + exists (String c s). reflexivity.
    + exists post. rewrite append_cons, append_nil_l.
      rewrite append_nil_l in IH. now rewrite <- IH.
  - exists post. rewrite append_cons. now rewrite <- IH.
Qed.

Lemma take_is_head (n : nat) (s : string) : s = take n s +:+ drop n s.
Proof.
  revert s. induction n as [| n IH]; intros [| c s]; try reflexivity.
  cbn [take drop]. now rewrite append_cons, <- IH.
Qed.

Lemma all_chars_app (f : ascii -> bool) (a b : string) :
  all_chars f (a +:+ b) = all_chars f a && all_chars f b.
Proof.
  induction a as [| c a IH]; [reflexivity |].
  rewrite append_cons. cbn [all_chars]. now rewrite IH, andb_assoc.
Qed.

Lemma no_double_in_part (pre part post : string) :
  contains "--" (pre +:+ part +:+ post) = false -> contains "--" part = false.
Proof.
  rewrite !contains_false_spec. intros Hn Hp. apply Hn.
  apply (is_substring_trans _ part); [exact Hp |].
  exists pre, post. reflexivity.
Qed.

Lemma lstrip_head (c : ascii) (s : string) :
  startswith (String c "") (lstrip_by (fun a => Ascii.eqb a c) s) = false.
Proof.
  induction s as [| a s IH]; [reflexivity |].
  cbn [lstrip_by]. destruct (Ascii.eqb a c) eqn:Ha; [exact IH |].
  cbn [startswith]. now rewrite Ascii.eqb_sym, Ha.
Qed.

Lemma rstrip_keeps_head (f : ascii -> bool) (p s : string) :
  startswith p (rstrip_by f s) = true -> startswith p s = true.
Proof.
  intros H. apply startswith_spec in H as [post H].
  destruct (rstrip_is_head f s) as [post' Hs].
  apply startswith_spec. exists (post +:+ post').
  rewrite Hs at 1. now rewrite H, append_assoc.
Qed.

Lemma take_keeps_head (n : nat) (p s : string) :
  startswith p (take n s) = true -> startswith p s = true.
Proof.
  intros H. apply startswith_spec in H as [post H].
  apply startswith_spec. exists (post +:+ drop n s).
  rewrite (take_is_head n s) at 1. now rewrite H, append_assoc.
Qed.

Lemma rstrip_end (c : ascii) (s : string) :
  endswith (String c "") (rstrip_by (fun a => Ascii.eqb a c) s) = false.
Proof.
  induction s as [| a s IH]; [reflexivity |].
  cbn [rstrip_by].
  destruct (rstrip_by (fun a => Ascii.eqb a c) s) as [| d r] eqn:Hr.
  - destruct (Ascii.eqb a c) eqn:Ha; [reflexivity |].
    cbn [endswith String.eqb]. now rewrite Ascii.eqb_sym, Ha.
  - cbn [endswith] in IH |- *.
    apply orb_false_iff in IH as [IH1 IH2].
    rewrite IH1, IH2.
    cbn [String.eqb]. destruct (Ascii.eqb c a); reflexivity.
Qed.

Lemma take_all (n : nat) (s : string) :
  String.length s <= n -> take n s = s.
Proof.
  revert s. induction n as [| n IH]; intros [| c s] Hl; try reflexivity.
  - cbn in Hl. lia.
  - cbn [take]. rewrite IH; [reflexivity | cbn in Hl; lia].
Qed.

Lemma take_length_cut (n : nat) (s : string) :
  String.length (take n s) < n -> take n s = s.
Proof.
  revert s. induction n as [| n IH]; intros [| c s] Hl; try reflexivity.
  - cbn in Hl. lia.
  - cbn [take] in Hl |- *. rewrite IH; [reflexivity | cbn in Hl; lia].
Qed.

End Slug.

(** X13. The cleaned title inside a branch name is a slug: it holds only
    lower-case letters, digits and hyphens, never two hyphens in a row,
    and no hyphen at its start; when it is shorter than 50 characters
    (nothing was cut) it has no hyphen at its end either. *)
Theorem clean_title_is_slug :
  forall title : string,
    all_chars slug_ok (Plan.clean_title title) = true
    /\ PyStr.contains "--" (Plan.clean_title title) = false
    /\ PyStr.startswith "-" (Plan.clean_title title) = false
    /\ (String.length (Plan.clean_title title) < 50 ->
        PyStr.endswith "-" (Plan.clean_title title) = false).
Proof.
  intros title. unfold Plan.clean_title, PyStr.strip.
  set (collapsed := Plan.collapse_hyphens (Plan.sub_non_slug (PyStr.lower title))).
  set (is_hyphen := fun a : ascii => Ascii.eqb a "-").
  assert (Hok : all_chars slug_ok collapsed = true)
    by apply collapse_all_ok, sub_lower_all_ok.
  assert (Hnd : PyStr.contains "--" collapsed = false) by apply collapse_no_double.
  destruct (lstrip_is_tail is_hyphen collapsed) as [pre Hl].
  destruct (rstrip_is_head is_hyphen (PyStr.lstrip_by is_hyphen collapsed)) as [post Hr].
  pose proof (take_is_head 50 (PyStr.rstrip_by is_hyphen
                                 (PyStr.lstrip_by is_hyphen collapsed))) as Ht.
  set (stripped := PyStr.rstrip_by is_hyphen (PyStr.lstrip_by is_hyphen collapsed)) in *.
  assert (Hwhole : collapsed
                   = pre +:+ PyStr.take 50 stripped +:+ (PyStr.drop 50 stripped +:+ post)).
  { rewrite Hl at 1. rewrite Hr at 1. rewrite Ht at 1. now rewrite append_assoc. }
  split; [| split; [| split]].
  - rewrite Hwhole, !all_chars_app, !andb_true_iff in Hok. tauto.
  - rewrite Hwhole in Hnd. now apply no_double_in_part in Hnd.
  - destruct (PyStr.startswith "-" (PyStr.take 50 stripped)) eqn:Hs; [| reflexivity].
    apply take_keeps_head, rstrip_keeps_head in Hs.
    pose proof (lstrip_head "-"%char collapsed) as Hn.
    change (PyStr.startswith "-" (PyStr.lstrip_by is_hyphen collapsed) = false) in Hn.
    congruence.
  - intros Hlen. rewrite (take_length_cut _ _ Hlen).
    apply (rstrip_end "-"%char).
Qed.

Lemma clean_title_is_slug_witness :
  String.length (Plan.clean_title "--Fix: the  LOGIN bug!!") < 50
  /\ PyStr.endswith "-" (Plan.clean_title "--Fix: the  LOGIN bug!!") = false.
Proof.
  assert (H : String.length (Plan.clean_title "--Fix: the  LOGIN bug!!") < 50)
    by (vm_compute; lia).
  split; [exact H |].
  exact (proj2 (proj2 (proj2 (clean_title_is_slug "--Fix: the  LOGIN bug!!"))) H).
Defined.

(* ------------------------------------------------------------------ *)
(** ** Further properties of the response interpreter *)

Section SpanTwice.
Import PyStr Interpreter.

Lemma braced_shape (span : string) :
  startswith "{" span = true -> endswith "}" span = true ->
  exists mid, span = "{" +:+ mid +:+ "}".
Proof.
  intros Hs He. apply startswith_spec in Hs as [post ->].
  apply endswith_spec in He as [[| a pre] He].
  - discriminate He.
  - rewrite !append_cons, append_nil_l in He. injection He as <- ->.
    exists pre. reflexivity.
Qed.

End SpanTwice.

(** X14. Span extraction is idempotent: the span found in a response is
    found again, unchanged, when the search is run on the span itself,
    so interpreting the span gives what interpreting the response gave,
    for every decoder. *)
Theorem span_extraction_idempotent :
  forall (json_loads : string -> decoding) (text span : string),
    Interpreter.search_braces text = Some span ->
    Interpreter.search_braces span = Some span
    /\ Interpreter.interpret json_loads span = Interpreter.interpret json_loads text.
Proof.
  intros json_loads text span Hspan.
  destruct (search_braces_sound text span Hspan) as (pre & post & _ & _ & _ & Hs & He).
  destruct (braced_shape span Hs He) as [mid ->].
  assert (Hagain : Interpreter.search_braces ("{" +:+ mid +:+ "}")
                   = Some ("{" +:+ mid +:+ "}")).
  { pose proof (search_braces_framed "" mid "" eq_refl eq_refl) as H.
    now rewrite append_nil_l, append_nil_r in H. }
  split; [exact Hagain |].
  unfold Interpreter.interpret. now rewrite Hagain, Hspan.
Qed.

Lemma span_extraction_idempotent_witness :
  Interpreter.search_braces ("{braces}: " +:+ Samples.review_object)
  = Some ("{braces}: " +:+ Samples.review_object).
Proof.
  exact (proj1 (span_extraction_idempotent JsonDecode.loads Samples.braces_in_prose
                  ("{braces}: " +:+ Samples.review_object) eq_refl)).
Defined.

(* ------------------------------------------------------------------ *)
(** ** The issue number of a pull request *)

Section IssueNumber.
Import PyStr IssueRef PullText.

Lemma span_digits_uint (d : Decimal.uint) (rest : string) :
  (forall c r, rest = String c r -> is_digit c = false) ->
  span_digits (NilEmpty.string_of_uint d +:+ rest) = (NilEmpty.string_of_uint d, rest).
Proof.
  intros Hrest. induction d; cbn [NilEmpty.string_of_uint];
    try (rewrite append_cons; cbn [span_digits];
         match goal with
         | |- context [is_digit ?c] => change (is_digit c) with true
         end;
         cbv iota; now rewrite IHd).
  rewrite append_nil_l. destruct rest as [| c r]; [reflexivity |].
  cbn [span_digits]. now rewrite (Hrest c r eq_refl).
Qed.

Lemma uint_text_not_empty (d : Decimal.uint) :
  d <> Decimal.Nil -> NilEmpty.string_of_uint d <> "".
Proof. destruct d; intros H; try discriminate. now contradiction H. Qed.

Lemma py_int_of_uint (d : Decimal.uint) :
  d <> Decimal.Nil -> py_int (NilEmpty.string_of_uint d) = Some (Z.of_uint d).
Proof.
  intros Hd. unfold py_int, NilZero.uint_of_string.
  pose proof (uint_text_not_empty d Hd) as Hne.
  destruct (NilEmpty.string_of_uint d) eqn:Hs; [now contradiction Hne |].
  rewrite <- Hs, NilEmpty.usu. reflexivity.
Qed.

(** The decimal text of a natural number is a run of digits that reads
    back as the number. *)
Lemma of_Z_digits (n : Z) :
  (0 <= n)%Z ->
  exists d, d <> Decimal.Nil /\ of_Z n = NilEmpty.string_of_uint d /\ Z.of_uint d = n.
Proof.
  intros Hn. destruct n as [| p | p]; [| | lia].
  - exists (Decimal.D0 Decimal.Nil). repeat split. discriminate.
  - exists (Pos.to_uint p). split; [apply DecimalPos.Unsigned.to_uint_nonnil |].
    split.
    + unfold of_Z. cbn [Z.to_int NilZero.string_of_int]. unfold NilZero.string_of_uint.
      pose proof (DecimalPos.Unsigned.to_uint_nonnil p) as Hnn.
      destruct (Pos.to_uint p); [now contradiction Hnn | reflexivity ..].
    + exact (DecimalZ.of_to (Z.pos p)).
Qed.

Lemma search_after_heading (rest : string) :
  search_issue_ref ("## Summary
Implements #" +:+ rest)
  = match fst (span_digits rest) with
    | EmptyString => search_issue_ref rest
    | digits => Some digits
    end.
Proof. reflexivity. Qed.

Lemma py_int_nonneg (digits : string) (z : Z) :
  py_int digits = Some z -> (0 <= z)%Z.
Proof.
  unfold py_int. destruct (NilZero.uint_of_string digits); [| discriminate].
  intros [= <-]. unfold Z.of_uint. apply N2Z.is_nonneg.
Qed.

End IssueNumber.

(** X15. The reviewer reads back the issue number that the code agent
    writes: for every issue number that is not negative, and whatever
    the branch, the summary of changes and the quality report, the first
    issue reference in the body built by [_create_pull_request] is that
    number.  A missing or empty body gives no number, and a number that
    is returned is never negative. *)
Theorem issue_number_round_trip :
  forall (issue_number : Z) (branch_name changes_summary : string) (quality_report : dict),
    (0 <= issue_number)%Z ->
    IssueRef._extract_issue_number
      (Some (PullText.pr_body issue_number branch_name changes_summary quality_report))
    = Some issue_number
    /\ IssueRef._extract_issue_number None = None
    /\ IssueRef._extract_issue_number (Some "") = None
    /\ (forall (body : option string) (n : Z),
           IssueRef._extract_issue_number body = Some n -> (0 <= n)%Z).
Proof.
  intros issue_number branch_name changes_summary quality_report Hn.
  split; [| split; [reflexivity | split; [reflexivity |]]].
  - destruct (of_Z_digits issue_number Hn) as (d & Hd & Htext & Hval).
    unfold IssueRef._extract_issue_number, PullText.pr_body.
    rewrite search_after_heading, Htext.
    rewrite span_digits_uint by (intros c r [= <- _]; reflexivity).
    cbn [fst].
    pose proof (uint_text_not_empty d Hd) as Hne.
    destruct (NilEmpty.string_of_uint d) eqn:Hs; [now contradiction Hne |].
    rewrite <- Hs, (py_int_of_uint d Hd), Hval. reflexivity.
  - intros [body |] n; [| discriminate].
    unfold IssueRef._extract_issue_number.
    destruct (String.eqb body ""); [discriminate |].
    destruct (IssueRef.search_issue_ref body); [| discriminate].
    apply py_int_nonneg.
Qed.

Lemma issue_number_round_trip_witness :
  IssueRef._extract_issue_number
    (Some (PullText.pr_body 42 "agent/issue-42-fix-login"
             "Modified: src/app.py (see #7)" [("ruff_passed", JBool true)]))
  = Some 42%Z.
Proof.
  refine (proj1 (issue_number_round_trip 42 "agent/issue-42-fix-login"
                   "Modified: src/app.py (see #7)" [("ruff_passed", JBool true)] _)).
  lia.
Defined.

(* ------------------------------------------------------------------ *)
(** ** Test files and style references *)

Section TestPath.
Import PyStr Resolver TestFiles.

Lemma lower_app (a b : string) : lower (a +:+ b) = lower a +:+ lower b.
Proof.
  induction a as [| c a IH]; [reflexivity |].
  rewrite append_cons. cbn [lower]. now rewrite IH, append_cons.
Qed.

Lemma is_suffix_refl (s : string) : is_suffix s s.
Proof. exists "". reflexivity. Qed.

Lemma is_suffix_trans (a b c : string) :
  is_suffix a b -> is_suffix b c -> is_suffix a c.
Proof.
  intros [p ->] [q ->]. exists (q +:+ p). now rewrite append_assoc.
Qed.

Lemma join_suffix (a b : string) : is_suffix b (join a b).
Proof.
  unfold join. destruct (startswith "/" b); [apply is_suffix_refl |].
  destruct (String.eqb a "" || endswith "/" a).
  - exists a. reflexivity.
  - exists (a +:+ "/"). now rewrite append_assoc.
Qed.

Lemma test_path_suffix (contents : result (list DirItem)) (file_path : string) :
  is_suffix ("test_" +:+ basename file_path) (_get_test_file_path contents file_path).
Proof.
  unfold _get_test_file_path.
  set (test_name := "test_" +:+ basename file_path).
  assert (Hinner : is_suffix test_name
                     (if String.eqb (dirname file_path) "" then test_name
                      else join (dirname file_path) test_name)).
  { destruct (String.eqb (dirname file_path) "");
      [apply is_suffix_refl | apply join_suffix]. }
  destruct contents as [contents | e];
    [destruct (first_test_dir contents) |];
    (eapply is_suffix_trans; [exact Hinner | apply join_suffix]).
Qed.

Lemma mentions_test_when_prefixed (pre rest : string) :
  contains "test" (lower (pre +:+ "test_" +:+ rest)) = true.
Proof.
  apply contains_spec. rewrite !lower_app.
  exists (lower pre), ("_" +:+ lower rest). reflexivity.
Qed.

End TestPath.

(** X16. No tests are generated for a generated test file: the path
    that [_get_test_file_path] derives, for any source path and any
    directory listing (also a failed one), ends in "test_" followed by
    the base name of the source path, and [_should_generate_tests]
    rejects it.  The test of [_should_generate_tests] on the prefix
    "test_" is subsumed by its test on the text "test". *)
Theorem generated_test_path_is_not_tested :
  forall (contents : result (list TestFiles.DirItem)) (file_path : string),
    Resolver.is_suffix ("test_" +:+ TestFiles.basename file_path)
      (TestFiles._get_test_file_path contents file_path)
    /\ TestFiles._should_generate_tests (TestFiles._get_test_file_path contents file_path)
       = false
    /\ TestFiles._should_generate_tests file_path
       = PyStr.endswith ".py" file_path
         && negb (PyStr.contains "test" (PyStr.lower file_path)).
Proof.
  intros contents file_path.
  pose proof (test_path_suffix contents file_path) as Hsuf.
  split; [exact Hsuf |]. split.
  - destruct Hsuf as [pre ->]. unfold TestFiles._should_generate_tests.
    rewrite (mentions_test_when_prefixed pre (TestFiles.basename file_path)).
    cbn [negb]. apply andb_false_r.
  - unfold TestFiles._should_generate_tests.
    destruct (PyStr.startswith "test_" file_path) eqn:Hs; cbn [negb].
    + apply startswith_spec in Hs as [post ->].
      pose proof (mentions_test_when_prefixed "" post) as Hm.
      rewrite append_nil_l in Hm. rewrite Hm. cbn [negb].
      now rewrite !andb_false_r.
    + now rewrite andb_true_r.
Qed.

Section SimilarFiles.
Import PyStr Resolver TestFiles.

(** The test of the loop of [_get_similar_files]. *)
Lemma similar_loop_is_filter (tree : list string) (file_ext file_path : string)
    (acc : list string) :
  length acc < 3 ->
  similar_loop tree file_ext file_path acc
  = (acc ++ firstn (3 - length acc)
              (List.filter (fun path => endswith file_ext path
                                        && negb (String.eqb path file_path)) tree))%list.
Proof.
  revert acc. induction tree as [| path rest IH]; intros acc Hacc.
  - cbn. rewrite firstn_nil. now rewrite app_nil_r.
  - cbn [similar_loop List.filter].
    destruct (endswith file_ext path && negb (String.eqb path file_path)).
    + rewrite length_app. cbn [length].
      destruct (Nat.leb_spec 3 (length acc + 1)) as [Hfull | Hroom].
      * replace (3 - length acc) with 1 by lia. reflexivity.
      * rewrite IH by (rewrite length_app; cbn; lia).
        rewrite length_app. cbn [length].
        replace (3 - length acc) with (S (3 - (length acc + 1))) by lia.
        cbn [firstn]. now rewrite <- app_assoc.
    + now apply IH.
Qed.

End SimilarFiles.

(** X17. The style references for a new file are the first three paths
    of the tree, in tree order, that end with the extension of the file
    and are not the file itself: never more than three, never the file
    itself; an unreadable tree gives none. *)
Theorem similar_files_are_first_three :
  forall (suffix : string -> string) (tree : list string) (file_path : string),
    (exists found : list string,
        TestFiles._get_similar_files suffix (Ok tree) file_path = Ok found
        /\ found
           = firstn 3 (List.filter
                         (fun path => PyStr.endswith (suffix file_path) path
                                      && negb (String.eqb path file_path)) tree)
        /\ length found <= 3
        /\ sublist found tree
        /\ Forall (fun path => path <> file_path
                               /\ Resolver.is_suffix (suffix file_path) path) found)
    /\ (forall msg : string,
          TestFiles._get_similar_files suffix (Raise (Exception msg)) file_path = Ok []).
Proof.
  intros suffix tree file_path. split; [| reflexivity].
  set (P := fun path => PyStr.endswith (suffix file_path) path
                        && negb (String.eqb path file_path)).
  assert (Hrun : TestFiles._get_similar_files suffix (Ok tree) file_path
                 = Ok (firstn 3 (List.filter P tree))).
  { unfold TestFiles._get_similar_files. cbn [bind try_except].
    destruct tree as [| p tree]; [reflexivity |].
    rewrite similar_loop_is_filter by (cbn; lia). reflexivity. }
  eexists. split; [exact Hrun |]. split; [reflexivity |].
  assert (Hsub : sublist (firstn 3 (List.filter P tree)) (List.filter P tree))
    by apply sublist_take.
  split; [apply firstn_le_length |]. split.
  - etransitivity; [exact Hsub | apply filter_sublist].
  - apply Forall_forall. intros path Hin.
    apply (elem_of_sublist _ _ _ Hin) in Hsub.
    apply list_elem_of_In, filter_In in Hsub as [_ HP].
    unfold P in HP. apply andb_true_iff in HP as [Hend Hne].
    split.
    + apply negb_true_iff, String.eqb_neq in Hne. exact Hne.
    + now apply endswith_spec.
Qed.

(* ------------------------------------------------------------------ *)
(** ** Path validation and review input *)

(** X18. A path is accepted exactly when it holds no "..", does not
    start with a slash, holds none of "~", "$" and "`", and its
    lower-cased suffix is empty or one of the eight allowed extensions;
    in particular no accepted path is absolute or climbs out of the
    repository, whatever the suffix function. *)
Theorem validate_file_path_accepts_iff :
  forall (suffix : string -> string) (file_path : string),
    Validation.validate_file_path suffix file_path = true
    <-> (~ Resolver.is_substring ".." file_path
         /\ PyStr.startswith "/" file_path = false
         /\ ~ Resolver.is_substring "~" file_path
         /\ ~ Resolver.is_substring "$" file_path
         /\ ~ Resolver.is_substring "`" file_path
         /\ (PyStr.lower (suffix file_path) = ""
             \/ In (PyStr.lower (suffix file_path)) Validation.valid_extensions)).
Proof.
  intros suffix file_path. unfold Validation.validate_file_path.
  rewrite <- !contains_false_spec. cbn [existsb]. rewrite orb_false_r.
  destruct (PyStr.contains ".." file_path); [split; [discriminate | intros (H & _); discriminate H] |].
  destruct (PyStr.startswith "/" file_path);
    [split; [discriminate | intros (_ & H & _); discriminate H] |].
  destruct (PyStr.contains "~" file_path);
    [split; [discriminate | intros (_ & _ & H & _); discriminate H] |].
  destruct (PyStr.contains "$" file_path);
    [split; [discriminate | intros (_ & _ & _ & H & _); discriminate H] |].
  destruct (PyStr.contains "`" file_path);
    [split; [discriminate | intros (_ & _ & _ & _ & H & _); discriminate H] |].
  cbn [orb].
  set (ext := PyStr.lower (suffix file_path)).
  assert (Hin : existsb (String.eqb ext) Validation.valid_extensions = true
                <-> In ext Validation.valid_extensions).
  { rewrite existsb_exists. split.
    - intros (x & Hx & He). apply String.eqb_eq in He as ->. exact Hx.
    - intros H. exists ext. split; [exact H | apply String.eqb_refl]. }
  destruct (existsb (String.eqb ext) Validation.valid_extensions) eqn:Hv; cbn [negb andb].
  - split; [| reflexivity]. intros _. repeat split; auto. right. now apply Hin.
  - destruct (String.eqb ext "") eqn:He; cbn [negb].
    + apply String.eqb_eq in He. split; [| reflexivity]. intros _. repeat split; auto.
    + apply String.eqb_neq in He. split; [discriminate |].
      intros (_ & _ & _ & _ & _ & [H | H]); [contradiction |].
      apply Hin in H. discriminate H.
Qed.

(** The paths of the specification's examples, with the POSIX suffix. *)
Example validate_file_path_examples :
  Validation.validate_file_path Validation.posix_suffix "../secret.py" = false
  /\ Validation.validate_file_path Validation.posix_suffix "/etc/passwd" = false
  /\ Validation.validate_file_path Validation.posix_suffix "a$b.py" = false
  /\ Validation.validate_file_path Validation.posix_suffix "src/app.py" = true
  /\ Validation.validate_file_path Validation.posix_suffix "docs/readme.md" = true
  /\ Validation.validate_file_path Validation.posix_suffix "src/app.PY" = true
  /\ Validation.validate_file_path Validation.posix_suffix "Makefile" = true
  /\ Validation.validate_file_path Validation.posix_suffix "run.sh" = false.
Proof. repeat split. Qed.

Section DiffBound.
Import PyStr ReviewInput.

Lemma string_length_app (a b : string) :
  String.length (a +:+ b) = String.length a + String.length b.
Proof.
  induction a as [| c a IH]; [reflexivity |].
  rewrite append_cons. cbn [String.length]. now rewrite IH.
Qed.

Lemma take_length_min (n : nat) (s : string) :
  String.length (take n s) = Nat.min n (String.length s).
Proof.
  revert s. induction n as [| n IH]; intros [| c s]; try reflexivity.
  cbn [take String.length]. now rewrite IH.
Qed.

Lemma review_diff_bounds (diff_content : string) :
  review_diff diff_content <> ""
  /\ (Z.of_nat (String.length (review_diff diff_content)) <= 15015)%Z
  /\ (diff_content <> "" ->
      (Z.of_nat (String.length diff_content) <= 15000)%Z ->
      review_diff diff_content = diff_content)
  /\ ((15000 < Z.of_nat (String.length diff_content))%Z ->
      startswith (take (Z.to_nat 15000) diff_content) (review_diff diff_content) = true
      /\ endswith "...[truncated]" (review_diff diff_content) = true
      /\ Z.of_nat (String.length (review_diff diff_content)) = 15015%Z).
Proof.
  unfold review_diff.
  destruct (Z.ltb_spec 15000 (Z.of_nat (String.length diff_content))) as [Hlong | Hshort].
  - assert (Hlen : Z.of_nat (String.length
                               (take (Z.to_nat 15000) diff_content +:+ "
...[truncated]")) = 15015%Z).
    { rewrite string_length_app, take_length_min.
      change (String.length "
...[truncated]") with 15. lia. }
    split; [| split; [| split]].
    + intros H. rewrite H in Hlen. discriminate Hlen.
    + lia.
    + intros _ H. lia.
    + intros _. split; [| split; [| exact Hlen]].
      * apply startswith_spec. eexists. reflexivity.
      * apply endswith_spec.
        exists (take (Z.to_nat 15000) diff_content +:+ "
"). now rewrite append_assoc.
  - destruct (String.eqb diff_content "") eqn:He.
    + apply String.eqb_eq in He as ->.
      split; [discriminate |]. split; [cbn; lia |]. split; [intros H; now contradiction H | lia].
    + apply String.eqb_neq in He.
      split; [exact He |]. split; [lia |]. split; [reflexivity | lia].
Qed.

End DiffBound.

(** X19. The diff handed to the model is never empty and never longer
    than 15015 characters: a diff of at most 15000 characters is handed
    on unchanged (an empty one as "No diff available"), a longer one is
    cut to its first 15000 characters followed by the truncation
    marker. *)
Theorem review_diff_is_bounded :
  forall diff_content : string,
    ReviewInput.review_diff diff_content <> ""
    /\ (Z.of_nat (String.length (ReviewInput.review_diff diff_content)) <= 15015)%Z
    /\ (diff_content <> "" ->
        (Z.of_nat (String.length diff_content) <= 15000)%Z ->
        ReviewInput.review_diff diff_content = diff_content)
    /\ ((15000 < Z.of_nat (String.length diff_content))%Z ->
        PyStr.startswith (PyStr.take (Z.to_nat 15000) diff_content)
          (ReviewInput.review_diff diff_content) = true
        /\ PyStr.endswith "...[truncated]" (ReviewInput.review_diff diff_content) = true
        /\ Z.of_nat (String.length (ReviewInput.review_diff diff_content)) = 15015%Z)
    /\ (diff_content = "" ->
        ReviewInput.review_diff diff_content = "No diff available").
Proof.
  intros diff_content.
  destruct (review_diff_bounds diff_content) as (Hne & Hlen & Hshort & Hlong).
  split; [exact Hne |]. split; [exact Hlen |]. split; [exact Hshort |].
  split; [exact Hlong |]. now intros ->.
Qed.

Lemma review_diff_is_bounded_witness :
  ReviewInput.review_diff "--- a/src/app.py" = "--- a/src/app.py".
Proof.
  refine (proj1 (proj2 (proj2 (review_diff_is_bounded "--- a/src/app.py"))) _ _).
  - discriminate.
  - cbn. lia.
Defined.

(* ------------------------------------------------------------------ *)
(** ** The iteration counter under failing collaborators *)

(** X20. Every call of [handle_review_feedback] raises the iteration
    counter by one, whatever the collaborators do and also when the call
    itself raises; and a call made when the budget is used up never
    returns [True] and does nothing to the platform beyond posting the
    escalation comment. *)
Theorem feedback_call_always_counts :
  forall (W : Type) (env : CodeAgent.Env W) (settings : Settings)
         (pr_number : Z) (feedback : string) (self : CodeAgent.Agent W),
    CodeAgent.iteration_count
      (snd (CodeAgent.handle_review_feedback env settings pr_number feedback self))
    = (CodeAgent.iteration_count self + 1)%Z
    /\ ((max_iterations settings < CodeAgent.iteration_count self + 1)%Z ->
        fst (CodeAgent.handle_review_feedback env settings pr_number feedback self)
        <> Ok true
        /\ CodeAgent.world
             (snd (CodeAgent.handle_review_feedback env settings pr_number feedback self))
           = snd (CodeAgent.add_pr_comment env pr_number CodeAgent.escalation_comment
                    (CodeAgent.world self))).
Proof.
  intros W env settings pr_number feedback self.
  unfold CodeAgent.handle_review_feedback, Eff.mbind, Eff.modify, Eff.get,
    CodeAgent.on_world, Eff.ret.
  destruct (Z.ltb_spec (max_iterations settings)
              (CodeAgent.iteration_count
                 {| CodeAgent.iteration_count := CodeAgent.iteration_count self + 1;
                    CodeAgent.world := CodeAgent.world self |}))
    as [Hover | Hwithin]; cbn [CodeAgent.iteration_count CodeAgent.world] in *.
  - destruct (CodeAgent.add_pr_comment env pr_number CodeAgent.escalation_comment
                (CodeAgent.world self)) as [[[] | e] w1]; cbn.
    + split; [reflexivity |]. intros _. split; [discriminate | reflexivity].
    + split; [reflexivity |]. intros _. split; [discriminate | reflexivity].
  - split; [| lia].
    destruct (CodeAgent.add_pr_comment env pr_number _ (CodeAgent.world self))
      as [[[] | e] w1]; cbn; [| reflexivity].
    destruct (CodeAgent.revise env pr_number feedback w1) as [[[] | e] w2];
      reflexivity.
Qed.

(** The third call on the in-memory platform, with a budget of two. *)
Lemma feedback_call_always_counts_witness :
  fst (CodeAgent.handle_review_feedback (MemPlatform.mem_env "x = 2")
         MemPlatform.two_iterations 7 "once more"
         {| CodeAgent.iteration_count := 2; CodeAgent.world := MemPlatform.mem_world |})
  <> Ok true.
Proof.
  refine (proj1 (proj2 (feedback_call_always_counts MemPlatform.MemWorld
                          (MemPlatform.mem_env "x = 2") MemPlatform.two_iterations
                          7 "once more"
                          {| CodeAgent.iteration_count := 2;
                             CodeAgent.world := MemPlatform.mem_world |}) _)).
  cbn. lia.
Defined.

(* ------------------------------------------------------------------ *)
(** ** From the analysis to the plan *)

Section AnalysisToPlan.
Import Interpreter Plan.

Lemma lookup_dict_set_eq (d : dict) (k : string) (v : json) :
  lookup k (dict_set d k v) = Some v.
Proof.
  induction d as [| [k' v'] d IH]; cbn [dict_set lookup].
  - now rewrite String.eqb_refl.
  - destruct (String.eqb k k') eqn:Hk; cbn [lookup]; rewrite ?String.eqb_refl, ?Hk; auto.
Qed.

Lemma lookup_dict_set_ne (d : dict) (k k' : string) (v : json) :
  k' <> k -> lookup k' (dict_set d k v) = lookup k' d.
Proof.
  intros Hne. induction d as [| [k0 v0] d IH]; cbn [dict_set lookup].
  - apply String.eqb_neq in Hne. now rewrite Hne.
  - destruct (String.eqb k k0) eqn:Hk; cbn [lookup].
    + apply String.eqb_eq in Hk as <-. apply String.eqb_neq in Hne. now rewrite Hne.
    + now rewrite IH.
Qed.

Lemma plan_of_analysis (settings : Settings) (n : Z) (T : string) (d inner : dict) :
  lookup "analysis" d = Some (JDict inner) ->
  _create_implementation_plan settings n T d
  = Ok {| plan_issue_number := n;
          branch_name := derive_branch_name settings n T;
          files_to_modify := dict_get inner "files_to_modify" (JList []);
          plan_analysis := d |}.
Proof.
  intros Hl. unfold _create_implementation_plan, dict_get at 1. rewrite Hl. reflexivity.
Qed.

Lemma complete_analysis_ok (tree : result (list string)) (analysis v : json) :
  complete_analysis tree analysis = Ok v ->
  exists d inner, v = JDict d /\ lookup "analysis" d = Some (JDict inner).
Proof.
  unfold complete_analysis.
  destruct analysis as [| | | | | d]; try discriminate.
  cbn [py_get bind].
  destruct (dict_get d "analysis" (JDict [])) as [| | | | | inner] eqn:Hinner;
    try discriminate.
  cbn [py_get bind].
  destruct (py_lower (dict_get inner "requirement_summary" (JStr ""))) as [req | e];
    [| discriminate].
  cbn [bind].
  destruct (truthy (dict_get inner "files_to_modify" JNull)) eqn:Hfiles; cbn [negb].
  - intros [= <-]. exists d, inner. split; [reflexivity |].
    unfold dict_get in Hinner. destruct (lookup "analysis" d) as [x |].
    + now subst x.
    + injection Hinner as <-. discriminate Hfiles.
  - destruct (Resolver._discover_relevant_files tree req) as [found | e]; [| discriminate].
    cbn [bind set_files_to_modify].
    destruct (lookup "analysis" d) as [[| | | | | inner'] |]; try discriminate.
    intros [= <-]. eexists _, _. split; [reflexivity |]. apply lookup_dict_set_eq.
Qed.

End AnalysisToPlan.

(** X21. Every analysis that [_analyze_issue] returns can be planned:
    it is a dictionary whose "analysis" entry is a dictionary, so
    [_create_implementation_plan] does not raise on it and takes its
    file list from that entry, whatever the decoder, the response and
    the repository tree. *)
Theorem returned_analysis_can_be_planned :
  forall (json_loads : string -> decoding) (issue : Interpreter.IssueData)
         (generated : result string) (tree : result (list string)) (v : json),
    Interpreter._analyze_issue json_loads issue generated tree = Ok v ->
    exists d inner : dict,
      v = JDict d
      /\ lookup "analysis" d = Some (JDict inner)
      /\ forall (settings : Settings) (n : Z) (T : string),
           Plan._create_implementation_plan settings n T d
           = Ok {| Plan.plan_issue_number := n;
                   Plan.branch_name := Plan.derive_branch_name settings n T;
                   Plan.files_to_modify := dict_get inner "files_to_modify" (JList []);
                   Plan.plan_analysis := d |}.
Proof.
  intros json_loads issue generated tree v.
  unfold Interpreter._analyze_issue.
  destruct generated as [response | e]; [| discriminate]. cbn [bind].
  assert (Hfb : Ok (Interpreter.fallback_analysis issue) = Ok v ->
                exists d inner : dict,
                  v = JDict d /\ lookup "analysis" d = Some (JDict inner)).
  { intros [= <-]. eexists _, _. split; reflexivity. }
  intros H.
  assert (Hshape : exists d inner : dict,
             v = JDict d /\ lookup "analysis" d = Some (JDict inner)).
  { destruct (Interpreter.search_braces response) as [span |]; [| now apply Hfb].
    destruct (json_loads span) as [analysis | | e]; [| now apply Hfb | discriminate].
    now apply (complete_analysis_ok tree analysis). }
  destruct Hshape as (d & inner & -> & Hl).
  exists d, inner. split; [reflexivity |]. split; [exact Hl |].
  intros settings n T. now apply plan_of_analysis.
Qed.

(** The analysis of a prose-only response is the fallback record, and a
    plan is made from it. *)
Lemma returned_analysis_can_be_planned_witness :
  exists d inner : dict,
    Interpreter.fallback_analysis
      {| Interpreter.title := "Add a loader"; Interpreter.issue_body := None |} = JDict d
    /\ lookup "analysis" d = Some (JDict inner).
Proof.
  destruct (returned_analysis_can_be_planned JsonDecode.loads
              {| Interpreter.title := "Add a loader"; Interpreter.issue_body := None |}
              (Ok "I would add a loader.") (Ok ["src/app.py"]) _ eq_refl)
    as (d & inner & H1 & H2 & _).
  exists d, inner. split; [exact H1 | exact H2].
Defined.

(* ------------------------------------------------------------------ *)
(** ** CI evidence and the decision *)

(** X22. One status entry of the latest commit that is not "success"
    is enough to keep a pull request from being merged: whatever the
    review says, the decision is "fix_ci"; so it is for a pull request
    without commits. *)
Theorem failing_status_blocks_merge :
  forall (earlier : list Client.Commit) (latest : Client.Commit) (entry : Client.Status)
         (rr : dict),
    In entry (Client.statuses latest) ->
    Client.state entry <> "success" ->
    Reviewer._determine_next_action rr (Client.get_ci_status (earlier ++ [latest]))
    = "fix_ci"
    /\ Reviewer._determine_next_action rr (Client.get_ci_status []) = "fix_ci".
Proof.
  intros earlier latest entry rr Hin Hstate.
  assert (Hfail : Client.success (Client.get_ci_status (earlier ++ [latest])) = false).
  { destruct (Client.success (Client.get_ci_status (earlier ++ [latest]))) eqn:Hs;
      [| reflexivity].
    unfold Client.get_ci_status in Hs.
    rewrite last_snoc_commit, ci_loop_success in Hs. cbn [Client.success andb] in Hs.
    apply forallb_state_success in Hs. rewrite Forall_forall in Hs.
    exfalso. apply Hstate, Hs. now apply list_elem_of_In. }
  rewrite !next_action_unfold, Hfail. cbn [Client.get_ci_status last Client.success].
  rewrite !andb_false_r. split; reflexivity.
Qed.

Lemma failing_status_blocks_merge_witness :
  Reviewer._determine_next_action (review_of true "approved")
    (Client.get_ci_status [Scenarios.red_commit]) = "fix_ci".
Proof.
  refine (proj1 (failing_status_blocks_merge [] Scenarios.red_commit
                   {| Client.context := "ci/test"; Client.state := "failure";
                      Client.description := "2 tests failed"; Client.target_url := "" |}
                   (review_of true "approved") _ _)).
  - right. left. reflexivity.
  - discriminate.
Defined.

(* ------------------------------------------------------------------ *)
(** ** Cycles that do not run through *)

Section BrokenCycles.
Import IssueProcessor.
Context {W : Type}.
Variable c : Collab W.

Lemma for_each_app_ok {A} (a b : list A) (body : A -> Eff.M (State W) unit)
    (st : State W) :
  fst (Eff.for_each a body st) = Ok tt ->
  Eff.for_each (a ++ b) body st = Eff.for_each b body (snd (Eff.for_each a body st)).
Proof.
  revert st. induction a as [| x a IH]; intros st Hok; [reflexivity |].
  cbn [app Eff.for_each] in *. unfold Eff.mbind in *.
  destruct (body x st) as [[[] | e] st1]; [| discriminate Hok].
  now apply IH.
Qed.

Lemma issue_step_interrupted (item : Item) (st : State W) (w : W) :
  process_issue c (number item) (world st) = (Raise KeyboardInterrupt, w) ->
  issue_step c item st
  = (Raise KeyboardInterrupt,
     {| results := results st; processed_issues := processed_issues st;
        last_check_time := last_check_time st; world := w |}).
Proof.
  intros H. unfold issue_step, Eff.mtry, Eff.mbind, on_world. now rewrite H.
Qed.

Lemma get_new_issues_fails (st : State W) (w : W) (e : string) :
  get_open_issues c (world st) = (Raise (Exception e), w) ->
  _get_new_issues c st
  = (Raise (Exception e),
     {| results := results st; processed_issues := processed_issues st;
        last_check_time := last_check_time st; world := w |}).
Proof.
  intros H. unfold _get_new_issues, Eff.mbind, on_world. now rewrite H.
Qed.

End BrokenCycles.

(** X23. When the platform fails to list the open issues, the cycle
    handles nothing: it returns zero counters and the single entry
    "Processor error: e", the pull requests are not listed either, and
    the processed set and the time of the last check stay as they
    were. *)
Theorem failed_issue_listing_ends_cycle :
  forall (W : Type) (c : IssueProcessor.Collab W) (st : IssueProcessor.State W)
         (w : W) (e : string),
    IssueProcessor.get_open_issues c (IssueProcessor.world st) = (Raise (Exception e), w) ->
    IssueProcessor.process_pending_issues c st
    = (Ok {| IssueProcessor.issues_processed := 0;
             IssueProcessor.prs_reviewed := 0;
             IssueProcessor.errors := ["Processor error: " +:+ e] |},
       {| IssueProcessor.results :=
            {| IssueProcessor.issues_processed := 0;
               IssueProcessor.prs_reviewed := 0;
               IssueProcessor.errors := ["Processor error: " +:+ e] |};
          IssueProcessor.processed_issues := IssueProcessor.processed_issues st;
          IssueProcessor.last_check_time := IssueProcessor.last_check_time st;
          IssueProcessor.world := w |}).
Proof.
  intros W c st w e H.
  rewrite (cycle_listing_fails c st _ e
             (get_new_issues_fails c (IssueProcessor.reset st) w e H)).
  reflexivity.
Qed.

Lemma failed_issue_listing_ends_cycle_witness :
  fst (IssueProcessor.process_pending_issues Scenarios.unlisted MemScheduler.start)
  = Ok {| IssueProcessor.issues_processed := 0;
          IssueProcessor.prs_reviewed := 0;
          IssueProcessor.errors := ["Processor error: 503 Service Unavailable"] |}.
Proof.
  exact (f_equal fst (failed_issue_listing_ends_cycle MemScheduler.Log
                        Scenarios.unlisted MemScheduler.start [] _ eq_refl)).
Defined.

(** X24. An interrupt is not absorbed: when the handling of a new issue
    is interrupted, after the issues before it were handled, the cycle
    raises the interrupt, the issues after it and the pull requests are
    left alone, and the platform is as the interrupted call left it. *)
Theorem interrupt_leaves_the_cycle :
  forall (W : Type) (c : IssueProcessor.Collab W) (st st1 : IssueProcessor.State W)
         (pre post : list IssueProcessor.Item) (item : IssueProcessor.Item) (w : W),
    IssueProcessor._get_new_issues c (IssueProcessor.reset st)
    = (Ok (pre ++ item :: post)%list, st1) ->
    fst (Eff.for_each pre (IssueProcessor.issue_step c) st1) = Ok tt ->
    IssueProcessor.process_issue c (IssueProcessor.number item)
      (IssueProcessor.world (snd (Eff.for_each pre (IssueProcessor.issue_step c) st1)))
    = (Raise KeyboardInterrupt, w) ->
    fst (IssueProcessor.process_pending_issues c st) = Raise KeyboardInterrupt
    /\ IssueProcessor.world (snd (IssueProcessor.process_pending_issues c st)) = w.
Proof.
  intros W c st st1 pre post item w Hlist Hpre Hint.
  unfold IssueProcessor.process_pending_issues, Eff.mtry, Eff.mbind, Eff.modify,
    Eff.get, Eff.ret.
  rewrite Hlist, (for_each_app_ok pre (item :: post) _ st1 Hpre).
  cbn [Eff.for_each]. unfold Eff.mbind.
  rewrite (issue_step_interrupted c item _ w Hint).
  split; reflexivity.
Qed.

Lemma interrupt_leaves_the_cycle_witness :
  fst (IssueProcessor.process_pending_issues Scenarios.interrupted MemScheduler.start)
  = Raise KeyboardInterrupt
  /\ IssueProcessor.world
       (snd (IssueProcessor.process_pending_issues Scenarios.interrupted
               MemScheduler.start))
     = ["process_issue 1"; "process_issue 2"].
Proof.
  exact (interrupt_leaves_the_cycle MemScheduler.Log Scenarios.interrupted
           MemScheduler.start MemScheduler.start
           [MemScheduler.recent 1] [MemScheduler.recent 3] (MemScheduler.recent 2)
           ["process_issue 1"; "process_issue 2"] eq_refl eq_refl eq_refl).
Defined.
